(** * amass: scope membership and name-to-address resolution

  A shallow embedding of
    - [engine/sessions/scope/scope.go]  ([IsAssetInScope], [isBadField]),
    - the [utils] package               ([NamesToAddrs], [cnameQuery],
                                         [generatePairsFromAddrMap]),
    - the scrape plugins                ([bing], [rapidDNS]: [check], [query]),
  and the properties the specification states about them.

  Go strings are byte strings and are modelled by [string]; Go [int] values
  stay within the range where no wrap-around occurs and are modelled by [Z];
  a [map[string]T] is a [gmap string T]; a [stringset.Set] is a [gset string]
  whose elements are normalised on the way in. *)

From Stdlib Require Import ZArith Ascii String List Bool Lia Permutation.
From stdpp Require Import base option list gmap strings pretty fin_maps fin_sets sets.

Open Scope string_scope.
Open Scope Z_scope.

(** ** Go's [strings] package, the part used by the sources *)

Module strings.

(** [strings.HasPrefix]. *)
Fixpoint HasPrefix (s prefix : string) : bool :=
  match prefix, s with
  | EmptyString, _ => true
  | String _ _, EmptyString => false
  | String p ps, String c cs => if Ascii.eqb c p then HasPrefix cs ps else false
  end.

(** [strings.Contains]: [substr] occurs at some byte offset of [s]. *)
Fixpoint Contains (s substr : string) : bool :=
  HasPrefix s substr ||
  match s with
  | EmptyString => false
  | String _ cs => Contains cs substr
  end.

(** [strings.Join]. *)
Fixpoint Join (elems : list string) (sep : string) : string :=
  match elems with
  | [] => ""
  | [e] => e
  | e :: es => e +:+ sep +:+ Join es sep
  end.

End strings.

(** ** Go's [net/netip] values

  An [Addr] is a 128-bit number together with a tag [z] that says whether
  the value is the zero [Addr], an IPv4 address, or an IPv6 address (with an
  optional zone); [Is4] and [Is6] read the tag the way the library does.
  The parser and the printer are library code and stay parameters of the
  development (class [GoRuntime] below). *)

Module netip.

Inductive zoneTag :=
| z0                      (* the zero Addr: not an address *)
| z4                      (* IPv4 *)
| z6noz                   (* IPv6 without zone *)
| z6zone (zone : string). (* IPv6 with a zone *)

Record Addr := { addr : N; z : zoneTag }.

Definition Is4 (ip : Addr) : bool :=
  match z ip with z4 => true | _ => false end.

Definition Is6 (ip : Addr) : bool :=
  match z ip with z0 | z4 => false | _ => true end.

Record Prefix := { ip : Addr; bits : Z }.

#[global] Instance zoneTag_eq_dec : EqDecision zoneTag.
Proof. solve_decision. Defined.
#[global] Instance Addr_eq_dec : EqDecision Addr.
Proof. solve_decision. Defined.

End netip.

(** ** The open asset model, reduced to the fields the sources read *)

Module domain.
Record FQDN := { Name : string }.
#[global] Instance FQDN_eq_dec : EqDecision FQDN.
Proof. solve_decision. Defined.
End domain.

Module contact.
Record EmailAddress := { Address : string; Username : string; Domain : string }.
Record Location := { LocAddress : string; City : string; Country : string }.
End contact.

Module network.
Record IPAddress := { Address : netip.Addr; Type_ : string }.
Record Netblock := { CIDR : netip.Prefix; NetType : string }.
Record AutonomousSystem := { Number : Z }.
#[global] Instance IPAddress_eq_dec : EqDecision IPAddress.
Proof. solve_decision. Defined.
End network.

Module org.
Record Organization := { Name : string }.
End org.

Module oamreg.
Record DomainRecord := { Domain : string; Name : string }.
Record IPNetRecord := { CIDR : netip.Prefix; Type_ : string }.
Record AutnumRecord := { Number : Z; AutName : string }.
End oamreg.

Module oamcert.
Record TLSCertificate := { SubjectCommonName : string }.
End oamcert.

Module oamurl.
Record URL := { Host : string }.
End oamurl.

Module oamfin.
Record Fingerprint := { Value : string; Type_ : string }.
End oamfin.

Module oam.

(** The [oam.Asset] interface: a value of one of the dynamic types the
    type switches of the sources name, or of any other asset type. *)
Inductive Asset :=
| FQDN (v : domain.FQDN)
| EmailAddress (v : contact.EmailAddress)
| IPAddress (v : network.IPAddress)
| Netblock (v : network.Netblock)
| AutonomousSystem (v : network.AutonomousSystem)
| DomainRecord (v : oamreg.DomainRecord)
| IPNetRecord (v : oamreg.IPNetRecord)
| AutnumRecord (v : oamreg.AutnumRecord)
| TLSCertificate (v : oamcert.TLSCertificate)
| URL (v : oamurl.URL)
| Organization (v : org.Organization)
| Location (v : contact.Location)
| Fingerprint (v : oamfin.Fingerprint)
| OtherAsset (assetType : string).

End oam.

(** ** engine/sessions/scope/scope.go *)

Module scope.

(** What a matcher returns: the matched registry entry ([nil] is [None])
    and the accuracy. *)
Definition Match : Type := option oam.Asset * Z.

(** The per-kind matchers are methods of [Scope] whose bodies live in other
  files of the package; [IsAssetInScope] only dispatches to them.  A scope is
  therefore modelled by what its matchers answer. *)
Record Scope := {
  matchesDomain : domain.FQDN -> Match;
  addressInScope : network.IPAddress -> Match;
  matchesNetblock : network.Netblock -> Match;
  matchesAutonomousSystem : network.AutonomousSystem -> Match;
  matchesOrg : org.Organization -> Z -> Match;
  matchesLocation : contact.Location -> Z -> Match;
  matchesFin : oamfin.Fingerprint -> Match
}.

(** The test [match == nil || accuracy == 0] of [IsAssetInScope]. *)
Definition noMatch (r : Match) : bool :=
  match r with
  | (None, _) => true
  | (Some _, accuracy) => accuracy =? 0
  end.

Definition IsAssetInScope (s : Scope) (a : oam.Asset) (conf : Z) : Match :=
  match a with
  | oam.FQDN v => matchesDomain s v
  | oam.EmailAddress v =>
      matchesDomain s {| domain.Name := contact.Domain v |}
  | oam.IPAddress v => addressInScope s v
  | oam.Netblock v => matchesNetblock s v
  | oam.AutonomousSystem v => matchesAutonomousSystem s v
  | oam.DomainRecord v =>
      let r := matchesDomain s {| domain.Name := oamreg.Domain v |} in
      if noMatch r
      then matchesOrg s {| org.Name := oamreg.Name v |} conf
      else r
  | oam.IPNetRecord v =>
      matchesNetblock s {| network.CIDR := oamreg.CIDR v;
                           network.NetType := oamreg.Type_ v |}
  | oam.AutnumRecord v =>
      let r := matchesAutonomousSystem s {| network.Number := oamreg.Number v |} in
      if noMatch r
      then matchesOrg s {| org.Name := oamreg.AutName v |} conf
      else r
  | oam.TLSCertificate v =>
      matchesDomain s {| domain.Name := oamcert.SubjectCommonName v |}
  | oam.URL v => matchesDomain s {| domain.Name := oamurl.Host v |}
  | oam.Organization v => matchesOrg s v conf
  | oam.Location v => matchesLocation s v conf
  | oam.Fingerprint v => matchesFin s v
  | oam.OtherAsset _ => (None, 0)
  end.

(** The asset kinds the type switch of [IsAssetInScope] has a case for. *)
Definition handledKind (a : oam.Asset) : bool :=
  match a with
  | oam.FQDN _ | oam.EmailAddress _ | oam.IPAddress _ | oam.Netblock _
  | oam.AutonomousSystem _ | oam.DomainRecord _ | oam.IPNetRecord _
  | oam.AutnumRecord _ | oam.TLSCertificate _ | oam.URL _
  | oam.Organization _ | oam.Location _ | oam.Fingerprint _ => true
  | oam.OtherAsset _ => false
  end.

(** A projection matches when the matcher hands back an entry and a
  non-zero accuracy. *)
Definition isMatch (r : Match) : bool := negb (noMatch r).

Definition badstrs : list string :=
  ["registration"; "registry"; "redact"; "private"; "privacy";
   "available"; "domain"; "proxy"; "liability"].

(** The loop of [isBadField] over a list of bad strings. *)
Fixpoint anyContained (field : string) (bads : list string) : bool :=
  match bads with
  | [] => false
  | bad :: rest =>
      if strings.Contains field bad then true else anyContained field rest
  end.

Definition isBadField (field : string) : bool := anyContained field badstrs.

(** Modelled from the spec: [matchesOrg] and [matchesLocation], the callers
    of [isBadField], are missing from the sources; the specification says
    that organization and location matching runs "only over fields that are
    not flagged as noisy".  [matchableFields] is the list of fields of a
    candidate that such a matcher compares. *)
Definition matchableFields (fields : list string) : list string :=
  filter (fun f => isBadField f = false) fields.

End scope.


(** ** Go's [time.Time], the part used by the sources

  An instant is kept as the number of whole seconds since January 1 of
  year 1, 00:00:00 UTC, and the nanoseconds within that second. *)

Module time.

Record Time := { sec : Z; nsec : Z }.

(** [Time.IsZero]: the zero instant. *)
Definition IsZero (t : Time) : bool := (sec t =? 0) && (nsec t =? 0).



End time.

(** ** Library functions the sources call

  The bodies of these functions belong to Go's standard library; what the
  sources do with their results does not depend on how they compute them.
    - [ParseAddr] is [netip.ParseAddr], [None] standing for a parse error;
    - [AddrString] is [Addr.String];
    - [FormatSec] renders a whole second under the layout
      ["2006-01-02 15:04:05"], which has no field below the second;
    - [ToLower], [TrimSpace] and [EqualFold] are those of [strings]. *)

Class GoRuntime := {
  ParseAddr : string -> option netip.Addr;
  AddrString : netip.Addr -> string;
  FormatSec : Z -> string;
  ToLower : string -> string;
  TrimSpace : string -> string;
  EqualFold : string -> string -> bool
}.

(** [t.Format("2006-01-02 15:04:05")]. *)
Definition Format `{GoRuntime} (t : time.Time) : string := FormatSec (time.sec t).

(** ** github.com/caffix/stringset

  A set of strings that lower-cases every element it is given, on insertion,
  removal and lookup.  [Slice] lists the elements in an order the library
  leaves open; [elements] fixes one. *)

Module stringset.
Section stringset.
Context `{GoRuntime}.

Definition New : gset string := ∅.

Definition Insert (s : gset string) (element : string) : gset string :=
  {[ ToLower element ]} ∪ s.

Definition InsertMany (s : gset string) (elems : list string) : gset string :=
  fold_left Insert elems s.

Definition Remove (s : gset string) (element : string) : gset string :=
  s ∖ {[ ToLower element ]}.

Definition Has (s : gset string) (element : string) : bool :=
  bool_decide (ToLower element ∈ s).

Definition Len (s : gset string) : Z := Z.of_nat (size s).

(** [Slice] hands the elements back in no fixed order, as Go's walk over a
  map does; the model lists them in the order of [elements].  A statement
  about a list built from them is meant up to that order. *)
Definition Slice (s : gset string) : list string := elements s.

End stringset.
End stringset.


(** ** Effects

  The modelled functions act on the outside world only through calls to
  their collaborators (the graph store, the web, the session's cache).  A
  computation returns its value together with the calls it made, in order. *)

Module effects.

Definition M (E A : Type) : Type := A * list E.

Definition ret {E A} (a : A) : M E A := (a, []).

Definition bind {E A B} (m : M E A) (f : A -> M E B) : M E B :=
  let '(a, t1) := m in
  let '(b, t2) := f a in
  (b, (t1 ++ t2)%list).

Definition emit {E} (e : E) : M E unit := (tt, [e]).

(** A [for ... range] loop whose body makes calls. *)
Fixpoint forRange {E A S} (body : S -> A -> M E S) (l : list A) (s : S) : M E S :=
  match l with
  | [] => ret s
  | a :: rest => bind (body s a) (forRange body rest)
  end.

End effects.

Notation "'call' x <- m ; k" := (effects.bind m (fun x => k))
  (at level 10, x name, m at level 100, k at level 200, only parsing).

(** ** github.com/owasp-amass/asset-db, as the sources use it

  [dbt.Asset] and [dbt.Relation] carry the stored asset; the identifiers and
  creation dates the sources never read are left out.  The store answers a
  query text with rows or with an error; within one call of the resolver the
  graph does not change, so the three query operations are functions of the
  text. *)

Module dbt.

Record Asset := { ID : string; Asset_ : oam.Asset }.

Record Relation := {
  Type_ : string;
  LastSeen : time.Time;
  FromAsset : Asset;
  ToAsset : Asset
}.

End dbt.

Module assetdb.

(** A row of a raw query: the columns [name] and [addr]. *)
Record Row := { Name : string; Addr : string }.

(** What a query operation hands back: its rows, or the store's error. *)
Inductive reply (A : Type) :=
| Rows (rows : A)
| Failure (err : string).
Arguments Rows {A} rows.
Arguments Failure {A} err.

Record AssetDB := {
  RawQuery : string -> reply (list Row);
  RelationQuery : string -> reply (list dbt.Relation);
  AssetQuery : string -> reply (list dbt.Asset)
}.

End assetdb.

(** ** The [utils] package: [NamesToAddrs] *)

Module utils.

Import assetdb.

(** The two kinds of [error] the resolver can return: the one it creates
  itself with [errors.New("no addresses were discovered")], and an error
  handed up from the store. *)
Inductive error :=
| errNoAddresses
| errStore (err : string).

Inductive result (A : Type) :=
| Ok (a : A)
| Err (e : error).
Arguments Ok {A} a.
Arguments Err {A} e.

Record NameAddrPair := { FQDN : domain.FQDN; Addr : network.IPAddress }.

#[global] Instance NameAddrPair_eq_dec : EqDecision NameAddrPair.
Proof. solve_decision. Defined.

(** *** The store calls a run makes

  The resolver's only effects are its queries. *)

Inductive Call :=
| CallRawQuery (query : string)
| CallRelationQuery (query : string)
| CallAssetQuery (query : string).

Abbreviation M := (effects.M Call).

Definition dbRawQuery (db : AssetDB) (q : string) : M (reply (list Row)) :=
  (RawQuery db q, [CallRawQuery q]).

Definition dbRelationQuery (db : AssetDB) (q : string) : M (reply (list dbt.Relation)) :=
  (RelationQuery db q, [CallRelationQuery q]).

Definition dbAssetQuery (db : AssetDB) (q : string) : M (reply (list dbt.Asset)) :=
  (AssetQuery db q, [CallAssetQuery q]).

Section resolver.
Context `{GoRuntime}.

(** *** The query texts *)

(** Lines 57-68: the query for the addresses behind SRV, NS and MX records. *)
Definition indirectQuery (since : time.Time) (names : list string) : string :=
  let sel := "SELECT srvs.content->>'name' AS name,ips.content->>'address' AS addr " in
  let from_ := "FROM ((((assets AS fqdns INNER JOIN relations AS r1 ON fqdns.id = r1.from_asset_id) " in
  let from2 := "INNER JOIN assets AS srvs ON r1.to_asset_id = srvs.id) INNER JOIN relations AS r2 ON srvs.id =" in
  let from3 := " r2.from_asset_id) INNER JOIN assets AS ips ON r2.to_asset_id = ips.id)" in
  let where_ := " WHERE fqdns.type = 'FQDN' AND srvs.type = 'FQDN' AND ips.type = 'IPAddress'" in
  let where2 := " AND r1.type IN ('srv_record','ns_record','mx_record') AND r2.type IN ('a_record','aaaa_record')" in
  let query := sel +:+ from_ +:+ from2 +:+ from3 +:+ where_ +:+ where2 in
  let query :=
    if negb (time.IsZero since)
    then query +:+ " AND r1.last_seen > '" +:+ Format since +:+
                   "' AND r2.last_seen > '" +:+ Format since +:+ "'"
    else query in
  query +:+ " AND fqdns.content->>'name' in ('" +:+ strings.Join names "','" +:+ "')".

(** Lines 92-98: the query for direct A and AAAA records. *)
Definition directQuery (since : time.Time) (names : list string) : string :=
  let from_ := "(relations inner join assets on relations.from_asset_id = assets.id)" in
  let where_ := " where assets.type = 'FQDN' and relations.type in ('a_record','aaaa_record')" in
  let likeset := " and assets.content->>'name' in ('" +:+ strings.Join names "','" +:+ "')" in
  let query := from_ +:+ where_ +:+ likeset in
  if negb (time.IsZero since)
  then query +:+ " and relations.last_seen > '" +:+ Format since +:+ "'"
  else query.

(** Lines 121-127: the query for the names that have a CNAME record. *)
Definition aliasQuery (since : time.Time) (names : list string) : string :=
  let from_ := "(assets inner join relations on assets.id = relations.from_asset_id)" in
  let where_ := " where assets.type = 'FQDN' and relations.type = 'cname_record'" in
  let likeset := " and assets.content->>'name' in ('" +:+ strings.Join names "','" +:+ "')" in
  let query := from_ +:+ where_ +:+ likeset in
  if negb (time.IsZero since)
  then query +:+ " and relations.last_seen > '" +:+ Format since +:+ "'"
  else query.

Definition cnameQuery (name : string) (since : time.Time) : string :=
  let query := "WITH RECURSIVE traverse_cname(fqdn) AS ( VALUES('" +:+ name +:+ "')" in
  let query := query +:+ " UNION SELECT cnames.content->>'name' FROM ((assets AS fqdns" in
  let query := query +:+ " INNER JOIN relations ON fqdns.id = relations.from_asset_id)" in
  let query := query +:+ " INNER JOIN assets AS cnames ON relations.to_asset_id = cnames.id), traverse_cname" in
  let query := query +:+ " WHERE fqdns.type = 'FQDN' AND cnames.type = 'FQDN'" in
  let query :=
    if negb (time.IsZero since)
    then query +:+ " and relations.last_seen > '" +:+ Format since +:+ "'"
    else query in
  let query := query +:+ " AND relations.type = 'cname_record' AND fqdns.content->>'name' = traverse_cname.fqdn)" in
  let query := query +:+ " SELECT fqdns.content->>'name' AS name, ips.content->>'address' AS addr" in
  let query := query +:+ " FROM ((assets AS fqdns INNER JOIN relations ON fqdns.id = relations.from_asset_id)" in
  let query := query +:+ " INNER JOIN assets AS ips ON relations.to_asset_id = ips.id)" in
  let query := query +:+ " WHERE fqdns.type = 'FQDN' AND ips.type = 'IPAddress'" in
  let query :=
    if negb (time.IsZero since)
    then query +:+ " and relations.last_seen > '" +:+ Format since +:+ "'"
    else query in
  let query := query +:+ " AND relations.type IN ('a_record', 'aaaa_record') AND " in
  query +:+ "fqdns.content->>'name' IN (SELECT fqdn FROM traverse_cname)".


(** *** The working state: the names still to resolve, and the addresses
  found so far for each name *)

Definition State : Type := gset string * gmap string (gset string).

Definition len {A} (l : list A) : Z := Z.of_nat (length l).

(** [if _, found := nameAddrMap[name]; !found { nameAddrMap[name] = stringset.New() }] *)
Definition ensureEntry (nameAddrMap : gmap string (gset string)) (name : string)
  : gmap string (gset string) :=
  match nameAddrMap !! name with
  | Some _ => nameAddrMap
  | None => <[ name := stringset.New ]> nameAddrMap
  end.

(** [nameAddrMap[name].Insert(addr)] on an entry that exists. *)
Definition insertAddr (nameAddrMap : gmap string (gset string)) (name addr : string)
  : gmap string (gset string) :=
  alter (fun set => stringset.Insert set addr) name nameAddrMap.

(** Lines 76-85: the body of the loop over the rows of the first query. *)
Definition indirectStep (st : State) (res : Row) : State :=
  let '(remaining, nameAddrMap) := st in
  if negb (stringset.Has remaining (assetdb.Name res)) then st
  else
    let remaining := stringset.Remove remaining (assetdb.Name res) in
    let nameAddrMap := ensureEntry nameAddrMap (assetdb.Name res) in
    (remaining, insertAddr nameAddrMap (assetdb.Name res) (assetdb.Addr res)).

(** Lines 104-114: the body of the loop over the relations of the second
  query. *)
Definition directStep (st : State) (rel : dbt.Relation) : State :=
  let '(remaining, nameAddrMap) := st in
  match dbt.Asset_ (dbt.FromAsset rel) with
  | oam.FQDN f =>
      let nameAddrMap := ensureEntry nameAddrMap (domain.Name f) in
      match dbt.Asset_ (dbt.ToAsset rel) with
      | oam.IPAddress a =>
          (stringset.Remove remaining (domain.Name f),
           insertAddr nameAddrMap (domain.Name f) (AddrString (network.Address a)))
      | _ => (remaining, nameAddrMap)
      end
  | _ => st
  end.

(** Lines 134-139: the names of the assets that are FQDNs. *)
Definition cnamesOf (assets : list dbt.Asset) : list string :=
  omap (fun a => match dbt.Asset_ a with
                 | oam.FQDN f => Some (domain.Name f)
                 | _ => None
                 end) assets.

(** Lines 151-156: the body of the loop over the rows of a chain query. *)
Definition chainRow (name : string) (nameAddrMap : gmap string (gset string)) (res : Row)
  : gmap string (gset string) :=
  insertAddr (ensureEntry nameAddrMap name) name (assetdb.Addr res).

(** Lines 142-158: the body of the loop over the alias names. *)
Definition chainStep (db : AssetDB) (since : time.Time) (st : State) (name : string)
  : M State :=
  call r <- dbRawQuery db (cnameQuery name since);
  effects.ret (match r with
       | Rows results =>
           if 0 <? len results
           then (stringset.Remove (fst st) name,
                 fold_left (chainRow name) results (snd st))
           else st
       | Failure _ => st
       end).

(** *** [generatePairsFromAddrMap] *)

(** Lines 190-195: the address with its family tag. *)
Definition tagged (ip : netip.Addr) : network.IPAddress :=
  {| network.Address := ip;
     network.Type_ := if netip.Is4 ip then "IPv4"
                      else if netip.Is6 ip then "IPv6"
                      else "" |}.

(** Lines 189-200: the body of the inner loop. *)
Definition pairStep (name : string) (pairs : list NameAddrPair) (addr : string)
  : list NameAddrPair :=
  match ParseAddr addr with
  | Some ip =>
      (pairs ++ [ {| FQDN := {| domain.Name := name |}; Addr := tagged ip |} ])%list
  | None => pairs
  end.

(** Lines 187-202: both loops.  The order in which Go walks a map and in
  which [Slice] lists a set is not fixed; [map_to_list] and [elements] pick
  one order. *)
Definition collectPairs (addrMap : gmap string (gset string)) : list NameAddrPair :=
  fold_left (fun pairs entry =>
               fold_left (pairStep (fst entry)) (stringset.Slice (snd entry)) pairs)
            (map_to_list addrMap) [].

Definition generatePairsFromAddrMap (addrMap : gmap string (gset string))
  : result (list NameAddrPair) :=
  let pairs := collectPairs addrMap in
  if len pairs =? 0 then Err errNoAddresses else Ok pairs.

(** *** [NamesToAddrs] *)

(** Lines 56-86: the first stage, from the query text to the end of the
  loop over its rows.  An error of the store leaves the state as it is. *)
Definition indirectStage (db : AssetDB) (since : time.Time) (st : State) : M State :=
  let query := indirectQuery since (stringset.Slice (fst st)) in
  call r <- dbRawQuery db query;
  effects.ret (match r with
       | Rows results =>
           if 0 <? len results then fold_left indirectStep results st else st
       | Failure _ => st
       end).

Definition NamesToAddrs (db : AssetDB) (since : time.Time) (names : list string)
  : M (result (list NameAddrPair)) :=
  let nameAddrMap : gmap string (gset string) := ∅ in
  let remaining := stringset.InsertMany stringset.New names in
  call st <- indirectStage db since (remaining, nameAddrMap);
  let '(remaining, nameAddrMap) := st in
  if stringset.Len remaining =? 0
  then effects.ret (generatePairsFromAddrMap nameAddrMap)
  else
    call r <- dbRelationQuery db (directQuery since (stringset.Slice remaining));
    match r with
    | Failure err => effects.ret (Err (errStore err))
    | Rows rels =>
        let '(remaining, nameAddrMap) :=
          fold_left directStep rels (remaining, nameAddrMap) in
        if stringset.Len remaining =? 0
        then effects.ret (generatePairsFromAddrMap nameAddrMap)
        else
          call r <- dbAssetQuery db (aliasQuery since (stringset.Slice remaining));
          match r with
          | Failure err => effects.ret (Err (errStore err))
          | Rows assets =>
              let cnames := cnamesOf assets in
              call st <- effects.forRange (chainStep db since) cnames (remaining, nameAddrMap);
              effects.ret (generatePairsFromAddrMap (snd st))
          end
    end.

(** *** Names for the stages of a run

  The state after each stage, as [NamesToAddrs] computes it; the properties
  below are stated with these names. *)

Definition start (names : list string) : State :=
  (stringset.InsertMany stringset.New names, ∅).

Definition afterIndirect (db : AssetDB) (since : time.Time) (names : list string)
  : State :=
  fst (indirectStage db since (start names)).

Definition afterDirect (db : AssetDB) (since : time.Time) (names : list string)
  (rels : list dbt.Relation) : State :=
  fold_left directStep rels (afterIndirect db since names).

Definition afterChains (db : AssetDB) (since : time.Time) (names : list string)
  (rels : list dbt.Relation) (assets : list dbt.Asset) : State :=
  fst (effects.forRange (chainStep db since) (cnamesOf assets)
                        (afterDirect db since names rels)).

(** The three queries that carry a list of names. *)
Definition indirectCall (since : time.Time) (remaining : gset string) : Call :=
  CallRawQuery (indirectQuery since (stringset.Slice remaining)).

Definition directCall (since : time.Time) (remaining : gset string) : Call :=
  CallRelationQuery (directQuery since (stringset.Slice remaining)).

Definition aliasCall (since : time.Time) (remaining : gset string) : Call :=
  CallAssetQuery (aliasQuery since (stringset.Slice remaining)).

(** The address map that reaches [generatePairsFromAddrMap], or the store
  error that ends the run before. *)
Definition finalAddrMap (db : AssetDB) (since : time.Time) (names : list string)
  : result (gmap string (gset string)) :=
  let st1 := afterIndirect db since names in
  if stringset.Len (fst st1) =? 0 then Ok (snd st1)
  else
    match RelationQuery db (directQuery since (stringset.Slice (fst st1))) with
    | Failure err => Err (errStore err)
    | Rows rels =>
        let st2 := afterDirect db since names rels in
        if stringset.Len (fst st2) =? 0 then Ok (snd st2)
        else
          match AssetQuery db (aliasQuery since (stringset.Slice (fst st2))) with
          | Failure err => Err (errStore err)
          | Rows assets => Ok (snd (afterChains db since names rels assets))
          end
    end.

(** The names a stage resolves: those the indirect query has a row for, and
  those the direct query has a relation to an address for. *)
Definition indirectResolved (rows : list Row) : gset string :=
  list_to_set (ToLower <$> (assetdb.Name <$> rows)).

Definition directResolved (rels : list dbt.Relation) : gset string :=
  list_to_set
    (ToLower <$>
       omap (fun rel =>
               match dbt.Asset_ (dbt.FromAsset rel), dbt.Asset_ (dbt.ToAsset rel) with
               | oam.FQDN f, oam.IPAddress _ => Some (domain.Name f)
               | _, _ => None
               end) rels).

(** The rows the store has for a raw query, none when it fails. *)
Definition rowsOf (r : reply (list Row)) : list Row :=
  match r with
  | Rows rows => rows
  | Failure _ => []
  end.

(** A store that answers as [db] does, except that a raw query that fails
  in [db] has no rows. *)
Definition quietRaw (db : AssetDB) : AssetDB :=
  {| RawQuery q := Rows (rowsOf (RawQuery db q));
     RelationQuery := RelationQuery db;
     AssetQuery := AssetQuery db |}.

(** The pair the resolver emits for a name and a parsed address. *)
Definition pairOf (name : string) (ip : netip.Addr) : NameAddrPair :=
  {| FQDN := {| domain.Name := name |}; Addr := tagged ip |}.

(** The pair for a name and an address text, if the text parses, and the
  pairs of one entry of the address map. *)
Definition parsedPair (name addr : string) : option NameAddrPair :=
  pairOf name <$> ParseAddr addr.

Definition entryPairs (entry : string * gset string) : list NameAddrPair :=
  omap (parsedPair (fst entry)) (elements (snd entry)).

(** The address texts of a map, each with its name. *)
Definition textsOf (addrMap : gmap string (gset string)) : list (string * string) :=
  map_to_list addrMap ≫= (fun entry => pair (fst entry) <$> elements (snd entry)).

(** The pairs an address map stands for: a name, and an address text of its
  set that parses. *)
Definition discovered (addrMap : gmap string (gset string)) (p : NameAddrPair) : Prop :=
  exists name set addr ip,
    addrMap !! name = Some set /\ addr ∈ set /\
    ParseAddr addr = Some ip /\ p = pairOf name ip.

(** Two results are the same outcome when both are the same error, or both
  are lists of the same pairs, in whatever order. *)
Definition sameOutcome (r1 r2 : result (list NameAddrPair)) : Prop :=
  match r1, r2 with
  | Ok l1, Ok l2 => l1 ≡ₚ l2
  | Err e1, Err e2 => e1 = e2
  | _, _ => False
  end.

(** *** The time restriction of a query

  What the queries say about time is one comparison per relation they read:
  nothing when [since] is the zero time, and otherwise that the relation was
  last seen later than the second [since] falls in, the text of which is
  [Format since]. *)





End resolver.
End utils.


(** ** The scrape plugins

  A plugin reaches the rest of the engine through the session of the event
  it handles: the scope, and the helpers of the [support] package, of the
  HTTP client and of the rate limiter.  The handlers only call those
  helpers: a session carries what they answer, and every call of a helper
  that reads or changes the world is recorded. *)

Module source.
Record Source := { Name : string; Confidence : Z }.
End source.

Module support.

(** The calls a handler makes. *)
Inductive Action :=
| GetSource (src : source.Source)
| SourceToAssetsWithinTTL (name atype : string) (src : dbt.Asset) (since : time.Time)
| Take
| RequestWebPage (url : string)
| StoreFQDNsWithSource (names : list string) (src : dbt.Asset) (plugin handler : string)
| MarkAssetMonitored (asset src : dbt.Asset)
| ProcessFQDNsWithSource (assets : list dbt.Asset) (src : dbt.Asset).

(** What the helpers answer in a given session. *)
Record Answers := {
  getSource : source.Source -> option dbt.Asset;
  ttlStartTime : string -> string -> string -> time.Time + string;
  assetMonitoredWithinTTL : dbt.Asset -> dbt.Asset -> time.Time -> bool;
  sourceToAssetsWithinTTL : string -> string -> dbt.Asset -> time.Time -> list dbt.Asset;
  storeFQDNsWithSource : list string -> dbt.Asset -> string -> string -> list dbt.Asset;
  requestWebPage : string -> assetdb.reply string;
  scrapeSubdomainNames : string -> list string
}.

End support.

Module et.

Record Session := { Scope : scope.Scope; Support : support.Answers }.

Record Event := { Asset : dbt.Asset; Session_ : Session }.

End et.

Module scrape.

Import support.

Abbreviation M := (effects.M support.Action).

Section plugins.
Context `{GoRuntime}.

(** The loop body shared by both [query] functions: keep a scraped name,
  lower-cased and trimmed, when the scope reports an accuracy above zero. *)
Definition keepInScope (e : et.Event) (subs : gset string) (n : string) : gset string :=
  let nstr := ToLower (TrimSpace n) in
  let '(_, conf) :=
    scope.IsAssetInScope (et.Scope (et.Session_ e))
                         (oam.FQDN {| domain.Name := nstr |}) 0 in
  if 0 <? conf then stringset.Insert subs nstr else subs.

(** The scope answers with an FQDN whose name equals the candidate's name
  up to case, and with a non-zero accuracy. *)
Definition exactMatch (s : scope.Scope) (fqdn : domain.FQDN) : bool :=
  match scope.IsAssetInScope s (oam.FQDN fqdn) 0 with
  | (Some (oam.FQDN f), conf) =>
      negb (conf =? 0) && EqualFold (domain.Name fqdn) (domain.Name f)
  | _ => false
  end.

(** *** bing *)

Definition bing_name : string := "Bing".

Definition bing_source : source.Source :=
  {| source.Name := "Bing"; source.Confidence := 60 |}.

(** [fmt.Sprintf(b.fmtstr, i, name, name)]. *)
Definition bing_url (i : Z) (name : string) : string :=
  "https://www.ask.com/web?o=0&l=dir&qo=pagination&page=" +:+ pretty i +:+
  "&q=site:" +:+ name +:+ " -www." +:+ name.

Definition bing_lookup (e : et.Event) (name : string) (src : dbt.Asset) (since : time.Time)
  : M (list dbt.Asset) :=
  call _ <- effects.emit (SourceToAssetsWithinTTL name "FQDN" src since);
  effects.ret (sourceToAssetsWithinTTL (et.Support (et.Session_ e)) name "FQDN" src since).

Definition bing_store (e : et.Event) (names : list string) (src : dbt.Asset)
  : M (list dbt.Asset) :=
  call _ <- effects.emit (StoreFQDNsWithSource names src bing_name (bing_name +:+ "-Handler"));
  effects.ret (storeFQDNsWithSource (et.Support (et.Session_ e)) names src
                                    bing_name (bing_name +:+ "-Handler")).

(** The loop [for i := 1; i < 10; i++] of [query], over the pages still to
  fetch; it stops at the first page that fails or is empty. *)
Fixpoint bing_pages (e : et.Event) (name : string) (pages : list Z) (subs : gset string)
  : M (gset string) :=
  match pages with
  | [] => effects.ret subs
  | i :: rest =>
      call _ <- effects.emit Take;
      call _ <- effects.emit (RequestWebPage (bing_url i name));
      match requestWebPage (et.Support (et.Session_ e)) (bing_url i name) with
      | assetdb.Failure _ => effects.ret subs
      | assetdb.Rows body =>
          if String.eqb body "" then effects.ret subs
          else bing_pages e name rest
                 (fold_left (keepInScope e)
                            (scrapeSubdomainNames (et.Support (et.Session_ e)) body) subs)
      end
  end.

Definition bing_query (e : et.Event) (name : string) (src : dbt.Asset)
  : M (list dbt.Asset) :=
  call subs <- bing_pages e name [1; 2; 3; 4; 5; 6; 7; 8; 9] stringset.New;
  bing_store e (stringset.Slice subs) src.

Definition bing_process (e : et.Event) (assets : list dbt.Asset) (src : dbt.Asset)
  : M unit :=
  effects.emit (ProcessFQDNsWithSource assets src).

(** The method [check] of [bing]; the result is the returned error, [None] for [nil]. *)
Definition bing_check (e : et.Event) : M (option string) :=
  match dbt.Asset_ (et.Asset e) with
  | oam.FQDN fqdn =>
      match scope.IsAssetInScope (et.Scope (et.Session_ e)) (oam.FQDN fqdn) 0 with
      | (None, _) => effects.ret None
      | (Some a, conf) =>
          if conf =? 0 then effects.ret None
          else
            match a with
            | oam.FQDN f =>
                if negb (EqualFold (domain.Name fqdn) (domain.Name f))
                then effects.ret None
                else
                  call _ <- effects.emit (GetSource bing_source);
                  match getSource (et.Support (et.Session_ e)) bing_source with
                  | None =>
                      effects.ret (Some "failed to obtain the plugin source information")
                  | Some src =>
                      match ttlStartTime (et.Support (et.Session_ e))
                                         "FQDN" "FQDN" bing_name with
                      | inr err => effects.ret (Some err)
                      | inl since =>
                          call names <-
                            (if assetMonitoredWithinTTL (et.Support (et.Session_ e))
                                                        (et.Asset e) src since
                             then bing_lookup e (domain.Name fqdn) src since
                             else
                               call names <- bing_query e (domain.Name fqdn) src;
                               call _ <- effects.emit (MarkAssetMonitored (et.Asset e) src);
                               effects.ret names);
                          call _ <-
                            (if 0 <? utils.len names
                             then bing_process e names src
                             else effects.ret tt);
                          effects.ret None
                      end
                  end
            | _ => effects.ret None
            end
      end
  | _ => effects.ret (Some "failed to extract the FQDN asset")
  end.

(** *** rapidDNS *)

Definition rapidDNS_name : string := "RapidDNS".

Definition rapidDNS_source : source.Source :=
  {| source.Name := "RapidDNS"; source.Confidence := 70 |}.

(** [fmt.Sprintf(rd.fmtstr, name)]. *)
Definition rapidDNS_url (name : string) : string :=
  "https://rapiddns.io/subdomain/" +:+ name +:+ "?full=1".

Definition rapidDNS_lookup (e : et.Event) (name : string) (src : dbt.Asset)
  (since : time.Time) : M (list dbt.Asset) :=
  call _ <- effects.emit (SourceToAssetsWithinTTL name "FQDN" src since);
  effects.ret (sourceToAssetsWithinTTL (et.Support (et.Session_ e)) name "FQDN" src since).

Definition rapidDNS_store (e : et.Event) (names : list string) (src : dbt.Asset)
  : M (list dbt.Asset) :=
  call _ <- effects.emit (StoreFQDNsWithSource names src rapidDNS_name
                                               (rapidDNS_name +:+ "-Handler"));
  effects.ret (storeFQDNsWithSource (et.Support (et.Session_ e)) names src
                                    rapidDNS_name (rapidDNS_name +:+ "-Handler")).

Definition rapidDNS_query (e : et.Event) (name : string) (src : dbt.Asset)
  : M (list dbt.Asset) :=
  call _ <- effects.emit Take;
  call _ <- effects.emit (RequestWebPage (rapidDNS_url name));
  match requestWebPage (et.Support (et.Session_ e)) (rapidDNS_url name) with
  | assetdb.Failure _ => effects.ret []
  | assetdb.Rows body =>
      if String.eqb body "" then effects.ret []
      else
        rapidDNS_store e
          (stringset.Slice
             (fold_left (keepInScope e)
                        (scrapeSubdomainNames (et.Support (et.Session_ e)) body)
                        stringset.New))
          src
  end.

Definition rapidDNS_process (e : et.Event) (assets : list dbt.Asset) (src : dbt.Asset)
  : M unit :=
  effects.emit (ProcessFQDNsWithSource assets src).

(** The method [check] of [rapidDNS]. *)
Definition rapidDNS_check (e : et.Event) : M (option string) :=
  match dbt.Asset_ (et.Asset e) with
  | oam.FQDN fqdn =>
      match scope.IsAssetInScope (et.Scope (et.Session_ e)) (oam.FQDN fqdn) 0 with
      | (None, _) => effects.ret None
      | (Some a, conf) =>
          if conf =? 0 then effects.ret None
          else
            match a with
            | oam.FQDN f =>
                if negb (EqualFold (domain.Name fqdn) (domain.Name f))
                then effects.ret None
                else
                  call _ <- effects.emit (GetSource rapidDNS_source);
                  match getSource (et.Support (et.Session_ e)) rapidDNS_source with
                  | None =>
                      effects.ret (Some "failed to obtain the plugin source information")
                  | Some src =>
                      match ttlStartTime (et.Support (et.Session_ e))
                                         "FQDN" "FQDN" rapidDNS_name with
                      | inr err => effects.ret (Some err)
                      | inl since =>
                          call names <-
                            (if assetMonitoredWithinTTL (et.Support (et.Session_ e))
                                                        (et.Asset e) src since
                             then rapidDNS_lookup e (domain.Name fqdn) src since
                             else
                               call names <- rapidDNS_query e (domain.Name fqdn) src;
                               call _ <- effects.emit (MarkAssetMonitored (et.Asset e) src);
                               effects.ret names);
                          call _ <-
                            (if 0 <? utils.len names
                             then rapidDNS_process e names src
                             else effects.ret tt);
                          effects.ret None
                      end
                  end
            | _ => effects.ret None
            end
      end
  | _ => effects.ret (Some "failed to extract the FQDN asset")
  end.

End plugins.
End scrape.


(** ** A concrete runtime, store and scope for the examples

  The functions below agree with Go's library on the texts the examples use:
  ASCII case mapping and trimming, the calendar rendering of a second, and
  the addresses listed in [ParseAddr]. *)

Module example.

Definition lowerByte (c : ascii) : ascii :=
  let n := N_of_ascii c in
  if ((65 <=? n) && (n <=? 90))%N then ascii_of_N (n + 32) else c.

Fixpoint ToLower (s : string) : string :=
  match s with
  | EmptyString => EmptyString
  | String c cs => String (lowerByte c) (ToLower cs)
  end.

Definition isSpace (c : ascii) : bool :=
  let n := N_of_ascii c in
  ((n =? 32) || ((9 <=? n) && (n <=? 13)))%N.

Fixpoint trimLeft (s : string) : string :=
  match s with
  | String c cs => if isSpace c then trimLeft cs else s
  | EmptyString => EmptyString
  end.

Fixpoint trimRight (s : string) : string :=
  match s with
  | EmptyString => EmptyString
  | String c cs =>
      match trimRight cs with
      | EmptyString => if isSpace c then EmptyString else String c EmptyString
      | rest => String c rest
      end
  end.

Definition TrimSpace (s : string) : string := trimRight (trimLeft s).

Definition EqualFold (s t : string) : bool := String.eqb (ToLower s) (ToLower t).

Definition pad2 (n : Z) : string :=
  if n <? 10 then "0" +:+ pretty n else pretty n.

Definition pad4 (n : Z) : string :=
  if n <? 10 then "000" +:+ pretty n
  else if n <? 100 then "00" +:+ pretty n
  else if n <? 1000 then "0" +:+ pretty n
  else pretty n.

(** The layout ["2006-01-02 15:04:05"] in UTC, for seconds counted from
  January 1 of year 1. *)
Definition FormatSec (s : Z) : string :=
  let days := s / 86400 in
  let rem := s mod 86400 in
  let z := days + 306 in
  let era := z / 146097 in
  let doe := z - era * 146097 in
  let yoe := (doe - doe / 1460 + doe / 36524 - doe / 146096) / 365 in
  let doy := doe - (365 * yoe + yoe / 4 - yoe / 100) in
  let mp := (5 * doy + 2) / 153 in
  let d := doy - (153 * mp + 2) / 5 + 1 in
  let m := if mp <? 10 then mp + 3 else mp - 9 in
  let y := yoe + era * 400 + (if m <=? 2 then 1 else 0) in
  pad4 y +:+ "-" +:+ pad2 m +:+ "-" +:+ pad2 d +:+ " " +:+
  pad2 (rem / 3600) +:+ ":" +:+ pad2 (rem mod 3600 / 60) +:+ ":" +:+ pad2 (rem mod 60).

Definition v4 (n : N) : netip.Addr := {| netip.addr := n; netip.z := netip.z4 |}.
Definition v6 (n : N) : netip.Addr := {| netip.addr := n; netip.z := netip.z6noz |}.

(** [93.184.216.34], [203.0.113.7] and the IPv6 loopback address; an IPv4
  address sits in the low 32 bits under the prefix [::ffff:0:0/96]. *)
Definition ip_93_184_216_34 : netip.Addr := v4 0xffff5db8d822.
Definition ip_203_0_113_7 : netip.Addr := v4 0xffffcb007107.
Definition ip_loopback6 : netip.Addr := v6 1.

(** [netip.ParseAddr] on the texts the examples use.  The two spellings of
  the loopback address, [::1] and [0:0:0:0:0:0:0:1], parse to the same
  [Addr], as they do in Go. *)
Definition ParseAddr (s : string) : option netip.Addr :=
  if String.eqb s "93.184.216.34" then Some ip_93_184_216_34
  else if String.eqb s "203.0.113.7" then Some ip_203_0_113_7
  else if String.eqb s "::1" then Some ip_loopback6
  else if String.eqb s "0:0:0:0:0:0:0:1" then Some ip_loopback6
  else None.

Definition AddrString (ip : netip.Addr) : string :=
  if decide (ip = ip_93_184_216_34) then "93.184.216.34"
  else if decide (ip = ip_203_0_113_7) then "203.0.113.7"
  else if decide (ip = ip_loopback6) then "::1"
  else "invalid IP".

Definition runtime : GoRuntime :=
  Build_GoRuntime ParseAddr AddrString FormatSec ToLower TrimSpace EqualFold.

Fixpoint HasSuffix (s suffix : string) : bool :=
  String.eqb s suffix ||
  match s with
  | EmptyString => false
  | String _ cs => HasSuffix cs suffix
  end.

Definition example_com : oam.Asset := oam.FQDN {| domain.Name := "example.com" |}.
Definition acme : oam.Asset := oam.Organization {| org.Name := "Acme Corporation" |}.

(** Modelled from the spec: the matchers of a scope are missing from the
  sources.  This scope registers the root domain [example.com] and the
  organization [Acme Corporation] and matches as the specification lays
  down: a name equal to a registered domain "yields the highest accuracy",
  a proper subdomain "a high but lower accuracy", an organization name
  equal up to case "maximum accuracy"; nothing else is registered. *)
Definition scope : scope.Scope := {|
  scope.matchesDomain f :=
    if String.eqb (ToLower (domain.Name f)) "example.com" then (Some example_com, 100)
    else if HasSuffix (ToLower (domain.Name f)) ".example.com" then (Some example_com, 90)
    else (None, 0);
  scope.addressInScope _ := (None, 0);
  scope.matchesNetblock _ := (None, 0);
  scope.matchesAutonomousSystem _ := (None, 0);
  scope.matchesOrg o _ :=
    if EqualFold (org.Name o) "Acme Corporation" then (Some acme, 100) else (None, 0);
  scope.matchesLocation _ _ := (None, 0);
  scope.matchesFin _ := (None, 0)
|}.

Definition whoisRecord : oamreg.DomainRecord :=
  {| oamreg.Domain := "www.example.com"; oamreg.Name := "Acme Corporation" |}.

Definition sourceAsset : dbt.Asset :=
  {| dbt.ID := "1"; dbt.Asset_ := oam.OtherAsset "Source" |}.

(** A session in which nothing has been monitored yet and the web is out of
  reach. *)
Definition session : et.Session := {|
  et.Scope := scope;
  et.Support := {|
    support.getSource _ := Some sourceAsset;
    support.ttlStartTime _ _ _ := inl {| time.sec := 0; time.nsec := 0 |};
    support.assetMonitoredWithinTTL _ _ _ := false;
    support.sourceToAssetsWithinTTL _ _ _ _ := [];
    support.storeFQDNsWithSource _ _ _ _ := [];
    support.requestWebPage _ := assetdb.Failure "no route to host";
    support.scrapeSubdomainNames _ := []
  |}
|}.


Definition fqdnAsset (id name : string) : dbt.Asset :=
  {| dbt.ID := id; dbt.Asset_ := oam.FQDN {| domain.Name := name |} |}.

Definition ipAsset (id : string) (ip : netip.Addr) (family : string) : dbt.Asset :=
  {| dbt.ID := id;
     dbt.Asset_ := oam.IPAddress {| network.Address := ip; network.Type_ := family |} |}.

Definition directDb : assetdb.AssetDB := {|
  assetdb.RawQuery _ := assetdb.Rows [];
  assetdb.RelationQuery _ :=
    assetdb.Rows
      [ {| dbt.Type_ := "a_record";
           dbt.LastSeen := {| time.sec := 63844806896; time.nsec := 0 |};
           dbt.FromAsset := fqdnAsset "10" "a.example.com";
           dbt.ToAsset := ipAsset "11" ip_93_184_216_34 "IPv4" |} ];
  assetdb.AssetQuery _ := assetdb.Rows []
|}.

Definition chainRows (rows : list assetdb.Row) (q : string)
  : assetdb.reply (list assetdb.Row) :=
  if strings.HasPrefix q "WITH RECURSIVE traverse_cname" then assetdb.Rows rows
  else assetdb.Rows [].

Definition aliasDb : assetdb.AssetDB := {|
  assetdb.RawQuery :=
    chainRows [ {| assetdb.Name := "d.example.com"; assetdb.Addr := "203.0.113.7" |} ];
  assetdb.RelationQuery _ := assetdb.Rows [];
  assetdb.AssetQuery _ := assetdb.Rows [fqdnAsset "20" "b.example.com"]
|}.

Definition failingDb : assetdb.AssetDB := {|
  assetdb.RawQuery := assetdb.RawQuery aliasDb;
  assetdb.RelationQuery _ := assetdb.Failure "connection reset";
  assetdb.AssetQuery := assetdb.AssetQuery aliasDb
|}.

Definition dirtyDb : assetdb.AssetDB := {|
  assetdb.RawQuery :=
    chainRows [ {| assetdb.Name := "d.example.com"; assetdb.Addr := "::1" |};
                {| assetdb.Name := "d.example.com"; assetdb.Addr := "0:0:0:0:0:0:0:1" |} ];
  assetdb.RelationQuery _ := assetdb.Rows [];
  assetdb.AssetQuery _ := assetdb.Rows [fqdnAsset "20" "b.example.com"]
|}.

Definition zeroTime : time.Time := {| time.sec := 0; time.nsec := 0 |}.

(** 2024-02-29 12:34:56 UTC. *)
Definition leapDay : time.Time := {| time.sec := 63844806896; time.nsec := 0 |}.

Definition eventFor (name : string) : et.Event :=
  {| et.Asset := {| dbt.ID := "2"; dbt.Asset_ := oam.FQDN {| domain.Name := name |} |};
     et.Session_ := session |}.

End example.




(** ** engine/sessions/scope/scope.go: [Add]

  [Add] dispatches on the kind of the asset to the adders of the registry.
  The adders are methods of [Scope] whose bodies live in other files of the
  package; each reports whether it created a new entry and changes the
  registry.  The registry is a state [R] that the adders thread, in the
  order in which [Add] calls them. *)

(** [netip.Prefix.String], library code. *)
Class PrefixPrinter := { PrefixString : netip.Prefix -> string }.

Module registry.

Record Adders (R : Type) := {
  AddFQDN : domain.FQDN -> R -> bool * R;
  AddIPAddress : network.IPAddress -> R -> bool * R;
  AddNetblock : network.Netblock -> R -> bool * R;
  AddAutonomousSystem : network.AutonomousSystem -> R -> bool * R;
  AddDomain : string -> R -> bool * R;
  AddCIDR : string -> R -> bool * R;
  AddOrg : string -> R -> bool * R;
  AddASN : Z -> R -> bool * R;
  AddAddress : string -> R -> bool * R;
  AddOrganization : org.Organization -> R -> bool * R;
  AddLocation : contact.Location -> R -> bool * R;
  AddFingerprint : oamfin.Fingerprint -> R -> bool * R
}.
Arguments AddFQDN {R}.
Arguments AddIPAddress {R}.
Arguments AddNetblock {R}.
Arguments AddAutonomousSystem {R}.
Arguments AddDomain {R}.
Arguments AddCIDR {R}.
Arguments AddOrg {R}.
Arguments AddASN {R}.
Arguments AddAddress {R}.
Arguments AddOrganization {R}.
Arguments AddLocation {R}.
Arguments AddFingerprint {R}.

Section Add.
Context `{GoRuntime} `{PrefixPrinter} {R : Type}.

Definition Add (ops : Adders R) (a : oam.Asset) (s : R) : bool * R :=
  match a with
  | oam.FQDN v => AddFQDN ops v s
  | oam.EmailAddress v => AddFQDN ops {| domain.Name := contact.Domain v |} s
  | oam.IPAddress v => AddIPAddress ops v s
  | oam.Netblock v => AddNetblock ops v s
  | oam.AutonomousSystem v => AddAutonomousSystem ops v s
  | oam.DomainRecord v => AddDomain ops (oamreg.Domain v) s
  | oam.IPNetRecord v => AddCIDR ops (PrefixString (oamreg.CIDR v)) s
  | oam.AutnumRecord v =>
      let '(n1, s) := AddOrg ops (oamreg.AutName v) s in
      let '(n2, s) := AddASN ops (oamreg.Number v) s in
      (n1 || n2, s)
  | oam.TLSCertificate v => AddDomain ops (oamcert.SubjectCommonName v) s
  | oam.URL v =>
      match ParseAddr (oamurl.Host v) with
      | Some ip => AddAddress ops (AddrString ip) s
      | None => AddDomain ops (oamurl.Host v) s
      end
  | oam.Organization v => AddOrganization ops v s
  | oam.Location v => AddLocation ops v s
  | oam.Fingerprint v => AddFingerprint ops v s
  | oam.OtherAsset _ => (false, s)
  end.

End Add.
End registry.

(** ** The [utils] package: [ReadASPrefixes]

  The three read operations of the store that [ReadASPrefixes] uses; like
  the query operations they answer with a value or with an error. *)

Module graphdb.

Import assetdb.

Record GraphDB := {
  FindByContent : oam.Asset -> time.Time -> reply (list dbt.Asset);
  OutgoingRelations : dbt.Asset -> time.Time -> list string -> reply (list dbt.Relation);
  FindById : string -> time.Time -> reply dbt.Asset
}.

Section ReadASPrefixes.
Context `{PrefixPrinter}.

(** Lines 28-34: the body of the loop over the relations. *)
Definition prefixStep (db : GraphDB) (since : time.Time) (prefixes : list string)
  (rel : dbt.Relation) : list string :=
  match FindById db (dbt.ID (dbt.ToAsset rel)) since with
  | Failure _ => prefixes
  | Rows a =>
      match dbt.Asset_ a with
      | oam.Netblock netblock =>
          (prefixes ++ [PrefixString (network.CIDR netblock)])%list
      | _ => prefixes
      end
  end.

Definition ReadASPrefixes (db : GraphDB) (asn : Z) (since : time.Time) : list string :=
  match FindByContent db (oam.AutonomousSystem {| network.Number := asn |}) since with
  | Failure _ => []
  | Rows [] => []
  | Rows (first :: _) =>
      match OutgoingRelations db first since ["announces"] with
      | Rows rels =>
          if 0 <? utils.len rels then fold_left (prefixStep db since) rels [] else []
      | Failure _ => []
      end
  end.

(** The prefix a relation contributes: the CIDR of its target, when the
  target can be loaded and is a netblock. *)
Definition announcedPrefix (db : GraphDB) (since : time.Time) (rel : dbt.Relation)
  : option string :=
  match FindById db (dbt.ID (dbt.ToAsset rel)) since with
  | Rows a =>
      match dbt.Asset_ a with
      | oam.Netblock netblock => Some (PrefixString (network.CIDR netblock))
      | _ => None
      end
  | Failure _ => None
  end.

End ReadASPrefixes.
End graphdb.

(** ** Notions used to state further properties of the plugins *)

Module scrape_facts.

Import support.

(** The calls that reach the web or change the store. *)
Definition isDiscoveryCall (act : Action) : bool :=
  match act with
  | Take | RequestWebPage _ | StoreFQDNsWithSource _ _ _ _ | MarkAssetMonitored _ _ => true
  | _ => false
  end.

Definition isRequest (act : Action) : bool :=
  match act with RequestWebPage _ => true | _ => false end.

Definition isStore (act : Action) : bool :=
  match act with StoreFQDNsWithSource _ _ _ _ => true | _ => false end.

Definition isMark (act : Action) : bool :=
  match act with MarkAssetMonitored _ _ => true | _ => false end.

Definition isProcess (act : Action) : bool :=
  match act with ProcessFQDNsWithSource _ _ => true | _ => false end.

(** The calls a query makes: the rate limiter, a request, a store. *)
Definition isQueryCall (act : Action) : bool :=
  match act with
  | Take | RequestWebPage _ | StoreFQDNsWithSource _ _ _ _ => true
  | _ => false
  end.

(** The names a trace hands to [StoreFQDNsWithSource]. *)
Definition storedNames (trace : list Action) : list string :=
  trace ≫= fun act =>
    match act with
    | StoreFQDNsWithSource names _ _ _ => names
    | _ => []
    end.

(** A page that ends the paging loop of [bing]: the request fails or the
  body is empty. *)
Definition pageEnds (e : et.Event) (url : string) : bool :=
  match requestWebPage (et.Support (et.Session_ e)) url with
  | assetdb.Failure _ => true
  | assetdb.Rows body => String.eqb body ""
  end.

(** The pages the paging loop of [bing] fetches, out of the pages it is
  set to fetch: up to and including the first page that ends the loop. *)
Fixpoint fetchedPages (e : et.Event) (url : Z -> string) (pages : list Z) : list Z :=
  match pages with
  | [] => []
  | i :: rest => i :: if pageEnds e (url i) then [] else fetchedPages e url rest
  end.

(** The calls for one page: the rate limiter, then the request. *)
Definition pageCalls (url : Z -> string) (i : Z) : list Action :=
  [Take; RequestWebPage (url i)].

(** The call of [ProcessFQDNsWithSource], made when there are names. *)
Definition processCalls (names : list dbt.Asset) (src : dbt.Asset) : list Action :=
  if 0 <? utils.len names then [ProcessFQDNsWithSource names src] else [].

Section kept.
Context `{GoRuntime}.

(** The handler of the plugin with source [source] and name [plugin] gets
  as far as its discovery: the event carries the FQDN [fqdn], the scope
  matches it exactly, the source [src] is there and the start of the
  freshness window is [since]. *)
Definition started (e : et.Event) (source : source.Source) (plugin : string)
  (fqdn : domain.FQDN) (src : dbt.Asset) (since : time.Time) : Prop :=
  dbt.Asset_ (et.Asset e) = oam.FQDN fqdn /\
  scrape.exactMatch (et.Scope (et.Session_ e)) fqdn = true /\
  getSource (et.Support (et.Session_ e)) source = Some src /\
  ttlStartTime (et.Support (et.Session_ e)) "FQDN" "FQDN" plugin = inl since.

(** The three ways in which a handler ends with an error. *)
Definition checkFails (e : et.Event) (source : source.Source) (plugin : string)
  (err : string) : Prop :=
  ((forall fqdn, dbt.Asset_ (et.Asset e) <> oam.FQDN fqdn) /\
   err = "failed to extract the FQDN asset") \/
  (exists fqdn,
     dbt.Asset_ (et.Asset e) = oam.FQDN fqdn /\
     scrape.exactMatch (et.Scope (et.Session_ e)) fqdn = true /\
     ((getSource (et.Support (et.Session_ e)) source = None /\
       err = "failed to obtain the plugin source information") \/
      (exists src,
         getSource (et.Support (et.Session_ e)) source = Some src /\
         ttlStartTime (et.Support (et.Session_ e)) "FQDN" "FQDN" plugin = inr err))).

(** What holds of every name in the set of scraped names: it is the
  lower-cased form of a scraped name, trimmed and lower-cased, that the
  scope matches with an accuracy above zero. *)
Definition keptInScope (e : et.Event) (n : string) : Prop :=
  exists raw,
    n = ToLower (ToLower (TrimSpace raw)) /\
    0 < snd (scope.IsAssetInScope (et.Scope (et.Session_ e))
               (oam.FQDN {| domain.Name := ToLower (TrimSpace raw) |}) 0).

End kept.

End scrape_facts.

(** ** Notions used to state further properties of the resolver *)

Module resolver_facts.

Import assetdb.

(** The second address map has every entry of the first, with at least the
  addresses the first has for it. *)
Definition grows (m m' : gmap string (gset string)) : Prop :=
  forall name set,
    m !! name = Some set -> exists set', m' !! name = Some set' /\ set ⊆ set'.

Section provenance.
Context `{GoRuntime}.

(** An address text that some answer of the store carries: the [addr]
  column of a row, or the address of the target of a relation, in the form
  in which a set of strings keeps it. *)
Definition storeAddress (db : AssetDB) (text : string) : Prop :=
  (exists q rows r,
     RawQuery db q = Rows rows /\ r ∈ rows /\ text = ToLower (assetdb.Addr r)) \/
  (exists q rels rel a,
     RelationQuery db q = Rows rels /\ rel ∈ rels /\
     dbt.Asset_ (dbt.ToAsset rel) = oam.IPAddress a /\
     text = ToLower (AddrString (network.Address a))).

(** A hostname that some answer of the store carries: the [name] column of
  a row, the source of a relation, or an asset of an asset query; or the
  name of an alias the chain query was asked about. *)
Definition storeName (db : AssetDB) (name : string) : Prop :=
  (exists q rows r,
     RawQuery db q = Rows rows /\ r ∈ rows /\ name = assetdb.Name r) \/
  (exists q rels rel f,
     RelationQuery db q = Rows rels /\ rel ∈ rels /\
     dbt.Asset_ (dbt.FromAsset rel) = oam.FQDN f /\ name = domain.Name f) \/
  (exists q assets a f,
     AssetQuery db q = Rows assets /\ a ∈ assets /\
     dbt.Asset_ a = oam.FQDN f /\ name = domain.Name f).

(** Every name and every address text of the map is one the store gave. *)
Definition fromStore (db : AssetDB) (m : gmap string (gset string)) : Prop :=
  forall name set,
    m !! name = Some set ->
    storeName db name /\ forall text, text ∈ set -> storeAddress db text.

End provenance.

(** *** What a run gathers, told from the answers of the store

  The working state of [NamesToAddrs] is described here without running
  its loops: the names as the set of strings keeps them, the answers of the
  store to the queries of the stages, the names each stage leaves, and the
  address texts each stage finds for a name. *)

(** Some entry of the address map has the text under the name. *)
Definition holds (m : gmap string (gset string)) (name text : string) : Prop :=
  exists set, m !! name = Some set /\ text ∈ set.

(** No two elements of a list are related. *)
Fixpoint distinctBy {A} (R : A -> A -> Prop) (l : list A) : Prop :=
  match l with
  | [] => True
  | a :: rest => (forall b, b ∈ rest -> ~ R a b) /\ distinctBy R rest
  end.

Section gathering.
Context `{GoRuntime}.

(** The names of a call, lower-cased, as a set. *)
Definition asked (names : list string) : gset string :=
  list_to_set (ToLower <$> names).

(** The rows of the indirect query, none when it fails, and the names
  without a row. *)
Definition indirectRows (db : AssetDB) (since : time.Time) (names : list string)
  : list Row :=
  utils.rowsOf
    (RawQuery db (utils.indirectQuery since (stringset.Slice (asked names)))).

Definition leftByIndirect (db : AssetDB) (since : time.Time) (names : list string)
  : gset string :=
  asked names ∖ utils.indirectResolved (indirectRows db since names).

(** The answer to the direct query, and the names it leaves. *)
Definition directAnswer (db : AssetDB) (since : time.Time) (names : list string)
  : reply (list dbt.Relation) :=
  RelationQuery db
    (utils.directQuery since (stringset.Slice (leftByIndirect db since names))).

Definition leftByDirect (db : AssetDB) (since : time.Time) (names : list string)
  (rels : list dbt.Relation) : gset string :=
  leftByIndirect db since names ∖ utils.directResolved rels.

(** The answer to the alias query. *)
Definition aliasAnswer (db : AssetDB) (since : time.Time) (names : list string)
  (rels : list dbt.Relation) : reply (list dbt.Asset) :=
  AssetQuery db
    (utils.aliasQuery since (stringset.Slice (leftByDirect db since names rels))).

(** The indirect stage finds, for a name that was asked for, the address of
  the first row that carries the name (up to case). *)
Definition indirectFinding (db : AssetDB) (since : time.Time) (names : list string)
  (name text : string) : Prop :=
  ToLower name ∈ asked names /\
  exists before r after,
    indirectRows db since names = (before ++ r :: after)%list /\
    assetdb.Name r = name /\
    (forall r', r' ∈ before -> ToLower (assetdb.Name r') <> ToLower name) /\
    text = ToLower (assetdb.Addr r).

(** The direct stage finds the address of every relation from an FQDN to an
  IP address, under the name of the FQDN. *)
Definition directFinding (rels : list dbt.Relation) (name text : string) : Prop :=
  exists rel f a,
    rel ∈ rels /\
    dbt.Asset_ (dbt.FromAsset rel) = oam.FQDN f /\ domain.Name f = name /\
    dbt.Asset_ (dbt.ToAsset rel) = oam.IPAddress a /\
    text = ToLower (AddrString (network.Address a)).

(** The alias stage finds, for every FQDN of the alias query, the address of
  every row of its chain query, under the name of the alias. *)
Definition chainFinding (db : AssetDB) (since : time.Time) (assets : list dbt.Asset)
  (name text : string) : Prop :=
  exists asset f r,
    asset ∈ assets /\
    dbt.Asset_ asset = oam.FQDN f /\ domain.Name f = name /\
    r ∈ utils.rowsOf (RawQuery db (utils.cnameQuery name since)) /\
    text = ToLower (assetdb.Addr r).

(** What the stages of a run find, each stage being reached only while names
  are left and the store has answered the stage before. *)
Definition gathered (db : AssetDB) (since : time.Time) (names : list string)
  (name text : string) : Prop :=
  indirectFinding db since names name text \/
  (leftByIndirect db since names <> ∅ /\
   exists rels,
     directAnswer db since names = Rows rels /\
     (directFinding rels name text \/
      (leftByDirect db since names rels <> ∅ /\
       exists assets,
         aliasAnswer db since names rels = Rows assets /\
         chainFinding db since assets name text))).



(** Two pairs are the same for a reader who compares hostnames without
  regard to case. *)
Definition samePair (p q : utils.NameAddrPair) : Prop :=
  ToLower (domain.Name (utils.FQDN p)) = ToLower (domain.Name (utils.FQDN q)) /\
  utils.Addr p = utils.Addr q.

End gathering.
End resolver_facts.

(** A byte is a lower-case ASCII letter. *)
Definition isLowerByte (c : ascii) : bool :=
  let n := N_of_ascii c in ((97 <=? n) && (n <=? 122))%N.

(** ** A concrete registry and graph for the examples *)

Module example_more.

(** [Prefix.String] on the prefixes the examples use: the text of the
  address, a slash and the number of bits. *)
Definition prefixPrinter : PrefixPrinter :=
  Build_PrefixPrinter
    (fun p =>
       (if (netip.addr (netip.ip p) =? 0xffffcb007100)%N then "203.0.113.0"
        else example.AddrString (netip.ip p))
       +:+ "/" +:+ pretty (netip.bits p)).

(** A registry that keeps its entries as tagged texts; an adder reports
  whether the entry is new. *)
Definition addEntry (tag value : string) (s : gset string) : bool * gset string :=
  (bool_decide (tag +:+ value ∉ s), {[ tag +:+ value ]} ∪ s).

Definition adders : registry.Adders (gset string) := {|
  registry.AddFQDN f := addEntry "domain:" (domain.Name f);
  registry.AddIPAddress a := addEntry "addr:" (example.AddrString (network.Address a));
  registry.AddNetblock n := addEntry "cidr:" (PrefixString (PrefixPrinter := prefixPrinter) (network.CIDR n));
  registry.AddAutonomousSystem a := addEntry "asn:" (pretty (network.Number a));
  registry.AddDomain d := addEntry "domain:" d;
  registry.AddCIDR c := addEntry "cidr:" c;
  registry.AddOrg o := addEntry "org:" o;
  registry.AddASN n := addEntry "asn:" (pretty n);
  registry.AddAddress a := addEntry "addr:" a;
  registry.AddOrganization o := addEntry "org:" (org.Name o);
  registry.AddLocation l := addEntry "loc:" (contact.LocAddress l);
  registry.AddFingerprint f := addEntry "fin:" (oamfin.Value f)
|}.

Definition ipAssetOf (ip : netip.Addr) : dbt.Asset := example.ipAsset "50" ip "IPv4".

Definition net_203_0_113_0 : netip.Prefix :=
  {| netip.ip := example.v4 0xffffcb007100; netip.bits := 24 |}.

Definition asAsset : dbt.Asset :=
  {| dbt.ID := "30";
     dbt.Asset_ := oam.AutonomousSystem {| network.Number := 64500 |} |}.

Definition netblockAsset : dbt.Asset :=
  {| dbt.ID := "31";
     dbt.Asset_ := oam.Netblock {| network.CIDR := net_203_0_113_0;
                                   network.NetType := "IPv4" |} |}.

Definition announces (target : dbt.Asset) : dbt.Relation :=
  {| dbt.Type_ := "announces"; dbt.LastSeen := example.leapDay;
     dbt.FromAsset := asAsset; dbt.ToAsset := target |}.

(** AS 64500 announces one netblock; two further relations point to an
  asset that is gone and to an asset that is not a netblock. *)
Definition graph : graphdb.GraphDB := {|
  graphdb.FindByContent a _ :=
    match a with
    | oam.AutonomousSystem {| network.Number := 64500 |} => assetdb.Rows [asAsset]
    | _ => assetdb.Rows []
    end;
  graphdb.OutgoingRelations _ _ _ :=
    assetdb.Rows [announces (example.fqdnAsset "32" "a.example.com");
                  announces netblockAsset;
                  announces (example.fqdnAsset "33" "gone.example.com")];
  graphdb.FindById id _ :=
    if String.eqb id "31" then assetdb.Rows netblockAsset
    else if String.eqb id "32" then assetdb.Rows (example.fqdnAsset "32" "a.example.com")
    else assetdb.Failure "record not found"
|}.

(** [mailDb] has MX records that lead to [mail.example.com], a name that
  has two A records: the indirect query has two rows for it. *)
Definition mailDb : assetdb.AssetDB := {|
  assetdb.RawQuery q :=
    if strings.HasPrefix q "SELECT srvs.content" then
      assetdb.Rows
        [ {| assetdb.Name := "mail.example.com"; assetdb.Addr := "93.184.216.34" |};
          {| assetdb.Name := "mail.example.com"; assetdb.Addr := "203.0.113.7" |} ]
    else assetdb.Rows [];
  assetdb.RelationQuery _ := assetdb.Rows [];
  assetdb.AssetQuery _ := assetdb.Rows []
|}.



Definition diamondDb : assetdb.AssetDB := {|
  assetdb.RawQuery :=
    example.chainRows
      [ {| assetdb.Name := "d.example.com"; assetdb.Addr := "203.0.113.7" |};
        {| assetdb.Name := "e.example.com"; assetdb.Addr := "203.0.113.7" |} ];
  assetdb.RelationQuery _ := assetdb.Rows [];
  assetdb.AssetQuery _ := assetdb.Rows [example.fqdnAsset "20" "b.example.com"]
|}.

Definition caseDb : assetdb.AssetDB := {|
  assetdb.RawQuery _ := assetdb.Rows [];
  assetdb.RelationQuery _ :=
    assetdb.Rows
      [ {| dbt.Type_ := "a_record";
           dbt.LastSeen := example.leapDay;
           dbt.FromAsset := example.fqdnAsset "10" "A.example.com";
           dbt.ToAsset := example.ipAsset "11" example.ip_93_184_216_34 "IPv4" |};
        {| dbt.Type_ := "a_record";
           dbt.LastSeen := example.leapDay;
           dbt.FromAsset := example.fqdnAsset "12" "a.example.com";
           dbt.ToAsset := example.ipAsset "11" example.ip_93_184_216_34 "IPv4" |} ];
  assetdb.AssetQuery _ := assetdb.Rows []
|}.

(** A session in which the asset has been monitored within the freshness
  window, and an event for a name in it. *)
Definition monitoredSession : et.Session := {|
  et.Scope := example.scope;
  et.Support := {|
    support.getSource _ := Some example.sourceAsset;
    support.ttlStartTime _ _ _ := inl example.zeroTime;
    support.assetMonitoredWithinTTL _ _ _ := true;
    support.sourceToAssetsWithinTTL _ _ _ _ := [example.fqdnAsset "40" "www.example.com"];
    support.storeFQDNsWithSource _ _ _ _ := [];
    support.requestWebPage _ := assetdb.Failure "no route to host";
    support.scrapeSubdomainNames _ := []
  |}
|}.

Definition monitoredEvent : et.Event :=
  {| et.Asset := example.fqdnAsset "2" "example.com";
     et.Session_ := monitoredSession |}.

(** A session in which the first result page for [example.com] is there
  and names two hosts, one of them in scope; every other page is missing. *)
Definition scrapingSession : et.Session := {|
  et.Scope := example.scope;
  et.Support := {|
    support.getSource _ := Some example.sourceAsset;
    support.ttlStartTime _ _ _ := inl example.zeroTime;
    support.assetMonitoredWithinTTL _ _ _ := false;
    support.sourceToAssetsWithinTTL _ _ _ _ := [];
    support.storeFQDNsWithSource names _ _ _ := map (example.fqdnAsset "60") names;
    support.requestWebPage url :=
      if String.eqb url (scrape.bing_url 1 "example.com")
         || String.eqb url (scrape.rapidDNS_url "example.com")
      then assetdb.Rows "<a>WWW.Example.com</a> <a>other.org</a>"
      else assetdb.Failure "not found";
    support.scrapeSubdomainNames _ := [" WWW.Example.com"; "other.org"]
  |}
|}.

Definition scrapingEvent : et.Event :=
  {| et.Asset := example.fqdnAsset "2" "example.com";
     et.Session_ := scrapingSession |}.

(** An event that carries an address, not a name. *)
Definition addressEvent : et.Event :=
  {| et.Asset := ipAssetOf example.ip_203_0_113_7;
     et.Session_ := example.session |}.

End example_more.
(** * Properties *)

(** ** Strings *)


Lemma append_cons (c : ascii) (s t : string) :
  String c s +:+ t = String c (s +:+ t).
Proof. reflexivity. Qed.

Lemma append_assoc (s t u : string) : (s +:+ t) +:+ u = s +:+ t +:+ u.
Proof.
  induction s as [|c s IH]; [done |].
  by rewrite !append_cons, IH.
Qed.

Lemma HasPrefix_spec (s prefix : string) :
  strings.HasPrefix s prefix = true <-> exists post, s = prefix +:+ post.
Proof.
  revert s. induction prefix as [|p ps IH]; intros s.
  - split; [intros _; by exists s | by destruct s].
  - destruct s as [|c cs]; simpl.
    + split; [done | intros [post Hpost]; discriminate].
    + setoid_rewrite append_cons.
      destruct (Ascii.eqb_spec c p) as [->|Hne].
      * rewrite IH. split; intros [post Hpost]; exists post; congruence.
      * split; [done | intros [post Hpost]; congruence].
Qed.

Lemma Contains_spec (s substr : string) :
  strings.Contains s substr = true <->
  exists pre post, s = pre +:+ substr +:+ post.
Proof.
  induction s as [|c cs IH].
  - destruct substr as [|b bs]; simpl.
    + split; [intros _; by exists "", "" | done].
    + split; [done |].
      intros (pre & post & Heq). destruct pre; discriminate.
  - change (strings.Contains (String c cs) substr)
      with (strings.HasPrefix (String c cs) substr || strings.Contains cs substr).
    rewrite orb_true_iff, HasPrefix_spec, IH. split.
    + intros [[post Hpost] | (pre & post & Heq)].
      * by exists "", post.
      * exists (String c pre), post. by rewrite append_cons, Heq.
    + intros (pre & post & Heq). destruct pre as [|c' pre].
      * left. by exists post.
      * right. exists pre, post. rewrite append_cons in Heq. congruence.
Qed.

Lemma anyContained_spec (field : string) (bads : list string) :
  scope.anyContained field bads = true <->
  exists bad, bad ∈ bads /\ strings.Contains field bad = true.
Proof.
  induction bads as [|b bads IH]; simpl.
  - split; [done | intros (bad & Hin & _); by apply elem_of_nil in Hin].
  - destruct (strings.Contains field b) eqn:Hb.
    + split; [intros _; exists b; split; [left | done] | done].
    + rewrite IH. split; intros (bad & Hin & Hbad).
      * exists bad. split; [by right | done].
      * apply elem_of_cons in Hin as [-> | Hin]; [congruence | by exists bad].
Qed.

(** ** The scope membership engine *)

(** C8. [isBadField] answers [true] for a field exactly when one of the nine
  strings registration, registry, redact, private, privacy, available,
  domain, proxy, liability occurs in it as a substring, at any byte offset
  and without regard to token boundaries; and a field so flagged is not among
  the fields organization and location matching compares. *)
Theorem isBadField_spec :
  scope.badstrs =
    ["registration"; "registry"; "redact"; "private"; "privacy";
     "available"; "domain"; "proxy"; "liability"] /\
  (forall field : string,
     scope.isBadField field = true <->
     exists bad, bad ∈ scope.badstrs /\
       exists pre post, field = pre +:+ bad +:+ post) /\
  (forall (fields : list string) (f : string),
     f ∈ scope.matchableFields fields <->
     f ∈ fields /\ scope.isBadField f = false).
Proof.
  split; [reflexivity | split].
  - intros field. unfold scope.isBadField. rewrite anyContained_spec.
    split; intros (bad & Hin & Hc); exists bad; (split; [done |]);
      by apply Contains_spec.
  - intros fields f. unfold scope.matchableFields.
    rewrite list_elem_of_filter. tauto.
Qed.

(** C9. An asset whose kind the dispatch has no case for never matches:
  [IsAssetInScope] returns [(nil, 0)] whatever the confidence floor. *)
Theorem IsAssetInScope_unhandled (s : scope.Scope) (a : oam.Asset) (conf : Z) :
  scope.handledKind a = false ->
  scope.IsAssetInScope s a conf = (None, 0).
Proof. by destruct a. Qed.

Lemma IsAssetInScope_unhandled_witness :
  scope.handledKind (oam.OtherAsset "Service") = false /\
  scope.IsAssetInScope example.scope (oam.OtherAsset "Service") 50 = (None, 0).
Proof.
  split; [reflexivity |].
  apply (IsAssetInScope_unhandled example.scope (oam.OtherAsset "Service") 50).
  reflexivity.
Defined.

(** C1, as stated, fails.  In the example scope the record of
  [www.example.com], registered to Acme Corporation, matches through both
  projections, the domain with accuracy 90 and the organization with
  accuracy 100; [IsAssetInScope] returns 90, not the maximum. *)
Lemma IsAssetInScope_not_maximum :
  let first :=
    scope.matchesDomain example.scope
      {| domain.Name := oamreg.Domain example.whoisRecord |} in
  let second :=
    scope.matchesOrg example.scope
      {| org.Name := oamreg.Name example.whoisRecord |} 0 in
  let got := scope.IsAssetInScope example.scope (oam.DomainRecord example.whoisRecord) 0 in
  scope.isMatch first = true /\ scope.isMatch second = true /\
  snd got = 90 /\ Z.max (snd first) (snd second) = 100 /\
  snd got <> Z.max (snd first) (snd second).
Proof. vm_compute. repeat split; congruence. Qed.

Lemma firstMatch_accuracy (first second : scope.Match) :
  snd (if scope.isMatch first then first else second) = Z.max (snd first) (snd second)
  <-> (if scope.isMatch first then snd second <= snd first else snd first <= snd second).
Proof. destruct (scope.isMatch first); lia. Qed.

Lemma firstMatch_isMatch (first second : scope.Match) :
  scope.isMatch (if scope.noMatch first then second else first)
  = scope.isMatch first || scope.isMatch second.
Proof.
  unfold scope.isMatch. destruct (scope.noMatch first) eqn:E; simpl; [done |].
  by rewrite E.
Qed.

(** C1, amended.  For a [DomainRecord] (domain name, then organization name)
  and for an [AutnumRecord] (ASN, then organization name), [IsAssetInScope]
  returns the result of the first projection when that one matches and the
  result of the organization projection otherwise.  It therefore reports a
  match whenever either projection matches; the accuracy is the one of the
  projection it returns, which is the maximum of the two exactly when the
  other projection's accuracy is not above it. *)
Theorem IsAssetInScope_composite (s : scope.Scope) (conf : Z) :
  (forall v : oamreg.DomainRecord,
     let first := scope.matchesDomain s {| domain.Name := oamreg.Domain v |} in
     let second := scope.matchesOrg s {| org.Name := oamreg.Name v |} conf in
     let got := scope.IsAssetInScope s (oam.DomainRecord v) conf in
     got = (if scope.isMatch first then first else second) /\
     scope.isMatch got = scope.isMatch first || scope.isMatch second /\
     (snd got = Z.max (snd first) (snd second) <->
      if scope.isMatch first then snd second <= snd first
      else snd first <= snd second)) /\
  (forall v : oamreg.AutnumRecord,
     let first :=
       scope.matchesAutonomousSystem s {| network.Number := oamreg.Number v |} in
     let second := scope.matchesOrg s {| org.Name := oamreg.AutName v |} conf in
     let got := scope.IsAssetInScope s (oam.AutnumRecord v) conf in
     got = (if scope.isMatch first then first else second) /\
     scope.isMatch got = scope.isMatch first || scope.isMatch second /\
     (snd got = Z.max (snd first) (snd second) <->
      if scope.isMatch first then snd second <= snd first
      else snd first <= snd second)).
Proof.
  split; intros v first second got.
  - assert (Hgot : got = if scope.isMatch first then first else second).
    { unfold got, scope.isMatch; simpl. fold first second.
      by destruct (scope.noMatch first). }
    split; [done | split].
    + unfold got; simpl. fold first second. apply firstMatch_isMatch.
    + rewrite Hgot. apply firstMatch_accuracy.
  - assert (Hgot : got = if scope.isMatch first then first else second).
    { unfold got, scope.isMatch; simpl. fold first second.
      by destruct (scope.noMatch first). }
    split; [done | split].
    + unfold got; simpl. fold first second. apply firstMatch_isMatch.
    + rewrite Hgot. apply firstMatch_accuracy.
Qed.

(** ** The scrape plugins *)

Section check.
Context `{GoRuntime}.

Lemma bing_check_guard (e : et.Event) (fqdn : domain.FQDN) :
  dbt.Asset_ (et.Asset e) = oam.FQDN fqdn ->
  scrape.exactMatch (et.Scope (et.Session_ e)) fqdn = false ->
  scrape.bing_check e = (None, []).
Proof.
  intros Hasset Hguard. unfold scrape.bing_check, scrape.exactMatch in *.
  rewrite Hasset.
  destruct (scope.IsAssetInScope _ _ _) as [[a|] conf]; [| done].
  destruct (conf =? 0); [done |].
  destruct a; try done.
  simpl in Hguard. by rewrite Hguard.
Qed.

Lemma rapidDNS_check_guard (e : et.Event) (fqdn : domain.FQDN) :
  dbt.Asset_ (et.Asset e) = oam.FQDN fqdn ->
  scrape.exactMatch (et.Scope (et.Session_ e)) fqdn = false ->
  scrape.rapidDNS_check e = (None, []).
Proof.
  intros Hasset Hguard. unfold scrape.rapidDNS_check, scrape.exactMatch in *.
  rewrite Hasset.
  destruct (scope.IsAssetInScope _ _ _) as [[a|] conf]; [| done].
  destruct (conf =? 0); [done |].
  destruct a; try done.
  simpl in Hguard. by rewrite Hguard.
Qed.

Lemma bing_check_proceeds (e : et.Event) (fqdn : domain.FQDN) :
  dbt.Asset_ (et.Asset e) = oam.FQDN fqdn ->
  scrape.exactMatch (et.Scope (et.Session_ e)) fqdn = true ->
  exists rest, snd (scrape.bing_check e) = support.GetSource scrape.bing_source :: rest.
Proof.
  intros Hasset Hguard. unfold scrape.bing_check, scrape.exactMatch in *.
  rewrite Hasset.
  destruct (scope.IsAssetInScope _ _ _) as [[a|] conf]; [| done].
  destruct a; try done.
  apply andb_true_iff in Hguard as [Hconf Hfold].
  apply negb_true_iff in Hconf. rewrite Hconf, Hfold. simpl.
  unfold effects.bind, effects.emit.
  repeat case_match; simplify_eq/=; eauto.
Qed.

Lemma rapidDNS_check_proceeds (e : et.Event) (fqdn : domain.FQDN) :
  dbt.Asset_ (et.Asset e) = oam.FQDN fqdn ->
  scrape.exactMatch (et.Scope (et.Session_ e)) fqdn = true ->
  exists rest,
    snd (scrape.rapidDNS_check e) = support.GetSource scrape.rapidDNS_source :: rest.
Proof.
  intros Hasset Hguard. unfold scrape.rapidDNS_check, scrape.exactMatch in *.
  rewrite Hasset.
  destruct (scope.IsAssetInScope _ _ _) as [[a|] conf]; [| done].
  destruct a; try done.
  apply andb_true_iff in Hguard as [Hconf Hfold].
  apply negb_true_iff in Hconf. rewrite Hconf, Hfold. simpl.
  unfold effects.bind, effects.emit.
  repeat case_match; simplify_eq/=; eauto.
Qed.

(** C10.  For an event that carries an FQDN, both [check] handlers go on to
  discovery only when the scope answers with an FQDN whose name equals the
  event's name up to case (and a non-zero accuracy): if the handler calls any
  helper at all (source, lookup, web request, store, mark, process), the
  match was such an exact one, and then the handler does start, with the
  source lookup; if the match is not exact, as for a subdomain that is in
  scope through its parent domain, [check] returns [nil] and has called
  nothing. *)
Theorem check_exact_match_only (e : et.Event) (fqdn : domain.FQDN) :
  dbt.Asset_ (et.Asset e) = oam.FQDN fqdn ->
  (scrape.exactMatch (et.Scope (et.Session_ e)) fqdn = false ->
   scrape.bing_check e = (None, []) /\ scrape.rapidDNS_check e = (None, [])) /\
  (forall act : support.Action,
     act ∈ snd (scrape.bing_check e) \/ act ∈ snd (scrape.rapidDNS_check e) ->
     scrape.exactMatch (et.Scope (et.Session_ e)) fqdn = true) /\
  (scrape.exactMatch (et.Scope (et.Session_ e)) fqdn = true ->
   (exists rest,
      snd (scrape.bing_check e) = support.GetSource scrape.bing_source :: rest) /\
   (exists rest,
      snd (scrape.rapidDNS_check e) = support.GetSource scrape.rapidDNS_source :: rest)).
Proof.
  intros Hasset. split; [| split].
  - intros Hguard. split.
    + by apply bing_check_guard with fqdn.
    + by apply rapidDNS_check_guard with fqdn.
  - intros act Hact.
    destruct (scrape.exactMatch _ fqdn) eqn:Hguard; [done |].
    rewrite (bing_check_guard e fqdn Hasset Hguard) in Hact.
    rewrite (rapidDNS_check_guard e fqdn Hasset Hguard) in Hact.
    simpl in Hact. destruct Hact as [Hact | Hact]; by apply elem_of_nil in Hact.
  - intros Hguard. split.
    + by apply bing_check_proceeds with fqdn.
    + by apply rapidDNS_check_proceeds with fqdn.
Qed.

End check.

(** The subdomain [www.example.com] is in scope through [example.com] only:
  neither handler does anything.  The root domain itself is an exact match
  (whatever the case of its letters), and the handlers start. *)
Lemma check_exact_match_only_witness :
  scope.IsAssetInScope example.scope
    (oam.FQDN {| domain.Name := "www.example.com" |}) 0
  = (Some example.example_com, 90) /\
  @scrape.bing_check example.runtime (example.eventFor "www.example.com") = (None, []) /\
  @scrape.rapidDNS_check example.runtime (example.eventFor "www.example.com") = (None, []) /\
  exists rest,
    snd (@scrape.bing_check example.runtime (example.eventFor "Example.COM"))
    = support.GetSource scrape.bing_source :: rest.
Proof.
  split; [reflexivity |].
  pose proof (@check_exact_match_only example.runtime
                (example.eventFor "www.example.com")
                {| domain.Name := "www.example.com" |} eq_refl) as (Hno & _ & _).
  pose proof (@check_exact_match_only example.runtime
                (example.eventFor "Example.COM")
                {| domain.Name := "Example.COM" |} eq_refl) as (_ & _ & Hyes).
  destruct (Hno eq_refl) as [Hb Hr].
  destruct (Hyes eq_refl) as [Hb' _].
  split; [exact Hb | split; [exact Hr | exact Hb']].
Defined.

Set Warnings "-clear-no-such-hyp".

(** ** Computations with calls *)

Lemma fst_bind {E A B} (m : effects.M E A) (f : A -> effects.M E B) :
  fst (effects.bind m f) = fst (f (fst m)).
Proof. destruct m as [a t]; simpl. by destruct (f a). Qed.

Lemma snd_bind {E A B} (m : effects.M E A) (f : A -> effects.M E B) :
  snd (effects.bind m f) = (snd m ++ snd (f (fst m)))%list.
Proof. destruct m as [a t]; simpl. by destruct (f a). Qed.

(** ** The name-to-address resolver *)

Section resolver_facts.
Context `{GoRuntime}.

Import assetdb utils.

(** *** Pair assembly *)

Lemma pairStep_fold (name : string) (addrs : list string) (acc : list NameAddrPair) :
  fold_left (pairStep name) addrs acc = (acc ++ omap (parsedPair name) addrs)%list.
Proof.
  revert acc. induction addrs as [|addr addrs IH]; intros acc; simpl.
  - by rewrite app_nil_r.
  - rewrite IH. unfold pairStep, parsedPair.
    destruct (ParseAddr addr); simpl; [by rewrite <- app_assoc | done].
Qed.

Lemma collect_fold (entries : list (string * gset string)) (acc : list NameAddrPair) :
  fold_left (fun pairs entry =>
               fold_left (pairStep (fst entry)) (stringset.Slice (snd entry)) pairs)
            entries acc
  = (acc ++ (entries ≫= entryPairs))%list.
Proof.
  revert acc. induction entries as [|entry entries IH]; intros acc; simpl.
  - by rewrite app_nil_r.
  - rewrite IH, pairStep_fold, <- app_assoc. done.
Qed.

Lemma collectPairs_bind (addrMap : gmap string (gset string)) :
  collectPairs addrMap = map_to_list addrMap ≫= entryPairs.
Proof. unfold collectPairs. by rewrite collect_fold. Qed.

Lemma elem_of_collectPairs (addrMap : gmap string (gset string)) (p : NameAddrPair) :
  p ∈ collectPairs addrMap <-> discovered addrMap p.
Proof.
  rewrite collectPairs_bind, list_elem_of_bind. unfold discovered, entryPairs. split.
  - intros ([name set] & Hp & Hentry). simpl in Hp.
    apply list_elem_of_omap in Hp as (addr & Haddr & Hparsed).
    unfold parsedPair in Hparsed.
    destruct (ParseAddr addr) as [ip|] eqn:Hip; simplify_eq/=.
    exists name, set, addr, ip. split_and!; try done.
    + by apply elem_of_map_to_list.
    + by apply elem_of_elements.
  - intros (name & set & addr & ip & Hlook & Haddr & Hip & ->).
    exists (name, set). split.
    + simpl. apply list_elem_of_omap. exists addr. split.
      * by apply elem_of_elements.
      * unfold parsedPair. by rewrite Hip.
    + by apply elem_of_map_to_list.
Qed.

Lemma generatePairs_Ok (addrMap : gmap string (gset string)) (pairs : list NameAddrPair) :
  generatePairsFromAddrMap addrMap = Ok pairs <->
  pairs = collectPairs addrMap /\ pairs <> [].
Proof.
  unfold generatePairsFromAddrMap, len.
  destruct (collectPairs addrMap) as [|p l] eqn:E; simpl.
  - split; [done | intros [-> ?]; done].
  - split; [intros [= <-]; done | intros [-> _]; done].
Qed.

Lemma generatePairs_Err (addrMap : gmap string (gset string)) (e : error) :
  generatePairsFromAddrMap addrMap = Err e <->
  e = errNoAddresses /\ collectPairs addrMap = [].
Proof.
  unfold generatePairsFromAddrMap, len.
  destruct (collectPairs addrMap) as [|p l] eqn:E; simpl.
  - split; [intros [= <-]; done | intros [-> _]; done].
  - split; [done | intros [_ ?]; done].
Qed.

(** *** The run as a whole *)

(** The result of a run is the store error that stopped it, or what pair
  assembly makes of the address map. *)
Lemma NamesToAddrs_result (db : AssetDB) (since : time.Time) (names : list string) :
  fst (NamesToAddrs db since names)
  = match finalAddrMap db since names with
    | Ok addrMap => generatePairsFromAddrMap addrMap
    | Err e => Err e
    end.
Proof.
  unfold NamesToAddrs, finalAddrMap, afterChains, afterDirect, afterIndirect, start.
  cbv zeta. rewrite fst_bind.
  destruct (indirectStage db since _) as [[R1 m1] t1]; simpl.
  destruct (stringset.Len R1 =? 0); [done |].
  destruct (RelationQuery db _) as [rels | err]; [| done].
  destruct (fold_left directStep rels (R1, m1)) as [R2 m2]; simpl.
  destruct (stringset.Len R2 =? 0); [done |].
  destruct (AssetQuery db _) as [assets | err]; [| done].
  simpl. by destruct (effects.forRange _ _ _) as [st t].
Qed.

Lemma forRange_chain_calls (db : AssetDB) (since : time.Time) (cnames : list string)
  (st : State) :
  snd (effects.forRange (chainStep db since) cnames st)
  = (fun name => CallRawQuery (cnameQuery name since)) <$> cnames.
Proof.
  revert st. induction cnames as [|name cnames IH]; intros st; [done |].
  cbn [effects.forRange]. rewrite snd_bind, IH. done.
Qed.

(** The calls of a run, stage by stage. *)
Lemma NamesToAddrs_calls (db : AssetDB) (since : time.Time) (names : list string) :
  snd (NamesToAddrs db since names)
  = let R1 := fst (afterIndirect db since names) in
    indirectCall since (fst (start names)) ::
    if stringset.Len R1 =? 0 then []
    else
      directCall since R1 ::
      match RelationQuery db (directQuery since (stringset.Slice R1)) with
      | Failure _ => []
      | Rows rels =>
          let R2 := fst (afterDirect db since names rels) in
          if stringset.Len R2 =? 0 then []
          else
            aliasCall since R2 ::
            match AssetQuery db (aliasQuery since (stringset.Slice R2)) with
            | Failure _ => []
            | Rows assets =>
                (fun name => CallRawQuery (cnameQuery name since)) <$> cnamesOf assets
            end
      end.
Proof.
  unfold NamesToAddrs, afterDirect, afterIndirect, start, indirectCall, directCall,
    aliasCall.
  cbv zeta. rewrite snd_bind.
  destruct (indirectStage db since _) as [[R1 m1] t1] eqn:E1.
  assert (Ht1 : t1 = [CallRawQuery (indirectQuery since
                        (stringset.Slice (stringset.InsertMany stringset.New names)))]).
  { unfold indirectStage in E1. simpl in E1. by injection E1 as _ <-. }
  subst t1. simpl.
  destruct (stringset.Len R1 =? 0); [done |]. simpl.
  destruct (RelationQuery db _) as [rels | err]; [| done].
  destruct (fold_left directStep rels (R1, m1)) as [R2 m2]; simpl.
  destruct (stringset.Len R2 =? 0); [done |]. simpl.
  destruct (AssetQuery db _) as [assets | err]; [| done].
  simpl.
  pose proof (snd_bind (effects.forRange (chainStep db since) (cnamesOf assets) (R2, m2))
                (fun st => effects.ret (generatePairsFromAddrMap (snd st)))) as Hcalls.
  destruct (effects.bind _ _) as [b t]. simpl in Hcalls.
  rewrite forRange_chain_calls, app_nil_r in Hcalls. by subst t.
Qed.

(** *** The names a stage takes off the remaining set *)

Lemma indirectStep_remaining (rows : list Row) (st : State) :
  fst (fold_left indirectStep rows st) = fst st ∖ indirectResolved rows.
Proof.
  revert st. induction rows as [|res rows IH]; intros [R m].
  - unfold indirectResolved. simpl. set_solver.
  - simpl. rewrite IH. unfold indirectResolved, indirectStep, stringset.Has,
      stringset.Remove. simpl.
    case_bool_decide; simpl; set_solver.
Qed.

Lemma directStep_remaining (rels : list dbt.Relation) (st : State) :
  fst (fold_left directStep rels st) = fst st ∖ directResolved rels.
Proof.
  revert st. induction rels as [|rel rels IH]; intros [R m].
  - unfold directResolved. simpl. set_solver.
  - simpl. rewrite IH. unfold directResolved, directStep, stringset.Remove. csimpl.
    destruct (dbt.Asset_ (dbt.FromAsset rel)); simpl; try set_solver.
    destruct (dbt.Asset_ (dbt.ToAsset rel)); simpl; set_solver.
Qed.

Lemma afterIndirect_eq (db : AssetDB) (since : time.Time) (names : list string) :
  afterIndirect db since names
  = fold_left indirectStep
      (rowsOf (RawQuery db (indirectQuery since (stringset.Slice (fst (start names))))))
      (start names).
Proof.
  unfold afterIndirect, indirectStage, dbRawQuery. simpl.
  destruct (RawQuery db _) as [rows | err]; simpl; [| done].
  by destruct rows.
Qed.

Lemma Len_zero (s : gset string) : (stringset.Len s =? 0) = true <-> s = ∅.
Proof.
  unfold stringset.Len. rewrite Z.eqb_eq. split.
  - intros Hs. apply leibniz_equiv, size_empty_iff. lia.
  - intros ->. by rewrite size_empty.
Qed.

Lemma Len_nonzero (s : gset string) : (stringset.Len s =? 0) = false <-> s <> ∅.
Proof. rewrite <- Len_zero. by destruct (stringset.Len s =? 0). Qed.

End resolver_facts.

Section pair_assembly.
Context `{GoRuntime}.

Import assetdb utils.




End pair_assembly.


(** *** Uniqueness of the pairs *)

Section uniqueness.
Context `{GoRuntime}.

Import assetdb utils.

Lemma NoDup_omap_local {A B} (f : A -> option B) (l : list A) :
  (forall x y z, x ∈ l -> y ∈ l -> f x = Some z -> f y = Some z -> x = y) ->
  NoDup l -> NoDup (omap f l).
Proof.
  intros Hinj Hnd. induction Hnd as [|x l Hx Hnd IH]; csimpl; [constructor |].
  assert (IH' : NoDup (omap f l)).
  { apply IH. intros a b c Ha Hb. apply Hinj; by right. }
  destruct (f x) as [z|] eqn:Hfx; [| done].
  constructor; [| done].
  intros Hz. apply list_elem_of_omap in Hz as (y & Hy & Hfy).
  assert (x = y) by (eapply Hinj; eauto; [left | by right]).
  by subst.
Qed.

Lemma omap_bind_list {A B C} (f : B -> option C) (g : A -> list B) (l : list A) :
  omap f (l ≫= g) = l ≫= (fun a => omap f (g a)).
Proof.
  induction l as [|a l IH]; csimpl; [done |].
  by rewrite omap_app, IH.
Qed.

Lemma omap_fmap_list {A B C} (f : B -> option C) (g : A -> B) (l : list A) :
  omap f (g <$> l) = omap (fun a => f (g a)) l.
Proof.
  induction l as [|a l IH]; csimpl; [done |].
  rewrite IH. done.
Qed.

Lemma elem_of_textsOf (addrMap : gmap string (gset string)) (na : string * string) :
  na ∈ textsOf addrMap <->
  exists set, addrMap !! fst na = Some set /\ snd na ∈ set.
Proof.
  unfold textsOf. rewrite list_elem_of_bind. split.
  - intros ([name set] & Hna & Hentry). simpl in Hna.
    apply list_elem_of_fmap in Hna as (addr & -> & Haddr). simpl.
    exists set. split; [by apply elem_of_map_to_list | by apply elem_of_elements].
  - intros (set & Hlook & Haddr). destruct na as [name addr]. simpl in *.
    exists (name, set). split.
    + simpl. apply list_elem_of_fmap. exists addr. split; [done |].
      by apply elem_of_elements.
    + by apply elem_of_map_to_list.
Qed.

Lemma NoDup_textsOf (addrMap : gmap string (gset string)) : NoDup (textsOf addrMap).
Proof.
  unfold textsOf. apply NoDup_bind.
  - intros [n1 s1] [n2 s2] [n a] H1 H2 Hin1 Hin2. simpl in *.
    apply list_elem_of_fmap in Hin1 as (a1 & [= -> ->] & _).
    apply list_elem_of_fmap in Hin2 as (a2 & [= -> _] & _).
    apply elem_of_map_to_list in H1, H2. congruence.
  - intros [n s] _. simpl. apply NoDup_fmap_2_strong; [| apply NoDup_elements].
    by intros a b _ _ [= ->].
  - apply NoDup_map_to_list.
Qed.

Lemma collectPairs_texts (addrMap : gmap string (gset string)) :
  collectPairs addrMap
  = omap (fun na => parsedPair (fst na) (snd na)) (textsOf addrMap).
Proof.
  rewrite collectPairs_bind. unfold textsOf. rewrite omap_bind_list.
  apply list_bind_ext; [| done].
  intros [name set]. unfold entryPairs. by rewrite omap_fmap_list.
Qed.

Lemma pairOf_inj (n1 n2 : string) (ip1 ip2 : netip.Addr) :
  pairOf n1 ip1 = pairOf n2 ip2 -> n1 = n2 /\ ip1 = ip2.
Proof. unfold pairOf, tagged. by intros [= -> -> _]. Qed.

Lemma NoDup_collectPairs (addrMap : gmap string (gset string)) :
  (forall name set a1 a2 ip,
     addrMap !! name = Some set -> a1 ∈ set -> a2 ∈ set ->
     ParseAddr a1 = Some ip -> ParseAddr a2 = Some ip -> a1 = a2) ->
  NoDup (collectPairs addrMap).
Proof.
  intros Hinj. rewrite collectPairs_texts.
  apply NoDup_omap_local; [| apply NoDup_textsOf].
  intros [n1 a1] [n2 a2] p Hin1 Hin2 Hp1 Hp2. simpl in *.
  apply elem_of_textsOf in Hin1 as (s1 & Hs1 & Ha1).
  apply elem_of_textsOf in Hin2 as (s2 & Hs2 & Ha2). simpl in *.
  unfold parsedPair in *.
  destruct (ParseAddr a1) as [ip1|] eqn:E1; [| done].
  destruct (ParseAddr a2) as [ip2|] eqn:E2; [| done].
  simpl in *.
  assert (Heq : pairOf n1 ip1 = pairOf n2 ip2) by congruence.
  apply pairOf_inj in Heq as [-> ->].
  f_equal. assert (s1 = s2) as -> by congruence.
  by apply (Hinj n2 s2 a1 a2 ip2).
Qed.


End uniqueness.


Section malformed.
Context `{GoRuntime}.

Import assetdb utils.

Lemma tagged_IPv4 (ip : netip.Addr) :
  network.Type_ (tagged ip) = "IPv4" <-> netip.Is4 ip = true.
Proof.
  unfold tagged; simpl.
  destruct (netip.Is4 ip), (netip.Is6 ip); split; (done || discriminate).
Qed.

Lemma tagged_IPv6 (ip : netip.Addr) :
  network.Type_ (tagged ip) = "IPv6" <-> netip.Is6 ip = true.
Proof.
  unfold tagged, netip.Is4, netip.Is6; simpl.
  destruct (netip.z ip); split; (done || discriminate).
Qed.

Lemma insertAddr_insert (addrMap : gmap string (gset string)) (name addr : string)
  (set : gset string) :
  addrMap !! name = Some set ->
  insertAddr addrMap name addr = <[ name := {[ ToLower addr ]} ∪ set ]> addrMap.
Proof.
  intros Hlook. unfold insertAddr, stringset.Insert. apply map_eq. intros j.
  rewrite lookup_alter, lookup_insert.
  case_decide; subst; [by rewrite Hlook | done].
Qed.

Lemma generatePairs_perm (m1 m2 : gmap string (gset string)) :
  collectPairs m1 ≡ₚ collectPairs m2 ->
  sameOutcome (generatePairsFromAddrMap m1) (generatePairsFromAddrMap m2).
Proof.
  unfold generatePairsFromAddrMap, sameOutcome, len. intros Hperm.
  destruct (collectPairs m1) as [|p1 l1], (collectPairs m2) as [|p2 l2]; simpl; try done.
  - by apply Permutation_nil_cons in Hperm.
  - symmetry in Hperm. by apply Permutation_nil_cons in Hperm.
Qed.

Lemma collectPairs_drop_malformed (addrMap : gmap string (gset string))
  (name addr : string) :
  is_Some (addrMap !! name) ->
  ParseAddr (ToLower addr) = None ->
  collectPairs (insertAddr addrMap name addr) ≡ₚ collectPairs addrMap.
Proof.
  intros [set Hlook] Hbad. rewrite (insertAddr_insert _ _ _ set Hlook).
  destruct (decide (ToLower addr ∈ set)) as [Hin | Hnotin].
  - assert ({[ToLower addr]} ∪ set = set) as -> by set_solver.
    by rewrite insert_id.
  - rewrite !collectPairs_bind.
    rewrite <- insert_delete_eq.
    rewrite (map_to_list_insert (delete name addrMap)) by apply lookup_delete_eq.
    rewrite <- (map_to_list_delete addrMap name set Hlook).
    rewrite !bind_cons. f_equiv.
    unfold entryPairs; simpl.
    rewrite (elements_union_singleton set (ToLower addr) Hnotin). csimpl.
    unfold parsedPair at 1. by rewrite Hbad.
Qed.

(** C6.  Every pair of a successful call carries an address that is the
  parse of an address text gathered for its name, and the family tag of
  that address: the type is "IPv4" exactly when the address is an IPv4
  address and "IPv6" exactly when it is an IPv6 address.  A text that does
  not parse leaves no trace: adding it to an entry of the address map (the
  set keeps it lower-cased, and that is the text parsed) changes neither the
  pairs that come out nor whether pair assembly fails. *)
Theorem malformed_addresses_dropped :
  (forall (db : AssetDB) (since : time.Time) (names : list string)
          (pairs : list NameAddrPair) (p : NameAddrPair),
     fst (NamesToAddrs db since names) = Ok pairs ->
     p ∈ pairs ->
     (exists addrMap set addr,
        finalAddrMap db since names = Ok addrMap /\
        addrMap !! domain.Name (FQDN p) = Some set /\ addr ∈ set /\
        ParseAddr addr = Some (network.Address (Addr p))) /\
     (network.Type_ (Addr p) = "IPv4" <->
      netip.Is4 (network.Address (Addr p)) = true) /\
     (network.Type_ (Addr p) = "IPv6" <->
      netip.Is6 (network.Address (Addr p)) = true)) /\
  (forall (addrMap : gmap string (gset string)) (name addr : string),
     is_Some (addrMap !! name) ->
     ParseAddr (ToLower addr) = None ->
     sameOutcome (generatePairsFromAddrMap (insertAddr addrMap name addr))
                 (generatePairsFromAddrMap addrMap)).
Proof.
  split.
  - intros db since names pairs p Hrun Hp.
    rewrite NamesToAddrs_result in Hrun.
    destruct (finalAddrMap db since names) as [addrMap | e]; [| done].
    apply generatePairs_Ok in Hrun as [-> _].
    apply elem_of_collectPairs in Hp as (name & set & addr & ip & Hlook & Hin & Hip & ->).
    simpl. split_and!.
    + by exists addrMap, set, addr.
    + apply tagged_IPv4.
    + apply tagged_IPv6.
  - intros addrMap name addr Hsome Hbad.
    by apply generatePairs_perm, collectPairs_drop_malformed.
Qed.

End malformed.

Lemma malformed_addresses_dropped_witness :
  let addrMap : gmap string (gset string) :=
    {[ "a.example.com" := {[ "93.184.216.34" ]} ]} in
  utils.sameOutcome
    (@utils.generatePairsFromAddrMap example.runtime
       (@utils.insertAddr example.runtime addrMap "a.example.com" "not-an-address"))
    (@utils.generatePairsFromAddrMap example.runtime addrMap) /\
  network.Type_ (utils.Addr (utils.pairOf "a.example.com" example.ip_93_184_216_34))
  = "IPv4".
Proof.
  destruct (@malformed_addresses_dropped example.runtime) as [Htag Hdrop].
  split.
  - apply Hdrop; [| reflexivity].
    rewrite lookup_singleton_eq. by eexists.
  - destruct (Htag example.directDb example.zeroTime ["a.example.com"]
                [utils.pairOf "a.example.com" example.ip_93_184_216_34]
                (utils.pairOf "a.example.com" example.ip_93_184_216_34))
      as (_ & Hv4 & _).
    + vm_compute; reflexivity.
    + left.
    + by apply Hv4.
Defined.

(** *** Stages, calls and store errors *)

Section stages.
Context `{GoRuntime}.

Import assetdb utils.

Lemma indirectStage_quiet (db : AssetDB) (since : time.Time) (st : State) :
  indirectStage (quietRaw db) since st = indirectStage db since st.
Proof.
  unfold indirectStage, dbRawQuery, quietRaw; simpl.
  by destruct (RawQuery db _) as [rows | err].
Qed.

Lemma chainStep_quiet (db : AssetDB) (since : time.Time) (st : State) (name : string) :
  chainStep (quietRaw db) since st name = chainStep db since st name.
Proof.
  unfold chainStep, dbRawQuery, quietRaw; simpl.
  by destruct (RawQuery db _) as [rows | err].
Qed.

Lemma forRange_ext {E A S} (f g : S -> A -> effects.M E S) (l : list A) (s : S) :
  (forall s a, f s a = g s a) ->
  effects.forRange f l s = effects.forRange g l s.
Proof.
  intros Hfg. revert s. induction l as [|a l IH]; intros s; [done |].
  cbn [effects.forRange]. rewrite Hfg. unfold effects.bind.
  destruct (g s a) as [s' t]. by rewrite IH.
Qed.

Lemma NamesToAddrs_quiet (db : AssetDB) (since : time.Time) (names : list string) :
  NamesToAddrs (quietRaw db) since names = NamesToAddrs db since names.
Proof.
  unfold NamesToAddrs. cbv zeta. rewrite indirectStage_quiet.
  unfold effects.bind at 1 5.
  destruct (indirectStage db since _) as [[R1 m1] t1].
  destruct (stringset.Len R1 =? 0); [done |].
  unfold dbRelationQuery, dbAssetQuery, effects.bind at 1 4.
  change (RelationQuery (quietRaw db)) with (RelationQuery db).
  change (AssetQuery (quietRaw db)) with (AssetQuery db).
  destruct (RelationQuery db _) as [rels | err]; [| done].
  destruct (fold_left directStep rels (R1, m1)) as [R2 m2].
  destruct (stringset.Len R2 =? 0); [done |].
  unfold effects.bind at 1 3.
  destruct (AssetQuery db _) as [assets | err]; [| done].
  by rewrite (forRange_ext (chainStep (quietRaw db) since) (chainStep db since))
    by apply chainStep_quiet.
Qed.

Lemma finalAddrMap_store_error (db : AssetDB) (since : time.Time)
  (names : list string) (err : string) :
  finalAddrMap db since names = Err (errStore err) <->
  fst (afterIndirect db since names) <> ∅ /\
  (RelationQuery db
     (directQuery since (stringset.Slice (fst (afterIndirect db since names))))
   = Failure err \/
   exists rels,
     RelationQuery db
       (directQuery since (stringset.Slice (fst (afterIndirect db since names))))
     = Rows rels /\
     fst (afterDirect db since names rels) <> ∅ /\
     AssetQuery db
       (aliasQuery since (stringset.Slice (fst (afterDirect db since names rels))))
     = Failure err).
Proof.
  unfold finalAddrMap. cbv zeta.
  destruct (stringset.Len (fst (afterIndirect db since names)) =? 0) eqn:HR1.
  { apply Len_zero in HR1. split; [done | by intros [? _]]. }
  apply Len_nonzero in HR1.
  destruct (RelationQuery db _) as [rels | err'] eqn:Hrel.
  - destruct (stringset.Len (fst (afterDirect db since names rels)) =? 0) eqn:HR2.
    { apply Len_zero in HR2. split; [done |].
      intros [_ [? | (rels' & [= <-] & ? & _)]]; done. }
    apply Len_nonzero in HR2.
    destruct (AssetQuery db _) as [assets | err''] eqn:Hass.
    + split; [done |].
      intros [_ [? | (rels' & [= <-] & _ & Hfail)]]; [done |].
      rewrite Hass in Hfail. done.
    + split.
      * intros [= ->]. split; [done |]. right. by exists rels.
      * intros [_ [? | (rels' & [= <-] & _ & Hfail)]]; [done |].
        rewrite Hass in Hfail. by injection Hfail as ->.
  - split.
    + intros [= ->]. split; [done |]. by left.
    + intros [_ [[= ->] | (rels' & ? & _)]]; done.
Qed.

(** C2, amended.  A raw query that fails (the query of the indirect stage,
  and the chain query of each alias) counts as a query without rows: the run
  makes the same calls and returns the same result as against a store in
  which those queries have no rows.  A store error comes back to the caller
  from two places and no other: the relation query of the direct stage, and
  the asset query that discovers the aliases, each reached only while names
  remain.  Pair assembly makes no call to the store. *)
Theorem store_error_policy (db : AssetDB) (since : time.Time) (names : list string) :
  NamesToAddrs (quietRaw db) since names = NamesToAddrs db since names /\
  (forall err,
     fst (NamesToAddrs db since names) = Err (errStore err) <->
     fst (afterIndirect db since names) <> ∅ /\
     (RelationQuery db
        (directQuery since (stringset.Slice (fst (afterIndirect db since names))))
      = Failure err \/
      exists rels,
        RelationQuery db
          (directQuery since (stringset.Slice (fst (afterIndirect db since names))))
        = Rows rels /\
        fst (afterDirect db since names rels) <> ∅ /\
        AssetQuery db
          (aliasQuery since (stringset.Slice (fst (afterDirect db since names rels))))
        = Failure err)).
Proof.
  split; [apply NamesToAddrs_quiet |].
  intros err. rewrite <- finalAddrMap_store_error, NamesToAddrs_result.
  destruct (finalAddrMap db since names) as [addrMap | e];
    [| split; congruence].
  split; [| done].
  intros Hgen. by apply generatePairs_Err in Hgen as [? _].
Qed.

End stages.

(** C2, as stated, fails.  Against [failingDb] the indirect stage resolves
  nothing, and the relation query of the direct stage, an intermediate
  stage, fails: the call ends there with the store's error, after two calls.
  Had the failure counted as "no results", the run would have gone on as it
  does against [aliasDb], where that query has no rows, and would have found
  the address behind the alias chain. *)
Lemma direct_stage_error_is_fatal :
  @utils.NamesToAddrs example.runtime example.failingDb example.zeroTime
    ["b.example.com"]
  = (utils.Err (utils.errStore "connection reset"),
     [@utils.indirectCall example.runtime example.zeroTime {[ "b.example.com" ]};
      @utils.directCall example.runtime example.zeroTime {[ "b.example.com" ]}]) /\
  fst (@utils.NamesToAddrs example.runtime example.aliasDb example.zeroTime
         ["b.example.com"])
  = utils.Ok [utils.pairOf "b.example.com" example.ip_203_0_113_7].
Proof. split; vm_compute; reflexivity. Qed.

Lemma store_error_policy_witness :
  fst (@utils.NamesToAddrs example.runtime example.failingDb example.zeroTime
         ["b.example.com"])
  = utils.Err (utils.errStore "connection reset").
Proof.
  apply (@store_error_policy example.runtime example.failingDb example.zeroTime
           ["b.example.com"]).
  split; [vm_compute; discriminate | by left].
Defined.

Section narrowing.
Context `{GoRuntime}.

Import assetdb utils.

Lemma afterIndirect_remaining (db : AssetDB) (since : time.Time) (names : list string) :
  fst (afterIndirect db since names)
  = fst (start names)
    ∖ indirectResolved
        (rowsOf (RawQuery db (indirectQuery since (stringset.Slice (fst (start names)))))).
Proof. by rewrite afterIndirect_eq, indirectStep_remaining. Qed.

Lemma afterDirect_remaining (db : AssetDB) (since : time.Time) (names : list string)
  (rels : list dbt.Relation) :
  fst (afterDirect db since names rels)
  = fst (afterIndirect db since names) ∖ directResolved rels.
Proof. unfold afterDirect. by rewrite directStep_remaining. Qed.

Lemma NamesToAddrs_pair (db : AssetDB) (since : time.Time) (names : list string)
  (r : result (list NameAddrPair)) (calls : list Call) :
  fst (NamesToAddrs db since names) = r ->
  snd (NamesToAddrs db since names) = calls ->
  NamesToAddrs db since names = (r, calls).
Proof. destruct (NamesToAddrs db since names). simpl. congruence. Qed.

(** C7.  Every stage asks the store about the names that are still
  unresolved and about no other: the indirect query lists all the names,
  the direct query the names the indirect query had no row for, the alias
  query the names that, in addition, the direct query had no address
  relation for, and the chain queries are those of the aliases the alias
  query found.  As soon as no name remains after the indirect or after the
  direct stage, the call returns what pair assembly makes of the address
  map and has issued no query of a later stage. *)
Theorem staged_narrowing (db : AssetDB) (since : time.Time) (names : list string) :
  let R0 := fst (start names) in
  let R1 := R0 ∖ indirectResolved
                   (rowsOf (RawQuery db (indirectQuery since (stringset.Slice R0)))) in
  fst (afterIndirect db since names) = R1 /\
  (R1 = ∅ ->
   NamesToAddrs db since names
   = (generatePairsFromAddrMap (snd (afterIndirect db since names)),
      [indirectCall since R0])) /\
  (R1 <> ∅ ->
   (forall err,
      RelationQuery db (directQuery since (stringset.Slice R1)) = Failure err ->
      snd (NamesToAddrs db since names)
      = [indirectCall since R0; directCall since R1]) /\
   (forall rels,
      RelationQuery db (directQuery since (stringset.Slice R1)) = Rows rels ->
      let R2 := R1 ∖ directResolved rels in
      fst (afterDirect db since names rels) = R2 /\
      (R2 = ∅ ->
       NamesToAddrs db since names
       = (generatePairsFromAddrMap (snd (afterDirect db since names rels)),
          [indirectCall since R0; directCall since R1])) /\
      (R2 <> ∅ ->
       (forall err,
          AssetQuery db (aliasQuery since (stringset.Slice R2)) = Failure err ->
          snd (NamesToAddrs db since names)
          = [indirectCall since R0; directCall since R1; aliasCall since R2]) /\
       (forall assets,
          AssetQuery db (aliasQuery since (stringset.Slice R2)) = Rows assets ->
          snd (NamesToAddrs db since names)
          = ([indirectCall since R0; directCall since R1; aliasCall since R2]
             ++ ((fun name => CallRawQuery (cnameQuery name since))
                   <$> cnamesOf assets))%list)))).
Proof.
  intros R0 R1.
  assert (HR1 : fst (afterIndirect db since names) = R1)
    by apply afterIndirect_remaining.
  pose proof (NamesToAddrs_calls db since names) as Hcalls.
  pose proof (NamesToAddrs_result db since names) as Hres.
  unfold finalAddrMap in Hres. cbv zeta in Hcalls, Hres.
  rewrite HR1 in Hcalls, Hres. fold R0 in Hcalls.
  split; [done | split].
  - intros Hempty. apply Len_zero in Hempty as Hlen.
    rewrite Hlen in Hcalls, Hres. by apply NamesToAddrs_pair.
  - intros Hnonempty. apply Len_nonzero in Hnonempty as Hlen.
    rewrite Hlen in Hcalls, Hres. split.
    + intros err Hfail. by rewrite Hfail in Hcalls.
    + intros rels Hrels R2. rewrite Hrels in Hcalls, Hres.
      assert (HR2 : fst (afterDirect db since names rels) = R2).
      { rewrite afterDirect_remaining. by rewrite HR1. }
      rewrite HR2 in Hcalls, Hres.
      split; [done | split].
      * intros Hempty2. apply Len_zero in Hempty2 as Hlen2.
        rewrite Hlen2 in Hcalls, Hres. by apply NamesToAddrs_pair.
      * intros Hnonempty2. apply Len_nonzero in Hnonempty2 as Hlen2.
        rewrite Hlen2 in Hcalls. split.
        -- intros err Hfail. by rewrite Hfail in Hcalls.
        -- intros assets Hassets. by rewrite Hassets in Hcalls.
Qed.

End narrowing.

(** In [directDb] the one name is resolved by the direct stage: the run
  stops after the direct query.  In [aliasDb] nothing is resolved before the
  alias stage, which then follows the chain of the alias it finds. *)
Lemma staged_narrowing_witness :
  snd (@utils.NamesToAddrs example.runtime example.directDb example.zeroTime
         ["a.example.com"])
  = [@utils.indirectCall example.runtime example.zeroTime {[ "a.example.com" ]};
     @utils.directCall example.runtime example.zeroTime {[ "a.example.com" ]}] /\
  snd (@utils.NamesToAddrs example.runtime example.aliasDb example.zeroTime
         ["b.example.com"])
  = [@utils.indirectCall example.runtime example.zeroTime {[ "b.example.com" ]};
     @utils.directCall example.runtime example.zeroTime {[ "b.example.com" ]};
     @utils.aliasCall example.runtime example.zeroTime {[ "b.example.com" ]};
     utils.CallRawQuery (@utils.cnameQuery example.runtime "b.example.com"
                           example.zeroTime)].
Proof.
  split.
  - destruct (@staged_narrowing example.runtime example.directDb example.zeroTime
                ["a.example.com"]) as (_ & _ & Hgo).
    destruct Hgo as [_ Hrels]; [vm_compute; discriminate |].
    destruct (Hrels _ eq_refl) as (_ & Hstop & _).
    rewrite Hstop; [vm_compute; reflexivity | vm_compute; reflexivity].
  - destruct (@staged_narrowing example.runtime example.aliasDb example.zeroTime
                ["b.example.com"]) as (_ & _ & Hgo).
    destruct Hgo as [_ Hrels]; [vm_compute; discriminate |].
    destruct (Hrels _ eq_refl) as (_ & _ & Hon).
    destruct Hon as [_ Hassets]; [vm_compute; discriminate |].
    rewrite (Hassets _ eq_refl). vm_compute; reflexivity.
Defined.

(** *** The time filter *)

Section time_filter.
Context `{GoRuntime}.

Import assetdb utils.









End time_filter.



(** * Further properties *)

(** ** [isBadField] *)

Lemma list_ascii_append (s t : string) :
  list_ascii_of_string (s +:+ t)
  = (list_ascii_of_string s ++ list_ascii_of_string t)%list.
Proof.
  induction s as [|c s IH]; [done |].
  rewrite append_cons. simpl. by rewrite IH.
Qed.

Lemma badstrs_start_lower (bad : string) :
  bad ∈ scope.badstrs ->
  exists c rest, bad = String c rest /\ isLowerByte c = true.
Proof.
  unfold scope.badstrs. intros Hin.
  repeat (apply elem_of_cons in Hin as [-> | Hin]; [by eexists _, _ |]).
  by apply elem_of_nil in Hin.
Qed.

Lemma isBadField_occurrence (field : string) :
  scope.isBadField field = true <->
  exists bad pre post, bad ∈ scope.badstrs /\ field = pre +:+ bad +:+ post.
Proof.
  unfold scope.isBadField. rewrite anyContained_spec. split.
  - intros (bad & Hin & Hc). apply Contains_spec in Hc as (pre & post & ->).
    by exists bad, pre, post.
  - intros (bad & pre & post & Hin & ->). exists bad. split; [done |].
    apply Contains_spec. by exists pre, post.
Qed.

(** The test is case-sensitive: a field without a lower-case ASCII letter,
  such as a notice written in capitals, is never flagged. *)
Theorem isBadField_needs_lower_case (field : string) :
  Forall (fun c => isLowerByte c = false) (list_ascii_of_string field) ->
  scope.isBadField field = false.
Proof.
  intros Hupper. destruct (scope.isBadField field) eqn:Hbad; [| done].
  apply isBadField_occurrence in Hbad as (bad & pre & post & Hin & ->).
  apply badstrs_start_lower in Hin as (c & rest & -> & Hlower).
  rewrite !list_ascii_append in Hupper. simpl in Hupper.
  apply Forall_app in Hupper as [_ Hupper].
  apply Forall_cons in Hupper as [Hc _]. congruence.
Qed.

Lemma isBadField_needs_lower_case_witness :
  scope.isBadField "REDACTED FOR PRIVACY" = false.
Proof.
  apply (isBadField_needs_lower_case "REDACTED FOR PRIVACY").
  vm_compute. repeat constructor.
Defined.

(** A flagged field stays flagged inside any longer text. *)
Theorem isBadField_monotone (field pre post : string) :
  scope.isBadField field = true ->
  scope.isBadField (pre +:+ field +:+ post) = true.
Proof.
  intros Hbad.
  apply isBadField_occurrence in Hbad as (bad & p & q & Hin & ->).
  apply isBadField_occurrence. exists bad, (pre +:+ p), (q +:+ post).
  split; [done |]. by rewrite !append_assoc.
Qed.

Lemma isBadField_monotone_witness :
  scope.isBadField "privacy" = true /\
  scope.isBadField ("Whois " +:+ "privacy" +:+ " Service") = true.
Proof.
  split; [reflexivity |].
  apply (isBadField_monotone "privacy" "Whois " " Service"). reflexivity.
Defined.

(** ** [Add] *)

Section Add_facts.
Context `{GoRuntime} `{PrefixPrinter} {R : Type}.

(** An asset of a kind the type switch has no case for is not registered:
  [Add] reports no new entry and leaves the registry as it was. *)
Theorem Add_unhandled (ops : registry.Adders R) (a : oam.Asset) (s : R) :
  scope.handledKind a = false ->
  registry.Add ops a s = (false, s).
Proof. by destruct a. Qed.

(** Two URLs whose hosts are spellings of the same IP address have the same
  effect on the registry: the address is registered under its canonical
  text, not under the host as written. *)
Theorem Add_URL_canonical (ops : registry.Adders R) (u1 u2 : oamurl.URL)
  (ip : netip.Addr) (s : R) :
  ParseAddr (oamurl.Host u1) = Some ip ->
  ParseAddr (oamurl.Host u2) = Some ip ->
  registry.Add ops (oam.URL u1) s = registry.AddAddress ops (AddrString ip) s /\
  registry.Add ops (oam.URL u1) s = registry.Add ops (oam.URL u2) s.
Proof. intros H1 H2. simpl. by rewrite H1, H2. Qed.

End Add_facts.

Lemma Add_unhandled_witness :
  @registry.Add example.runtime example_more.prefixPrinter _ example_more.adders
    (oam.OtherAsset "Service") ∅ = (false, ∅).
Proof.
  apply (@Add_unhandled example.runtime example_more.prefixPrinter).
  reflexivity.
Defined.

Lemma Add_URL_canonical_witness :
  @registry.Add example.runtime example_more.prefixPrinter _ example_more.adders
    (oam.URL {| oamurl.Host := "0:0:0:0:0:0:0:1" |}) ∅
  = @registry.Add example.runtime example_more.prefixPrinter _ example_more.adders
      (oam.URL {| oamurl.Host := "::1" |}) ∅.
Proof.
  apply (@Add_URL_canonical example.runtime example_more.prefixPrinter _
           example_more.adders
           {| oamurl.Host := "0:0:0:0:0:0:0:1" |} {| oamurl.Host := "::1" |}
           example.ip_loopback6 ∅); reflexivity.
Defined.

(** ** [ReadASPrefixes] *)

Section ReadASPrefixes_facts.
Context `{PrefixPrinter}.

Import assetdb graphdb.

Lemma prefixStep_fold (db : GraphDB) (since : time.Time) (rels : list dbt.Relation)
  (acc : list string) :
  fold_left (prefixStep db since) rels acc
  = (acc ++ omap (announcedPrefix db since) rels)%list.
Proof.
  revert acc. induction rels as [|rel rels IH]; intros acc; csimpl.
  - by rewrite app_nil_r.
  - rewrite IH. unfold prefixStep, announcedPrefix.
    destruct (FindById db _ since) as [a | err]; [| done].
    destruct (dbt.Asset_ a); try done.
    by rewrite <- app_assoc.
Qed.

(** [ReadASPrefixes] never fails: when the store cannot look the AS up,
  does not know it, or cannot list its relations, the result is empty. *)
Theorem ReadASPrefixes_empty (db : GraphDB) (asn : Z) (since : time.Time) :
  let lookup :=
    FindByContent db (oam.AutonomousSystem {| network.Number := asn |}) since in
  (forall err, lookup = Failure err -> ReadASPrefixes db asn since = []) /\
  (lookup = Rows [] -> ReadASPrefixes db asn since = []) /\
  (forall first rest err,
     lookup = Rows (first :: rest) ->
     OutgoingRelations db first since ["announces"] = Failure err ->
     ReadASPrefixes db asn since = []).
Proof.
  unfold ReadASPrefixes. split_and!.
  - intros err ->. done.
  - intros ->. done.
  - intros first rest err -> ->. done.
Qed.

(** When the store knows the AS, the prefixes are those of the "announces"
  relations of the first asset found, in the order of the relations: a
  relation contributes the CIDR of its target when the target can be loaded
  and is a netblock, and nothing otherwise.  Further assets found for the
  same number are not looked at, and there are never more prefixes than
  relations. *)
Theorem ReadASPrefixes_announced (db : GraphDB) (asn : Z) (since : time.Time)
  (first : dbt.Asset) (rest : list dbt.Asset) (rels : list dbt.Relation) :
  FindByContent db (oam.AutonomousSystem {| network.Number := asn |}) since
  = Rows (first :: rest) ->
  OutgoingRelations db first since ["announces"] = Rows rels ->
  ReadASPrefixes db asn since = omap (announcedPrefix db since) rels /\
  (length (ReadASPrefixes db asn since) <= length rels)%nat /\
  (forall p,
     p ∈ ReadASPrefixes db asn since <->
     exists rel a netblock,
       rel ∈ rels /\
       FindById db (dbt.ID (dbt.ToAsset rel)) since = Rows a /\
       dbt.Asset_ a = oam.Netblock netblock /\
       p = PrefixString (network.CIDR netblock)).
Proof.
  intros Hfind Hrels.
  assert (Heq : ReadASPrefixes db asn since = omap (announcedPrefix db since) rels).
  { unfold ReadASPrefixes. rewrite Hfind, Hrels.
    destruct rels as [|rel rels]; [done |].
    change (0 <? utils.len (rel :: rels)) with true. cbv iota.
    by rewrite prefixStep_fold. }
  split_and!; [done | |].
  - rewrite Heq. clear. induction rels as [|rel rels IH]; csimpl; [lia |].
    destruct (announcedPrefix db since rel); simpl; lia.
  - intros p. rewrite Heq, list_elem_of_omap. unfold announcedPrefix. split.
    + intros (rel & Hin & Hp).
      destruct (FindById db _ since) as [a | err] eqn:Ha; [| done].
      destruct (dbt.Asset_ a) eqn:Hkind; try done.
      injection Hp as <-. by exists rel, a, v.
    + intros (rel & a & netblock & Hin & Ha & Hkind & ->).
      exists rel. split; [done |]. by rewrite Ha, Hkind.
Qed.

End ReadASPrefixes_facts.

Lemma ReadASPrefixes_empty_witness :
  @graphdb.ReadASPrefixes example_more.prefixPrinter example_more.graph 64501
    example.zeroTime = [].
Proof.
  apply (@ReadASPrefixes_empty example_more.prefixPrinter example_more.graph 64501
           example.zeroTime).
  reflexivity.
Defined.

Lemma ReadASPrefixes_announced_witness :
  @graphdb.ReadASPrefixes example_more.prefixPrinter example_more.graph 64500
    example.zeroTime = ["203.0.113.0/24"].
Proof.
  destruct (@ReadASPrefixes_announced example_more.prefixPrinter example_more.graph
              64500 example.zeroTime example_more.asAsset [] _ eq_refl eq_refl)
    as (Heq & _ & _).
  rewrite Heq. vm_compute. reflexivity.
Defined.

(** ** [NamesToAddrs]: the names, the stages and the addresses *)

Section resolver_more.
Context `{GoRuntime}.

Import assetdb utils.

Lemma InsertMany_set (names : list string) (s : gset string) :
  stringset.InsertMany s names = list_to_set (ToLower <$> names) ∪ s.
Proof.
  unfold stringset.InsertMany. revert s.
  induction names as [|n names IH]; intros s; simpl.
  - set_solver.
  - rewrite IH. unfold stringset.Insert. set_solver.
Qed.

(** The call depends on the names only through the set of their lower-cased
  forms: two lists of names that differ in order, in repetition or in the
  case of their letters (as [ToLower] folds it) start the run from the same
  set of remaining names, and the outcome is the same: the same error, or
  the same pairs in whatever order. *)
Theorem NamesToAddrs_names_as_set (db : AssetDB) (since : time.Time)
  (names1 names2 : list string) :
  (forall n, n ∈ ToLower <$> names1 <-> n ∈ ToLower <$> names2) ->
  fst (start names1) = fst (start names2) /\
  sameOutcome (fst (NamesToAddrs db since names1))
              (fst (NamesToAddrs db since names2)).
Proof.
  intros Hsame.
  assert (Hset : list_to_set (ToLower <$> names1) =@{gset string}
                 list_to_set (ToLower <$> names2)) by set_solver.
  split.
  - unfold start. cbn [fst]. by rewrite !InsertMany_set, Hset.
  - assert (NamesToAddrs db since names1 = NamesToAddrs db since names2) as ->.
    { unfold NamesToAddrs. cbv zeta. by rewrite !InsertMany_set, Hset. }
    unfold sameOutcome. by destruct (fst (NamesToAddrs db since names2)).
Qed.

Lemma indirectStep_nothing_remaining (rows : list Row)
  (m : gmap string (gset string)) :
  fold_left indirectStep rows (∅, m) = (∅, m).
Proof.
  induction rows as [|r rows IH]; [done |].
  cbn [fold_left].
  assert (indirectStep (∅, m) r = (∅, m)) as ->; [| apply IH].
  unfold indirectStep, stringset.Has.
  by rewrite bool_decide_eq_false_2 by set_solver.
Qed.

(** Without names there is nothing to resolve, yet the store is asked once:
  the call issues the indirect query, with an empty list of names, and
  fails with the "no addresses" error.  No other query is made. *)
Theorem NamesToAddrs_no_names (db : AssetDB) (since : time.Time) :
  NamesToAddrs db since []
  = (Err errNoAddresses, [indirectCall since ∅]).
Proof.
  assert (Hafter : afterIndirect db since [] = (∅, ∅)).
  { rewrite afterIndirect_eq. apply indirectStep_nothing_remaining. }
  apply NamesToAddrs_pair.
  - rewrite NamesToAddrs_result. unfold finalAddrMap. cbv zeta.
    rewrite Hafter. simpl. done.
  - rewrite NamesToAddrs_calls. cbv zeta. rewrite Hafter. simpl. done.
Qed.

End resolver_more.

Lemma NamesToAddrs_names_as_set_witness :
  utils.sameOutcome
    (fst (@utils.NamesToAddrs example.runtime example.aliasDb example.zeroTime
            ["B.Example.com"; "b.example.com"; "B.EXAMPLE.COM"]))
    (fst (@utils.NamesToAddrs example.runtime example.aliasDb example.zeroTime
            ["b.example.com"])).
Proof.
  apply (@NamesToAddrs_names_as_set example.runtime).
  intros n. vm_compute ((@ToLower example.runtime) <$> _).
  rewrite !elem_of_cons. rewrite !elem_of_nil. tauto.
Defined.

Section indirect_stage.
Context `{GoRuntime}.

Import assetdb utils.

Lemma insertAddr_fresh (m : gmap string (gset string)) (name addr : string) :
  m !! name = None ->
  insertAddr (ensureEntry m name) name addr = <[ name := {[ ToLower addr ]} ]> m.
Proof.
  intros Hnone. unfold ensureEntry. rewrite Hnone.
  rewrite (insertAddr_insert _ _ _ stringset.New) by apply lookup_insert_eq.
  rewrite insert_insert_eq. unfold stringset.New. f_equal. set_solver.
Qed.

Lemma indirectStep_first_row (rows : list Row) (R : gset string)
  (m : gmap string (gset string)) (name : string) (set : gset string) :
  (forall k, is_Some (m !! k) -> ToLower k ∉ R) ->
  (snd (fold_left indirectStep rows (R, m))) !! name = Some set ->
  m !! name = Some set \/
  (m !! name = None /\ ToLower name ∈ R /\
   exists before r after,
     rows = (before ++ r :: after)%list /\
     assetdb.Name r = name /\
     (forall r', r' ∈ before -> ToLower (assetdb.Name r') <> ToLower name) /\
     set = {[ ToLower (assetdb.Addr r) ]}).
Proof.
  revert R m. induction rows as [|row rows IH]; intros R m Hres Hlook.
  { by left. }
  cbn [fold_left] in Hlook. unfold indirectStep at 2 in Hlook.
  unfold stringset.Has, stringset.Remove in Hlook.
  case_bool_decide as Hhas; simpl in Hlook.
  - assert (Hfresh : m !! assetdb.Name row = None).
    { destruct (m !! assetdb.Name row) eqn:E; [| done].
      destruct (Hres (assetdb.Name row)); [by eexists | done]. }
    rewrite (insertAddr_fresh _ _ _ Hfresh) in Hlook.
    apply IH in Hlook as [Hold | (Hnone & Hin & before & r & after & -> & Hr & Hbefore & ->)].
    + destruct (decide (assetdb.Name row = name)) as [<- | Hne].
      * rewrite lookup_insert_eq in Hold. injection Hold as <-.
        right. split_and!; [done | done |].
        exists [], row, rows. split_and!; [done | done | | done].
        intros r' Hr'. by apply elem_of_nil in Hr'.
      * rewrite lookup_insert_ne in Hold by done. by left.
    + right.
      assert (assetdb.Name row <> name).
      { intros <-. by rewrite lookup_insert_eq in Hnone. }
      rewrite lookup_insert_ne in Hnone by done.
      split_and!; [done | set_solver |].
      exists (row :: before), r, after. split_and!; [done | done | | done].
      intros r' Hr'. apply elem_of_cons in Hr' as [-> | Hr']; [set_solver | by apply Hbefore].
    + intros k [s Hk]. destruct (decide (assetdb.Name row = k)) as [<- | Hne].
      * set_solver.
      * rewrite lookup_insert_ne in Hk by done.
        assert (ToLower k ∉ R) by (apply Hres; by eexists). set_solver.
  - apply IH in Hlook as [Hold | (Hnone & Hin & before & r & after & -> & Hr & Hbefore & ->)];
      [by left | | done].
    right. split_and!; [done | done |].
    exists (row :: before), r, after. split_and!; [done | done | | done].
    intros r' Hr'. apply elem_of_cons in Hr' as [-> | Hr']; [| by apply Hbefore].
    intros Heq. by rewrite Heq in Hhas.
Qed.

(** The indirect stage keeps one address for a name: the address of the
  first row the store has for it.  Every entry of the address map after the
  stage belongs to a requested name, carries the single address of the
  first row with that name (up to case), and every further row for the name
  is passed over, because the name has left the remaining set. *)
Theorem indirect_stage_first_row_only (db : AssetDB) (since : time.Time)
  (names : list string) (name : string) (set : gset string) :
  (snd (afterIndirect db since names)) !! name = Some set ->
  ToLower name ∈ fst (start names) /\
  (ToLower name ∉ fst (afterIndirect db since names)) /\
  exists before r after,
    rowsOf (RawQuery db (indirectQuery since (stringset.Slice (fst (start names)))))
    = (before ++ r :: after)%list /\
    assetdb.Name r = name /\
    (forall r', r' ∈ before -> ToLower (assetdb.Name r') <> ToLower name) /\
    set = {[ ToLower (assetdb.Addr r) ]}.
Proof.
  intros Hlook.
  pose proof (afterIndirect_remaining db since names) as Hrem.
  rewrite afterIndirect_eq in Hlook.
  unfold start in Hlook at 2.
  apply indirectStep_first_row in Hlook
    as [Hold | (_ & Hin & before & r & after & Hrows & Hr & Hbefore & ->)].
  - by rewrite lookup_empty in Hold.
  - split_and!; [done | |].
    + rewrite Hrem, Hrows. unfold indirectResolved.
      rewrite !fmap_app, !fmap_cons, Hr. set_solver.
    + by exists before, r, after.
  - intros k [s Hk]. by rewrite lookup_empty in Hk.
Qed.

End indirect_stage.

(** [mail.example.com] has two addresses in [mailDb]; the call returns the
  first one only. *)
Lemma indirect_stage_first_row_only_witness :
  fst (@utils.NamesToAddrs example.runtime example_more.mailDb example.zeroTime
         ["mail.example.com"])
  = utils.Ok [utils.pairOf "mail.example.com" example.ip_93_184_216_34] /\
  "mail.example.com"
    ∉ fst (@utils.afterIndirect example.runtime example_more.mailDb example.zeroTime
             ["mail.example.com"]).
Proof.
  split; [vm_compute; reflexivity |].
  apply (@indirect_stage_first_row_only example.runtime example_more.mailDb
           example.zeroTime ["mail.example.com"] "mail.example.com"
           {[ "93.184.216.34" ]}).
  vm_compute. reflexivity.
Defined.

Section nothing_lost.
Context `{GoRuntime}.

Import assetdb utils resolver_facts.

Lemma grows_refl (m : gmap string (gset string)) : grows m m.
Proof. intros name set Hlook. by exists set. Qed.

Lemma grows_trans (m1 m2 m3 : gmap string (gset string)) :
  grows m1 m2 -> grows m2 m3 -> grows m1 m3.
Proof.
  intros H12 H23 name set Hlook.
  destruct (H12 _ _ Hlook) as (set2 & Hlook2 & Hsub2).
  destruct (H23 _ _ Hlook2) as (set3 & Hlook3 & Hsub3).
  exists set3. split; [done | set_solver].
Qed.

Lemma ensureEntry_lookup (m : gmap string (gset string)) (name k : string) :
  ensureEntry m name !! k
  = if decide (name = k) then Some (default stringset.New (m !! name)) else m !! k.
Proof.
  unfold ensureEntry. destruct (m !! name) eqn:E.
  - case_decide; subst; [by rewrite E | done].
  - rewrite lookup_insert. by case_decide.
Qed.

Lemma recorded_lookup (m : gmap string (gset string)) (name addr k : string) :
  insertAddr (ensureEntry m name) name addr !! k
  = if decide (name = k)
    then Some ({[ ToLower addr ]} ∪ default stringset.New (m !! name))
    else m !! k.
Proof.
  unfold insertAddr, stringset.Insert. rewrite lookup_alter, !ensureEntry_lookup.
  repeat case_decide; done.
Qed.

Lemma ensureEntry_grows (m : gmap string (gset string)) (name : string) :
  grows m (ensureEntry m name).
Proof.
  intros k set Hlook. rewrite ensureEntry_lookup. case_decide; subst.
  - rewrite Hlook. by exists set.
  - by exists set.
Qed.

Lemma recorded_grows (m : gmap string (gset string)) (name addr : string) :
  grows m (insertAddr (ensureEntry m name) name addr).
Proof.
  intros k set Hlook. rewrite recorded_lookup. case_decide; subst.
  - rewrite Hlook. eexists. split; [done | set_solver].
  - by exists set.
Qed.

Lemma indirectStep_grows (st : State) (res : Row) :
  grows (snd st) (snd (indirectStep st res)).
Proof.
  destruct st as [R m]. unfold indirectStep.
  destruct (negb _); simpl; [apply grows_refl | apply recorded_grows].
Qed.

Lemma directStep_grows (st : State) (rel : dbt.Relation) :
  grows (snd st) (snd (directStep st rel)).
Proof.
  destruct st as [R m]. unfold directStep.
  destruct (dbt.Asset_ (dbt.FromAsset rel)); simpl; try apply grows_refl.
  destruct (dbt.Asset_ (dbt.ToAsset rel)); simpl;
    (apply ensureEntry_grows || apply recorded_grows).
Qed.

Lemma fold_grows {A} (step : State -> A -> State) (l : list A) (st : State) :
  (forall st a, grows (snd st) (snd (step st a))) ->
  grows (snd st) (snd (fold_left step l st)).
Proof.
  intros Hstep. revert st. induction l as [|a l IH]; intros st; simpl.
  - apply grows_refl.
  - eapply grows_trans; [apply Hstep | apply IH].
Qed.

Lemma chainRow_fold (name : string) (rows : list Row) (m : gmap string (gset string)) :
  rows <> [] ->
  fold_left (chainRow name) rows m
  = <[ name := list_to_set (ToLower <$> (assetdb.Addr <$> rows))
               ∪ default stringset.New (m !! name) ]> m.
Proof.
  revert m. induction rows as [|r rows IH]; intros m Hne; [done |].
  cbn [fold_left]. unfold chainRow at 2.
  assert (Hstep : insertAddr (ensureEntry m name) name (assetdb.Addr r)
                  = <[ name := {[ ToLower (assetdb.Addr r) ]}
                               ∪ default stringset.New (m !! name) ]> m).
  { apply map_eq. intros k. rewrite recorded_lookup, lookup_insert.
    case_decide; done. }
  rewrite Hstep. destruct rows as [|r' rows].
  - simpl. f_equal. set_solver.
  - rewrite IH by done. rewrite lookup_insert_eq, insert_insert_eq. simpl.
    f_equal. set_solver.
Qed.

Lemma chainStep_outcome (db : AssetDB) (since : time.Time)
  (R : gset string) (m : gmap string (gset string)) (name : string) :
  (forall rows,
     RawQuery db (cnameQuery name since) = Rows rows -> rows <> [] ->
     fst (chainStep db since (R, m) name)
     = (R ∖ {[ ToLower name ]},
        <[ name := list_to_set (ToLower <$> (assetdb.Addr <$> rows))
                   ∪ default ∅ (m !! name) ]> m)) /\
  (rowsOf (RawQuery db (cnameQuery name since)) = [] ->
   fst (chainStep db since (R, m) name) = (R, m)).
Proof.
  unfold chainStep, dbRawQuery, effects.bind, effects.ret. simpl. split.
  - intros rows -> Hne. destruct rows as [|r rows]; [done |].
    change (0 <? len (r :: rows)) with true. cbv iota.
    unfold stringset.Remove. by rewrite chainRow_fold.
  - destruct (RawQuery db _) as [rows | err]; simpl; [| done].
    by intros ->.
Qed.

(** All the addresses a chain query returns are put down to the alias the
  query was made for, whatever hostname a row names, and the alias leaves
  the remaining set; the entries of other names stay as they are.  A chain
  query that fails or has no row changes nothing: the alias stays
  unresolved. *)
Theorem chain_addresses_go_to_the_alias (db : AssetDB) (since : time.Time)
  (R : gset string) (m : gmap string (gset string)) (name : string) :
  (forall rows,
     RawQuery db (cnameQuery name since) = Rows rows -> rows <> [] ->
     fst (chainStep db since (R, m) name)
     = (R ∖ {[ ToLower name ]},
        <[ name := list_to_set (ToLower <$> (assetdb.Addr <$> rows))
                   ∪ default ∅ (m !! name) ]> m)) /\
  (rowsOf (RawQuery db (cnameQuery name since)) = [] ->
   fst (chainStep db since (R, m) name) = (R, m)).
Proof. apply chainStep_outcome. Qed.

Lemma chainStep_state (db : AssetDB) (since : time.Time) (st : State) (name : string) :
  fst (fst (chainStep db since st name)) ⊆ fst st /\
  grows (snd st) (snd (fst (chainStep db since st name))).
Proof.
  destruct st as [R m].
  destruct (chainStep_outcome db since R m name) as [Hrows Hnone].
  destruct (RawQuery db (cnameQuery name since)) as [[|r rows] | err] eqn:Hq.
  - rewrite Hnone by done. split; [done | apply grows_refl].
  - rewrite (Hrows (r :: rows)) by done. simpl. split; [set_solver |].
    intros k set Hlook. rewrite lookup_insert. case_decide; subst.
    + rewrite Hlook. eexists. split; [done | set_solver].
    + by exists set.
  - rewrite Hnone by done. split; [done | apply grows_refl].
Qed.

Lemma forRange_chain_state (db : AssetDB) (since : time.Time) (cnames : list string)
  (st : State) :
  fst (fst (effects.forRange (chainStep db since) cnames st)) ⊆ fst st /\
  grows (snd st) (snd (fst (effects.forRange (chainStep db since) cnames st))).
Proof.
  revert st. induction cnames as [|name cnames IH]; intros st.
  - simpl. split; [done | apply grows_refl].
  - cbn [effects.forRange]. rewrite fst_bind.
    destruct (chainStep_state db since st name) as [Hsub Hgrow].
    destruct (IH (fst (chainStep db since st name))) as [Hsub' Hgrow'].
    split; [set_solver | by eapply grows_trans].
Qed.

(** Nothing is lost on the way.  From stage to stage the set of names that
  remain only shrinks, and the address map only grows: a name a stage has
  resolved does not come back, and an address a stage has recorded for a
  name is still there at pair assembly.  This holds whatever the store
  answers to the direct and to the alias query. *)
Theorem stages_lose_nothing (db : AssetDB) (since : time.Time) (names : list string)
  (rels : list dbt.Relation) (assets : list dbt.Asset) :
  fst (afterIndirect db since names) ⊆ fst (start names) /\
  fst (afterDirect db since names rels) ⊆ fst (afterIndirect db since names) /\
  fst (afterChains db since names rels assets)
    ⊆ fst (afterDirect db since names rels) /\
  grows (snd (afterIndirect db since names))
        (snd (afterDirect db since names rels)) /\
  grows (snd (afterDirect db since names rels))
        (snd (afterChains db since names rels assets)).
Proof.
  split_and!.
  - rewrite afterIndirect_remaining. set_solver.
  - rewrite afterDirect_remaining. set_solver.
  - apply forRange_chain_state.
  - unfold afterDirect. apply fold_grows, directStep_grows.
  - apply forRange_chain_state.
Qed.

End nothing_lost.

Lemma chain_addresses_go_to_the_alias_witness :
  fst (@utils.chainStep example.runtime example.aliasDb example.zeroTime
         ({[ "b.example.com" ]}, ∅) "b.example.com")
  = (∅, {[ "b.example.com" := {[ "203.0.113.7" ]} ]}).
Proof.
  destruct (@chain_addresses_go_to_the_alias example.runtime example.aliasDb
              example.zeroTime {[ "b.example.com" ]} ∅ "b.example.com")
    as [Hrows _].
  rewrite (Hrows _ eq_refl) by done.
  vm_compute. reflexivity.
Defined.

Section provenance_facts.
Context `{GoRuntime}.

Import assetdb utils resolver_facts.

Lemma fromStore_empty (db : AssetDB) : fromStore db ∅.
Proof. intros name set Hlook. by rewrite lookup_empty in Hlook. Qed.

Lemma fromStore_ensure (db : AssetDB) (m : gmap string (gset string)) (name : string) :
  fromStore db m -> storeName db name -> fromStore db (ensureEntry m name).
Proof.
  intros Hm Hname k set. rewrite ensureEntry_lookup. case_decide; subst.
  - destruct (m !! k) as [old|] eqn:Hold; simpl; intros [= <-].
    + by apply Hm.
    + split; [done | set_solver].
  - apply Hm.
Qed.

Lemma fromStore_record (db : AssetDB) (m : gmap string (gset string))
  (name addr : string) :
  fromStore db m -> storeName db name -> storeAddress db (ToLower addr) ->
  fromStore db (insertAddr (ensureEntry m name) name addr).
Proof.
  intros Hm Hname Haddr k set. rewrite recorded_lookup. case_decide; subst.
  - intros [= <-]. split; [done |]. intros text Hin.
    apply elem_of_union in Hin as [Hin | Hin].
    + apply elem_of_singleton in Hin as ->. done.
    + destruct (m !! k) as [old|] eqn:Hold; simpl in Hin; [| set_solver].
      by apply (Hm k old).
  - apply Hm.
Qed.

Lemma fromStore_indirect (db : AssetDB) (q : string) (all rows : list Row) (st : State) :
  RawQuery db q = Rows all -> rows ⊆ all ->
  fromStore db (snd st) -> fromStore db (snd (fold_left indirectStep rows st)).
Proof.
  intros Hq. revert st. induction rows as [|r rows IH]; intros [R m] Hsub Hm; [done |].
  cbn [fold_left]. apply IH; [set_solver |].
  unfold indirectStep. destruct (negb _); simpl; [done |].
  apply fromStore_record; [done | |]; left; exists q, all, r; set_solver.
Qed.

Lemma fromStore_direct (db : AssetDB) (q : string) (all rels : list dbt.Relation)
  (st : State) :
  RelationQuery db q = Rows all -> rels ⊆ all ->
  fromStore db (snd st) -> fromStore db (snd (fold_left directStep rels st)).
Proof.
  intros Hq. revert st. induction rels as [|rel rels IH]; intros [R m] Hsub Hm; [done |].
  cbn [fold_left]. apply IH; [set_solver |].
  unfold directStep. destruct (dbt.Asset_ (dbt.FromAsset rel)) eqn:Hfrom; simpl; try done.
  assert (Hname : storeName db (domain.Name v)).
  { right; left. exists q, all, rel, v. set_solver. }
  destruct (dbt.Asset_ (dbt.ToAsset rel)) eqn:Hto; simpl;
    try by apply fromStore_ensure.
  apply fromStore_record; [done | done |].
  right. exists q, all, rel, v0. set_solver.
Qed.

Lemma fromStore_chainRows (db : AssetDB) (q name : string) (all rows : list Row)
  (m : gmap string (gset string)) :
  RawQuery db q = Rows all -> rows ⊆ all -> storeName db name ->
  fromStore db m -> fromStore db (fold_left (chainRow name) rows m).
Proof.
  intros Hq. revert m. induction rows as [|r rows IH]; intros m Hsub Hname Hm; [done |].
  cbn [fold_left]. apply IH; [set_solver | done |].
  unfold chainRow. apply fromStore_record; [done | done |].
  left. exists q, all, r. set_solver.
Qed.

Lemma fromStore_chains (db : AssetDB) (since : time.Time) (cnames : list string)
  (st : State) :
  (forall name, name ∈ cnames -> storeName db name) ->
  fromStore db (snd st) ->
  fromStore db (snd (fst (effects.forRange (chainStep db since) cnames st))).
Proof.
  revert st. induction cnames as [|name cnames IH]; intros st Hnames Hm; [done |].
  cbn [effects.forRange]. rewrite fst_bind. apply IH; [set_solver |].
  unfold chainStep, dbRawQuery, effects.bind, effects.ret. simpl.
  destruct (RawQuery db (cnameQuery name since)) as [rows | err] eqn:Hq; [| done].
  destruct (0 <? len rows); [| done]. simpl.
  eapply fromStore_chainRows; [done | done | | done].
  apply Hnames. left.
Qed.

Lemma cnamesOf_storeName (db : AssetDB) (q : string) (assets : list dbt.Asset)
  (name : string) :
  AssetQuery db q = Rows assets -> name ∈ cnamesOf assets -> storeName db name.
Proof.
  intros Hq Hin. unfold cnamesOf in Hin.
  apply list_elem_of_omap in Hin as (a & Ha & Hname).
  destruct (dbt.Asset_ a) eqn:Hkind; try done. injection Hname as <-.
  right; right. by exists q, assets, a, v.
Qed.

Lemma fromStore_final (db : AssetDB) (since : time.Time) (names : list string)
  (m : gmap string (gset string)) :
  finalAddrMap db since names = Ok m -> fromStore db m.
Proof.
  assert (H1 : fromStore db (snd (afterIndirect db since names))).
  { rewrite afterIndirect_eq.
    destruct (RawQuery db _) as [rows | err] eqn:Hq; simpl; [| apply fromStore_empty].
    eapply fromStore_indirect; [done | done | apply fromStore_empty]. }
  unfold finalAddrMap. cbv zeta.
  destruct (stringset.Len _ =? 0); [by intros [= <-] |].
  destruct (RelationQuery db _) as [rels | err] eqn:Hrels; [| done].
  assert (H2 : fromStore db (snd (afterDirect db since names rels))).
  { unfold afterDirect. by eapply fromStore_direct. }
  destruct (stringset.Len _ =? 0); [by intros [= <-] |].
  destruct (AssetQuery db _) as [assets | err] eqn:Hassets; [| done].
  intros [= <-]. unfold afterChains. apply fromStore_chains; [| done].
  intros name Hname. by eapply cnamesOf_storeName.
Qed.

(** The resolver makes nothing up.  The hostname of every pair it returns
  is one an answer of the store carries, spelled as the store spells it,
  and the address is the parse of an address text an answer of the store
  carries (lower-cased, as the sets keep it). *)
Theorem pairs_come_from_the_store (db : AssetDB) (since : time.Time)
  (names : list string) (pairs : list NameAddrPair) (p : NameAddrPair) :
  fst (NamesToAddrs db since names) = Ok pairs ->
  p ∈ pairs ->
  storeName db (domain.Name (FQDN p)) /\
  exists text,
    storeAddress db text /\ ParseAddr text = Some (network.Address (Addr p)).
Proof.
  rewrite NamesToAddrs_result.
  destruct (finalAddrMap db since names) as [m | e] eqn:Hfinal; [| done].
  intros Hgen Hp. apply generatePairs_Ok in Hgen as [-> _].
  apply elem_of_collectPairs in Hp as (name & set & addr & ip & Hlook & Hin & Hip & ->).
  destruct (fromStore_final db since names m Hfinal name set Hlook) as [Hname Haddr].
  simpl. split; [done |]. exists addr. split; [by apply Haddr | done].
Qed.

End provenance_facts.

Lemma pairs_come_from_the_store_witness :
  @resolver_facts.storeName example.aliasDb "b.example.com".
Proof.
  apply (@pairs_come_from_the_store example.runtime example.aliasDb example.zeroTime
           ["b.example.com"]
           [utils.pairOf "b.example.com" example.ip_203_0_113_7]
           (utils.pairOf "b.example.com" example.ip_203_0_113_7)).
  - vm_compute. reflexivity.
  - left.
Defined.

(** ** The scrape plugins: queries and handlers *)

Section plugin_facts.
Context `{GoRuntime}.

Import support scrape scrape_facts.

(** *** The names kept from a page *)

Lemma keepInScope_kept (e : et.Event) (scraped : list string) (subs : gset string) :
  (forall n, n ∈ subs -> keptInScope e n) ->
  forall n, n ∈ fold_left (keepInScope e) scraped subs -> keptInScope e n.
Proof.
  revert subs. induction scraped as [|raw scraped IH]; intros subs Hsubs; [done |].
  cbn [fold_left]. apply IH. intros n. unfold keepInScope.
  destruct (scope.IsAssetInScope _ _ _) as [a conf] eqn:Hscope.
  destruct (0 <? conf) eqn:Hconf; [| apply Hsubs].
  unfold stringset.Insert. intros Hin.
  apply elem_of_union in Hin as [Hin | Hin]; [| by apply Hsubs].
  apply elem_of_singleton in Hin as ->. exists raw. split; [done |].
  rewrite Hscope. simpl. lia.
Qed.

(** *** [query] of [bing] *)

Lemma bing_pages_run (e : et.Event) (name : string) (pages : list Z)
  (subs : gset string) :
  snd (bing_pages e name pages subs)
  = fetchedPages e (fun i => bing_url i name) pages
    ≫= pageCalls (fun i => bing_url i name) /\
  ((forall n, n ∈ subs -> keptInScope e n) ->
   forall n, n ∈ fst (bing_pages e name pages subs) -> keptInScope e n).
Proof.
  revert subs. induction pages as [|i pages IH]; intros subs; [done |].
  cbn [bing_pages fetchedPages]. unfold pageEnds, effects.bind, effects.emit.
  destruct (requestWebPage _ _) as [body | err]; [| done].
  destruct (String.eqb body ""); [done |].
  destruct (IH (fold_left (keepInScope e)
                  (scrapeSubdomainNames (et.Support (et.Session_ e)) body) subs))
    as [Hcalls Hkept].
  destruct (bing_pages e name pages _) as [subs' t]. simpl in *.
  split; [by rewrite Hcalls |].
  intros Hsubs. apply Hkept. by apply keepInScope_kept.
Qed.

Lemma fetchedPages_prefix (e : et.Event) (url : Z -> string) (pages : list Z) :
  fetchedPages e url pages `prefix_of` pages /\
  (pages <> [] -> fetchedPages e url pages <> []) /\
  (forall i, i ∈ removelast (fetchedPages e url pages) -> pageEnds e (url i) = false) /\
  (fetchedPages e url pages <> pages ->
   exists i, last (fetchedPages e url pages) = Some i /\ pageEnds e (url i) = true).
Proof.
  induction pages as [|i pages (Hpre & Hne & Hmid & Hlast)]; simpl.
  { split_and!; [done | done | intros i Hi; by apply elem_of_nil in Hi | done]. }
  destruct (pageEnds e (url i)) eqn:Hend.
  - split_and!; [apply prefix_cons, prefix_nil | done | | by exists i].
    intros j Hj. by apply elem_of_nil in Hj.
  - split_and!; [by apply prefix_cons | done | |].
    + intros j Hj. destruct (fetchedPages e url pages) as [|k l] eqn:E.
      * by apply elem_of_nil in Hj.
      * apply elem_of_cons in Hj as [-> | Hj]; [done | by apply Hmid].
    + intros Hneq. destruct Hlast as (k & Hk & Hkend); [congruence |].
      exists k. split; [| done].
      destruct (fetchedPages e url pages); [done | by rewrite last_cons, Hk].
Qed.

(** [query] of [bing] fetches the pages 1, 2, ... in order, each request
  right after a call of the rate limiter, and stops after the first page
  that fails or is empty, and after page 9 at the latest: between one and
  nine requests.  Whatever the pages gave, it ends with exactly one call
  that stores the names kept, and returns what that call returns. *)
Theorem bing_query_paging (e : et.Event) (name : string) (src : dbt.Asset) :
  let url := fun i => bing_url i name in
  let fetched := fetchedPages e url [1; 2; 3; 4; 5; 6; 7; 8; 9] in
  exists names,
    snd (bing_query e name src)
    = ((fetched ≫= pageCalls url)
       ++ [StoreFQDNsWithSource names src "Bing" "Bing-Handler"])%list /\
    fst (bing_query e name src)
    = storeFQDNsWithSource (et.Support (et.Session_ e)) names src "Bing" "Bing-Handler" /\
    fetched `prefix_of` [1; 2; 3; 4; 5; 6; 7; 8; 9] /\
    (1 <= length fetched <= 9)%nat /\
    (forall i, i ∈ removelast fetched -> pageEnds e (url i) = false) /\
    (length fetched < 9 ->
     exists i, last fetched = Some i /\ pageEnds e (url i) = true)%nat.
Proof.
  intros url fetched.
  destruct (bing_pages_run e name [1; 2; 3; 4; 5; 6; 7; 8; 9] stringset.New)
    as [Hcalls _].
  destruct (fetchedPages_prefix e url [1; 2; 3; 4; 5; 6; 7; 8; 9])
    as (Hpre & Hne & Hmid & Hlast).
  fold fetched in Hpre, Hne, Hmid, Hlast.
  change (fetchedPages e (fun i => bing_url i name) [1; 2; 3; 4; 5; 6; 7; 8; 9])
    with fetched in Hcalls.
  change (fun i => bing_url i name) with url in Hcalls.
  clearbody fetched.
  unfold bing_query, bing_store, effects.bind, effects.emit, effects.ret.
  destruct (bing_pages e name _ _) as [subs t]. simpl in Hcalls. subst t.
  exists (stringset.Slice subs). simpl.
  assert (Hlen : (length fetched <= 9)%nat).
  { apply prefix_length in Hpre. simpl in Hpre. lia. }
  split_and!; try done.
  - destruct fetched; [by destruct Hne | simpl; lia].
  - intros Hshort. apply Hlast. intros Heq. rewrite Heq in Hshort. simpl in Hshort. lia.
Qed.

(** *** [query] of [rapidDNS] *)

(** [query] of [rapidDNS] makes one request, after one call of the rate
  limiter.  When the request fails or the page is empty it returns no asset
  and stores nothing; otherwise it stores the names kept, once, and returns
  what that call returns. *)
Theorem rapidDNS_query_single_request (e : et.Event) (name : string) (src : dbt.Asset) :
  let page := [Take; RequestWebPage (rapidDNS_url name)] in
  (pageEnds e (rapidDNS_url name) = true ->
   rapidDNS_query e name src = ([], page)) /\
  (pageEnds e (rapidDNS_url name) = false ->
   exists names,
     rapidDNS_query e name src
     = (storeFQDNsWithSource (et.Support (et.Session_ e)) names src
          "RapidDNS" "RapidDNS-Handler",
        (page ++ [StoreFQDNsWithSource names src "RapidDNS" "RapidDNS-Handler"])%list)).
Proof.
  unfold rapidDNS_query, rapidDNS_store, pageEnds, effects.bind, effects.emit,
    effects.ret.
  destruct (requestWebPage _ _) as [body | err]; simpl.
  - destruct (String.eqb body ""); simpl; split; try done.
    intros _. by eexists.
  - split; done.
Qed.

Lemma storedNames_app (t1 t2 : list Action) :
  storedNames (t1 ++ t2) = (storedNames t1 ++ storedNames t2)%list.
Proof. unfold storedNames. apply bind_app. Qed.

Lemma storedNames_pageCalls (url : Z -> string) (pages : list Z) :
  storedNames (pages ≫= pageCalls url) = [].
Proof. induction pages as [|i pages IH]; [done |]. csimpl. exact IH. Qed.

(** Both queries store only names that are in scope: every name handed to
  [StoreFQDNsWithSource] is the lower-cased form of a scraped name, trimmed
  and lower-cased, for which [IsAssetInScope] reports an accuracy above
  zero. *)
Theorem queries_store_in_scope_names (e : et.Event) (name : string) (src : dbt.Asset)
  (n : string) :
  n ∈ storedNames (snd (bing_query e name src)) \/
  n ∈ storedNames (snd (rapidDNS_query e name src)) ->
  exists raw,
    n = ToLower (ToLower (TrimSpace raw)) /\
    0 < snd (scope.IsAssetInScope (et.Scope (et.Session_ e))
               (oam.FQDN {| domain.Name := ToLower (TrimSpace raw) |}) 0).
Proof.
  intros [Hin | Hin].
  - destruct (bing_pages_run e name [1; 2; 3; 4; 5; 6; 7; 8; 9] stringset.New)
      as [Hcalls Hkept].
    remember (fetchedPages e (fun i => bing_url i name) [1; 2; 3; 4; 5; 6; 7; 8; 9])
      as fetched eqn:Hfetched.
    clear Hfetched. revert Hin.
    unfold bing_query, bing_store, effects.bind, effects.emit, effects.ret.
    destruct (bing_pages e name _ _) as [subs t].
    cbn [fst snd] in Hcalls, Hkept. subst t. cbn [fst snd].
    rewrite storedNames_app, storedNames_pageCalls, app_nil_l.
    unfold storedNames. csimpl. rewrite !app_nil_r. unfold stringset.Slice.
    intros Hin. apply elem_of_elements in Hin. apply Hkept; [| done].
    intros k Hk. unfold stringset.New in Hk. set_solver.
  - revert Hin. unfold rapidDNS_query, rapidDNS_store, effects.bind, effects.emit,
      effects.ret.
    destruct (requestWebPage _ _) as [body | err]; simpl.
    + destruct (String.eqb body ""); simpl.
      * intros Hin. by apply elem_of_nil in Hin.
      * rewrite ?app_nil_r. unfold stringset.Slice. intros Hin.
        apply elem_of_elements in Hin.
        eapply keepInScope_kept; [| exact Hin].
        intros k Hk. unfold stringset.New in Hk. set_solver.
    + intros Hin. by apply elem_of_nil in Hin.
Qed.

End plugin_facts.

Lemma scraping_bing_query :
  snd (@scrape.bing_query example.runtime example_more.scrapingEvent "example.com"
         example.sourceAsset)
  = [support.Take; support.RequestWebPage (scrape.bing_url 1 "example.com");
     support.Take; support.RequestWebPage (scrape.bing_url 2 "example.com");
     support.StoreFQDNsWithSource ["www.example.com"] example.sourceAsset
       "Bing" "Bing-Handler"].
Proof. vm_compute; reflexivity. Qed.

(** On [example_more.scrapingSession] the first page names
  [" WWW.Example.com"] and ["other.org"] and the second page is missing:
  [bing] fetches two pages and stores [www.example.com] only, a name that is
  in scope with accuracy 90. *)
Lemma bing_query_paging_witness :
  exists names,
    snd (@scrape.bing_query example.runtime example_more.scrapingEvent "example.com"
           example.sourceAsset)
    = ([support.Take; support.RequestWebPage (scrape.bing_url 1 "example.com");
        support.Take; support.RequestWebPage (scrape.bing_url 2 "example.com")]
       ++ [support.StoreFQDNsWithSource names example.sourceAsset "Bing" "Bing-Handler"])%list.
Proof.
  destruct (@bing_query_paging example.runtime example_more.scrapingEvent "example.com"
              example.sourceAsset) as (names & Hcalls & _).
  exists names. exact Hcalls.
Defined.

Lemma rapidDNS_query_single_request_witness :
  @scrape.rapidDNS_query example.runtime (example.eventFor "example.com") "example.com"
    example.sourceAsset
  = ([], [support.Take; support.RequestWebPage (scrape.rapidDNS_url "example.com")]).
Proof.
  apply (@rapidDNS_query_single_request example.runtime). reflexivity.
Defined.

Lemma queries_store_in_scope_names_witness :
  "www.example.com"
  ∈ scrape_facts.storedNames
      (snd (@scrape.bing_query example.runtime example_more.scrapingEvent "example.com"
              example.sourceAsset)) /\
  exists raw,
    "www.example.com" = example.ToLower (example.ToLower (example.TrimSpace raw)) /\
    0 < snd (scope.IsAssetInScope example.scope
               (oam.FQDN {| domain.Name := example.ToLower (example.TrimSpace raw) |}) 0).
Proof.
  assert (Hin : "www.example.com"
                ∈ scrape_facts.storedNames
                    (snd (@scrape.bing_query example.runtime example_more.scrapingEvent
                            "example.com" example.sourceAsset))).
  { rewrite scraping_bing_query. simpl. constructor. }
  split; [exact Hin |].
  exact (@queries_store_in_scope_names example.runtime example_more.scrapingEvent
           "example.com" example.sourceAsset "www.example.com" (or_introl Hin)).
Defined.

(** *** The handlers *)

Section handler_facts.
Context `{GoRuntime}.

Import support scrape scrape_facts.

Ltac run_check :=
  repeat match goal with
         | H : _ = _ |- _ => rewrite H
         end;
  unfold bing_lookup, rapidDNS_lookup, bing_process, rapidDNS_process,
    processCalls, utils.len, effects.bind, effects.emit, effects.ret;
  repeat (cbn [fst snd negb];
          match goal with
          | |- context [bing_query ?e ?n ?s] => destruct (bing_query e n s)
          | |- context [rapidDNS_query ?e ?n ?s] => destruct (rapidDNS_query e n s)
          | |- context [if ?b then _ else _] => destruct b
          end);
  simpl; rewrite ?app_nil_r, <- ?app_assoc; try reflexivity.

Lemma exactMatch_true (s : scope.Scope) (fqdn : domain.FQDN) :
  exactMatch s fqdn = true ->
  exists f conf,
    scope.IsAssetInScope s (oam.FQDN fqdn) 0 = (Some (oam.FQDN f), conf) /\
    (conf =? 0) = false /\
    EqualFold (domain.Name fqdn) (domain.Name f) = true.
Proof.
  unfold exactMatch. destruct (scope.IsAssetInScope _ _ _) as [[a|] conf]; [| done].
  destruct a; try done. intros Hm. apply andb_true_iff in Hm as [Hconf Hfold].
  apply negb_true_iff in Hconf. by exists v, conf.
Qed.

Lemma bing_check_no_source (e : et.Event) (fqdn : domain.FQDN) :
  dbt.Asset_ (et.Asset e) = oam.FQDN fqdn ->
  exactMatch (et.Scope (et.Session_ e)) fqdn = true ->
  getSource (et.Support (et.Session_ e)) bing_source = None ->
  bing_check e
  = (Some "failed to obtain the plugin source information", [GetSource bing_source]).
Proof.
  intros Hkind (f & conf & Hscope & Hconf & Hfold)%exactMatch_true Hsrc.
  unfold bing_check. run_check.
Qed.

Lemma rapidDNS_check_no_source (e : et.Event) (fqdn : domain.FQDN) :
  dbt.Asset_ (et.Asset e) = oam.FQDN fqdn ->
  exactMatch (et.Scope (et.Session_ e)) fqdn = true ->
  getSource (et.Support (et.Session_ e)) rapidDNS_source = None ->
  rapidDNS_check e
  = (Some "failed to obtain the plugin source information",
     [GetSource rapidDNS_source]).
Proof.
  intros Hkind (f & conf & Hscope & Hconf & Hfold)%exactMatch_true Hsrc.
  unfold rapidDNS_check. run_check.
Qed.

Lemma bing_check_no_ttl (e : et.Event) (fqdn : domain.FQDN) (src : dbt.Asset)
  (err : string) :
  dbt.Asset_ (et.Asset e) = oam.FQDN fqdn ->
  exactMatch (et.Scope (et.Session_ e)) fqdn = true ->
  getSource (et.Support (et.Session_ e)) bing_source = Some src ->
  ttlStartTime (et.Support (et.Session_ e)) "FQDN" "FQDN" bing_name = inr err ->
  bing_check e = (Some err, [GetSource bing_source]).
Proof.
  intros Hkind (f & conf & Hscope & Hconf & Hfold)%exactMatch_true Hsrc Httl.
  unfold bing_check. run_check.
Qed.

Lemma rapidDNS_check_no_ttl (e : et.Event) (fqdn : domain.FQDN) (src : dbt.Asset)
  (err : string) :
  dbt.Asset_ (et.Asset e) = oam.FQDN fqdn ->
  exactMatch (et.Scope (et.Session_ e)) fqdn = true ->
  getSource (et.Support (et.Session_ e)) rapidDNS_source = Some src ->
  ttlStartTime (et.Support (et.Session_ e)) "FQDN" "FQDN" rapidDNS_name = inr err ->
  rapidDNS_check e = (Some err, [GetSource rapidDNS_source]).
Proof.
  intros Hkind (f & conf & Hscope & Hconf & Hfold)%exactMatch_true Hsrc Httl.
  unfold rapidDNS_check. run_check.
Qed.

Lemma bing_check_started (e : et.Event) (fqdn : domain.FQDN) (src : dbt.Asset)
  (since : time.Time) :
  dbt.Asset_ (et.Asset e) = oam.FQDN fqdn ->
  exactMatch (et.Scope (et.Session_ e)) fqdn = true ->
  getSource (et.Support (et.Session_ e)) bing_source = Some src ->
  ttlStartTime (et.Support (et.Session_ e)) "FQDN" "FQDN" bing_name = inl since ->
  bing_check e
  = (None,
     GetSource bing_source ::
     if assetMonitoredWithinTTL (et.Support (et.Session_ e)) (et.Asset e) src since
     then
       SourceToAssetsWithinTTL (domain.Name fqdn) "FQDN" src since ::
       processCalls
         (sourceToAssetsWithinTTL (et.Support (et.Session_ e))
            (domain.Name fqdn) "FQDN" src since) src
     else
       (snd (bing_query e (domain.Name fqdn) src)
        ++ MarkAssetMonitored (et.Asset e) src ::
           processCalls (fst (bing_query e (domain.Name fqdn) src)) src)%list).
Proof.
  intros Hkind (f & conf & Hscope & Hconf & Hfold)%exactMatch_true Hsrc Httl.
  unfold bing_check. run_check.
Qed.

Lemma rapidDNS_check_started (e : et.Event) (fqdn : domain.FQDN) (src : dbt.Asset)
  (since : time.Time) :
  dbt.Asset_ (et.Asset e) = oam.FQDN fqdn ->
  exactMatch (et.Scope (et.Session_ e)) fqdn = true ->
  getSource (et.Support (et.Session_ e)) rapidDNS_source = Some src ->
  ttlStartTime (et.Support (et.Session_ e)) "FQDN" "FQDN" rapidDNS_name = inl since ->
  rapidDNS_check e
  = (None,
     GetSource rapidDNS_source ::
     if assetMonitoredWithinTTL (et.Support (et.Session_ e)) (et.Asset e) src since
     then
       SourceToAssetsWithinTTL (domain.Name fqdn) "FQDN" src since ::
       processCalls
         (sourceToAssetsWithinTTL (et.Support (et.Session_ e))
            (domain.Name fqdn) "FQDN" src since) src
     else
       (snd (rapidDNS_query e (domain.Name fqdn) src)
        ++ MarkAssetMonitored (et.Asset e) src ::
           processCalls (fst (rapidDNS_query e (domain.Name fqdn) src)) src)%list).
Proof.
  intros Hkind (f & conf & Hscope & Hconf & Hfold)%exactMatch_true Hsrc Httl.
  unfold rapidDNS_check. run_check.
Qed.

Lemma bing_check_not_fqdn (e : et.Event) :
  (forall fqdn, dbt.Asset_ (et.Asset e) <> oam.FQDN fqdn) ->
  bing_check e = (Some "failed to extract the FQDN asset", []).
Proof.
  intros Hkind. unfold bing_check.
  destruct (dbt.Asset_ (et.Asset e)) eqn:E; try done. by destruct (Hkind v).
Qed.

Lemma rapidDNS_check_not_fqdn (e : et.Event) :
  (forall fqdn, dbt.Asset_ (et.Asset e) <> oam.FQDN fqdn) ->
  rapidDNS_check e = (Some "failed to extract the FQDN asset", []).
Proof.
  intros Hkind. unfold rapidDNS_check.
  destruct (dbt.Asset_ (et.Asset e)) eqn:E; try done. by destruct (Hkind v).
Qed.

Lemma kind_cases (e : et.Event) :
  (exists fqdn, dbt.Asset_ (et.Asset e) = oam.FQDN fqdn) \/
  (forall fqdn, dbt.Asset_ (et.Asset e) <> oam.FQDN fqdn).
Proof. destruct (dbt.Asset_ (et.Asset e)); (by left; eexists) || by right. Qed.

Lemma bing_check_error (e : et.Event) (err : string) :
  fst (bing_check e) = Some err <-> checkFails e bing_source bing_name err.
Proof.
  unfold checkFails. destruct (kind_cases e) as [[fqdn Hkind] | Hkind].
  - destruct (exactMatch (et.Scope (et.Session_ e)) fqdn) eqn:Hm.
    + destruct (getSource (et.Support (et.Session_ e)) bing_source) as [src|] eqn:Hsrc.
      * destruct (ttlStartTime (et.Support (et.Session_ e)) "FQDN" "FQDN" bing_name)
          as [since | err'] eqn:Httl.
        -- rewrite (bing_check_started e fqdn src since) by done. simpl.
           split; [done |]. intros [[Hno _] | (f & Hf & _ & [[? _] | (s & _ & ?)])].
           ++ by destruct (Hno fqdn).
           ++ done.
           ++ simplify_eq.
        -- rewrite (bing_check_no_ttl e fqdn src err') by done. simpl. split.
           ++ intros [= ->]. right. exists fqdn. split_and!; [done.. |].
              right. by exists src.
           ++ intros [[Hno _] | (f & Hf & _ & [[? _] | (s & _ & ?)])].
              ** by destruct (Hno fqdn).
              ** done.
              ** simplify_eq. done.
      * rewrite (bing_check_no_source e fqdn) by done. simpl. split.
        -- intros [= <-]. right. exists fqdn. split_and!; [done.. |]. by left.
        -- intros [[Hno _] | (f & Hf & _ & [[_ ->] | (s & ? & _)])].
           ++ by destruct (Hno fqdn).
           ++ done.
           ++ simplify_eq.
    + rewrite (bing_check_guard e fqdn) by done. simpl. split; [done |].
      intros [[Hno _] | (f & Hf & Hm' & _)]; [by destruct (Hno fqdn) |].
      simplify_eq. congruence.
  - rewrite bing_check_not_fqdn by done. simpl. split.
    + intros [= <-]. by left.
    + intros [[_ ->] | (f & Hf & _)]; [done | by destruct (Hkind f)].
Qed.

Lemma rapidDNS_check_error (e : et.Event) (err : string) :
  fst (rapidDNS_check e) = Some err <->
  checkFails e rapidDNS_source rapidDNS_name err.
Proof.
  unfold checkFails. destruct (kind_cases e) as [[fqdn Hkind] | Hkind].
  - destruct (exactMatch (et.Scope (et.Session_ e)) fqdn) eqn:Hm.
    + destruct (getSource (et.Support (et.Session_ e)) rapidDNS_source)
        as [src|] eqn:Hsrc.
      * destruct (ttlStartTime (et.Support (et.Session_ e)) "FQDN" "FQDN" rapidDNS_name)
          as [since | err'] eqn:Httl.
        -- rewrite (rapidDNS_check_started e fqdn src since) by done. simpl.
           split; [done |]. intros [[Hno _] | (f & Hf & _ & [[? _] | (s & _ & ?)])].
           ++ by destruct (Hno fqdn).
           ++ done.
           ++ simplify_eq.
        -- rewrite (rapidDNS_check_no_ttl e fqdn src err') by done. simpl. split.
           ++ intros [= ->]. right. exists fqdn. split_and!; [done.. |].
              right. by exists src.
           ++ intros [[Hno _] | (f & Hf & _ & [[? _] | (s & _ & ?)])].
              ** by destruct (Hno fqdn).
              ** done.
              ** simplify_eq. done.
      * rewrite (rapidDNS_check_no_source e fqdn) by done. simpl. split.
        -- intros [= <-]. right. exists fqdn. split_and!; [done.. |]. by left.
        -- intros [[Hno _] | (f & Hf & _ & [[_ ->] | (s & ? & _)])].
           ++ by destruct (Hno fqdn).
           ++ done.
           ++ simplify_eq.
    + rewrite (rapidDNS_check_guard e fqdn) by done. simpl. split; [done |].
      intros [[Hno _] | (f & Hf & Hm' & _)]; [by destruct (Hno fqdn) |].
      simplify_eq. congruence.
  - rewrite rapidDNS_check_not_fqdn by done. simpl. split.
    + intros [= <-]. by left.
    + intros [[_ ->] | (f & Hf & _)]; [done | by destruct (Hkind f)].
Qed.


(** *** What a handler calls *)

Lemma filter_none {A} (f : A -> bool) (l : list A) :
  Forall (fun a => f a = false) l -> List.filter f l = [].
Proof. induction 1 as [|a l Ha _ IH]; simpl; [done | by rewrite Ha]. Qed.

Lemma pageCalls_query (url : Z -> string) (pages : list Z) :
  Forall (fun act => isQueryCall act = true) (pages ≫= pageCalls url).
Proof.
  induction pages as [|i pages IH]; csimpl; [constructor |].
  repeat (constructor; [done |]). exact IH.
Qed.

Lemma bing_query_calls (e : et.Event) (name : string) (src : dbt.Asset) :
  Forall (fun act => isQueryCall act = true) (snd (bing_query e name src)).
Proof.
  destruct (bing_pages_run e name [1; 2; 3; 4; 5; 6; 7; 8; 9] stringset.New)
    as [Hcalls _].
  remember (fetchedPages e (fun i => bing_url i name) [1; 2; 3; 4; 5; 6; 7; 8; 9])
    as fetched eqn:Hfetched.
  clear Hfetched.
  unfold bing_query, bing_store, effects.bind, effects.emit, effects.ret.
  destruct (bing_pages e name _ _) as [subs t].
  cbn [fst snd] in Hcalls. subst t. cbn [fst snd].
  apply Forall_app. split; [apply pageCalls_query |].
  simpl. by repeat constructor.
Qed.

Lemma rapidDNS_query_calls (e : et.Event) (name : string) (src : dbt.Asset) :
  Forall (fun act => isQueryCall act = true) (snd (rapidDNS_query e name src)).
Proof.
  unfold rapidDNS_query, rapidDNS_store, effects.bind, effects.emit, effects.ret.
  destruct (requestWebPage _ _) as [body | err]; simpl.
  - destruct (String.eqb body ""); simpl; by repeat constructor.
  - by repeat constructor.
Qed.

Lemma queryCall_kinds (t : list Action) :
  Forall (fun act => isQueryCall act = true) t ->
  Forall (fun act => isMark act = false) t /\
  Forall (fun act => isProcess act = false) t.
Proof.
  intros Ht. split; eapply Forall_impl; try exact Ht; by intros [].
Qed.

Lemma processCalls_kinds (names : list dbt.Asset) (src : dbt.Asset) :
  Forall (fun act => isMark act = false) (processCalls names src) /\
  Forall (fun act => isDiscoveryCall act = false) (processCalls names src) /\
  (length (List.filter isProcess (processCalls names src)) <= 1)%nat /\
  (forall l s, ProcessFQDNsWithSource l s ∈ processCalls names src ->
               l = names /\ s = src /\ names <> []).
Proof.
  unfold processCalls, utils.len. destruct names as [|a names].
  - simpl. split_and!; [constructor | constructor | lia |].
    intros l s Hin. by apply elem_of_nil in Hin.
  - replace (0 <? Z.of_nat (length (a :: names))) with true
      by (symmetry; apply Z.ltb_lt; simpl; lia).
    split_and!; [by repeat constructor | by repeat constructor | simpl; lia |].
    intros l s Hin. apply list_elem_of_singleton in Hin. by simplify_eq.
Qed.

(** The full run of a handler that starts, in both of its branches. *)
Lemma check_cases (e : et.Event) (source : source.Source) (plugin : string) :
  (forall fqdn, dbt.Asset_ (et.Asset e) <> oam.FQDN fqdn) \/
  (exists fqdn, dbt.Asset_ (et.Asset e) = oam.FQDN fqdn /\
                exactMatch (et.Scope (et.Session_ e)) fqdn = false) \/
  (exists fqdn, dbt.Asset_ (et.Asset e) = oam.FQDN fqdn /\
                exactMatch (et.Scope (et.Session_ e)) fqdn = true /\
                getSource (et.Support (et.Session_ e)) source = None) \/
  (exists fqdn src err,
     dbt.Asset_ (et.Asset e) = oam.FQDN fqdn /\
     exactMatch (et.Scope (et.Session_ e)) fqdn = true /\
     getSource (et.Support (et.Session_ e)) source = Some src /\
     ttlStartTime (et.Support (et.Session_ e)) "FQDN" "FQDN" plugin = inr err) \/
  (exists fqdn src since, started e source plugin fqdn src since).
Proof.
  destruct (kind_cases e) as [[fqdn Hkind] | Hkind]; [| by left].
  right. destruct (exactMatch (et.Scope (et.Session_ e)) fqdn) eqn:Hm;
    [| left; by exists fqdn].
  right. destruct (getSource (et.Support (et.Session_ e)) source) as [src|] eqn:Hsrc;
    [| left; by exists fqdn].
  right. destruct (ttlStartTime (et.Support (et.Session_ e)) "FQDN" "FQDN" plugin)
    as [since | err] eqn:Httl.
  - right. by exists fqdn, src, since.
  - left. by exists fqdn, src, err.
Qed.

(** [check] of either plugin ends with an error in three situations only,
  and in each of them with the error shown: the asset of the event is not an
  FQDN; the name is an exact match of the scope and the plugin's source is
  not to be had; the source is there and the start of the freshness window
  cannot be computed, whose error is passed on.  In particular a request
  that fails, an empty page, a name out of scope and an empty result are
  never reported: such a run returns nil. *)
Theorem check_error_causes (e : et.Event) (err : string) :
  (fst (bing_check e) = Some err <-> checkFails e bing_source bing_name err) /\
  (fst (rapidDNS_check e) = Some err <->
   checkFails e rapidDNS_source rapidDNS_name err).
Proof. split; [apply bing_check_error | apply rapidDNS_check_error]. Qed.

(** A handler that ends with an error has reached neither the web nor the
  store: its calls contain no call of the rate limiter, no request, no
  store and no mark. *)
Theorem failed_check_discovers_nothing (e : et.Event) (err : string) :
  (fst (bing_check e) = Some err ->
   Forall (fun act => isDiscoveryCall act = false) (snd (bing_check e))) /\
  (fst (rapidDNS_check e) = Some err ->
   Forall (fun act => isDiscoveryCall act = false) (snd (rapidDNS_check e))).
Proof.
  split.
  - destruct (check_cases e bing_source bing_name)
      as [Hno | [(f & Hk & Hm) | [(f & Hk & Hm & Hs) | [(f & s & x & Hk & Hm & Hs & Ht)
         | (f & s & t & Hk & Hm & Hs & Ht)]]]].
    + rewrite bing_check_not_fqdn by done. constructor.
    + rewrite (bing_check_guard e f) by done. constructor.
    + rewrite (bing_check_no_source e f) by done. by repeat constructor.
    + rewrite (bing_check_no_ttl e f s x) by done. by repeat constructor.
    + rewrite (bing_check_started e f s t) by done. done.
  - destruct (check_cases e rapidDNS_source rapidDNS_name)
      as [Hno | [(f & Hk & Hm) | [(f & Hk & Hm & Hs) | [(f & s & x & Hk & Hm & Hs & Ht)
         | (f & s & t & Hk & Hm & Hs & Ht)]]]].
    + rewrite rapidDNS_check_not_fqdn by done. constructor.
    + rewrite (rapidDNS_check_guard e f) by done. constructor.
    + rewrite (rapidDNS_check_no_source e f) by done. by repeat constructor.
    + rewrite (rapidDNS_check_no_ttl e f s x) by done. by repeat constructor.
    + rewrite (rapidDNS_check_started e f s t) by done. done.
Qed.

(** When the asset has been monitored within the freshness window, a
  handler that starts reads the names from the store and nothing else: after
  asking for the source it calls [lookup] once, hands the names on to
  [process] when there are any, and makes no call of the rate limiter, no
  request, no store and no mark. *)
Theorem monitored_asset_is_not_queried (e : et.Event) (fqdn : domain.FQDN)
  (src : dbt.Asset) (since : time.Time) :
  assetMonitoredWithinTTL (et.Support (et.Session_ e)) (et.Asset e) src since = true ->
  let found :=
    sourceToAssetsWithinTTL (et.Support (et.Session_ e)) (domain.Name fqdn) "FQDN"
      src since in
  (started e bing_source bing_name fqdn src since ->
   bing_check e
   = (None, GetSource bing_source ::
            SourceToAssetsWithinTTL (domain.Name fqdn) "FQDN" src since ::
            processCalls found src) /\
   Forall (fun act => isDiscoveryCall act = false) (snd (bing_check e))) /\
  (started e rapidDNS_source rapidDNS_name fqdn src since ->
   rapidDNS_check e
   = (None, GetSource rapidDNS_source ::
            SourceToAssetsWithinTTL (domain.Name fqdn) "FQDN" src since ::
            processCalls found src) /\
   Forall (fun act => isDiscoveryCall act = false) (snd (rapidDNS_check e))).
Proof.
  intros Hmon found. split; intros (Hk & Hm & Hs & Ht).
  - rewrite (bing_check_started e fqdn src since) by done. rewrite Hmon.
    split; [done |]. simpl. repeat (constructor; [done |]).
    apply processCalls_kinds.
  - rewrite (rapidDNS_check_started e fqdn src since) by done. rewrite Hmon.
    split; [done |]. simpl. repeat (constructor; [done |]).
    apply processCalls_kinds.
Qed.

(** When the asset has not been monitored within the freshness window, a
  handler that starts runs its query and then marks the asset as monitored:
  exactly once, after the last call of the query and before the names are
  processed, whatever the query found, also when every request failed and
  the query returned nothing.  It returns nil. *)
Theorem unmonitored_asset_is_marked_once (e : et.Event) (fqdn : domain.FQDN)
  (src : dbt.Asset) (since : time.Time) :
  assetMonitoredWithinTTL (et.Support (et.Session_ e)) (et.Asset e) src since = false ->
  (started e bing_source bing_name fqdn src since ->
   bing_check e
   = (None, GetSource bing_source ::
            (snd (bing_query e (domain.Name fqdn) src)
             ++ MarkAssetMonitored (et.Asset e) src ::
                processCalls (fst (bing_query e (domain.Name fqdn) src)) src)%list) /\
   List.filter isMark (snd (bing_check e)) = [MarkAssetMonitored (et.Asset e) src]) /\
  (started e rapidDNS_source rapidDNS_name fqdn src since ->
   rapidDNS_check e
   = (None, GetSource rapidDNS_source ::
            (snd (rapidDNS_query e (domain.Name fqdn) src)
             ++ MarkAssetMonitored (et.Asset e) src ::
                processCalls (fst (rapidDNS_query e (domain.Name fqdn) src)) src)%list) /\
   List.filter isMark (snd (rapidDNS_check e)) = [MarkAssetMonitored (et.Asset e) src]).
Proof.
  intros Hmon. split; intros (Hk & Hm & Hs & Ht).
  - rewrite (bing_check_started e fqdn src since) by done. rewrite Hmon.
    split; [done |]. cbn [snd List.filter isMark].
    rewrite List.filter_app. cbn [List.filter isMark].
    rewrite (filter_none isMark (snd (bing_query _ _ _)))
      by apply queryCall_kinds, bing_query_calls.
    rewrite (filter_none isMark (processCalls _ _)) by apply processCalls_kinds.
    done.
  - rewrite (rapidDNS_check_started e fqdn src since) by done. rewrite Hmon.
    split; [done |]. cbn [snd List.filter isMark].
    rewrite List.filter_app. cbn [List.filter isMark].
    rewrite (filter_none isMark (snd (rapidDNS_query _ _ _)))
      by apply queryCall_kinds, rapidDNS_query_calls.
    rewrite (filter_none isMark (processCalls _ _)) by apply processCalls_kinds.
    done.
Qed.

Lemma started_process (found : list dbt.Asset) (src : dbt.Asset) (t : list Action)
  (l : list dbt.Asset) (s : dbt.Asset) :
  Forall (fun act => isProcess act = false) t ->
  ProcessFQDNsWithSource l s ∈ (t ++ processCalls found src)%list ->
  l = found /\ s = src /\ found <> [].
Proof.
  intros Ht Hin. apply elem_of_app in Hin as [Hin | Hin].
  - rewrite Forall_forall in Ht. by specialize (Ht _ Hin).
  - by apply processCalls_kinds.
Qed.

Lemma started_process_count (found : list dbt.Asset) (src : dbt.Asset)
  (t : list Action) :
  Forall (fun act => isProcess act = false) t ->
  (length (List.filter isProcess (t ++ processCalls found src)) <= 1)%nat.
Proof.
  intros Ht. rewrite List.filter_app, (filter_none isProcess t) by done.
  apply processCalls_kinds.
Qed.

(** The names are processed at most once in a run of a handler, and never
  as an empty list: a call of [ProcessFQDNsWithSource] carries a non-empty
  list of assets. *)
Theorem check_never_processes_nothing (e : et.Event) :
  ((length (List.filter isProcess (snd (bing_check e))) <= 1)%nat /\
   forall names src,
     ProcessFQDNsWithSource names src ∈ snd (bing_check e) -> names <> []) /\
  ((length (List.filter isProcess (snd (rapidDNS_check e))) <= 1)%nat /\
   forall names src,
     ProcessFQDNsWithSource names src ∈ snd (rapidDNS_check e) -> names <> []).
Proof.
  split.
  - destruct (check_cases e bing_source bing_name)
      as [Hno | [(f & Hk & Hm) | [(f & Hk & Hm & Hs) | [(f & s & x & Hk & Hm & Hs & Ht)
         | (f & s & t & Hk & Hm & Hs & Ht)]]]].
    + rewrite bing_check_not_fqdn by done. simpl. split; [lia |].
      intros l s' Hin. by apply elem_of_nil in Hin.
    + rewrite (bing_check_guard e f) by done. simpl. split; [lia |].
      intros l s' Hin. by apply elem_of_nil in Hin.
    + rewrite (bing_check_no_source e f) by done. simpl. split; [lia |].
      intros l s' Hin. by apply list_elem_of_singleton in Hin.
    + rewrite (bing_check_no_ttl e f s x) by done. simpl. split; [lia |].
      intros l s' Hin. by apply list_elem_of_singleton in Hin.
    + rewrite (bing_check_started e f s t) by done. cbn [snd].
      destruct (assetMonitoredWithinTTL _ _ _ _).
      * assert (HF : Forall (fun act => isProcess act = false)
                       [GetSource bing_source;
                        SourceToAssetsWithinTTL (domain.Name f) "FQDN" s t])
          by (by repeat constructor).
        split; [exact (started_process_count _ _ _ HF) |].
        intros l s' Hin.
        change (ProcessFQDNsWithSource l s'
                ∈ ([GetSource bing_source;
                    SourceToAssetsWithinTTL (domain.Name f) "FQDN" s t]
                   ++ processCalls
                        (sourceToAssetsWithinTTL (et.Support (et.Session_ e))
                           (domain.Name f) "FQDN" s t) s)%list) in Hin.
        by destruct (started_process _ _ _ _ _ HF Hin) as (-> & _ & Hne).
      * rewrite app_comm_cons.
        rewrite (cons_middle (MarkAssetMonitored _ _)), app_assoc.
        assert (Hq : Forall (fun act => isProcess act = false)
                       ((GetSource bing_source :: snd (bing_query e (domain.Name f) s))
                        ++ [MarkAssetMonitored (et.Asset e) s])%list).
        { apply Forall_app. split; [| by repeat constructor].
          constructor; [done |]. apply queryCall_kinds, bing_query_calls. }
        split; [by apply started_process_count |].
        intros l s' Hin. by apply started_process in Hin as (-> & _ & Hne).
  - destruct (check_cases e rapidDNS_source rapidDNS_name)
      as [Hno | [(f & Hk & Hm) | [(f & Hk & Hm & Hs) | [(f & s & x & Hk & Hm & Hs & Ht)
         | (f & s & t & Hk & Hm & Hs & Ht)]]]].
    + rewrite rapidDNS_check_not_fqdn by done. simpl. split; [lia |].
      intros l s' Hin. by apply elem_of_nil in Hin.
    + rewrite (rapidDNS_check_guard e f) by done. simpl. split; [lia |].
      intros l s' Hin. by apply elem_of_nil in Hin.
    + rewrite (rapidDNS_check_no_source e f) by done. simpl. split; [lia |].
      intros l s' Hin. by apply list_elem_of_singleton in Hin.
    + rewrite (rapidDNS_check_no_ttl e f s x) by done. simpl. split; [lia |].
      intros l s' Hin. by apply list_elem_of_singleton in Hin.
    + rewrite (rapidDNS_check_started e f s t) by done. cbn [snd].
      destruct (assetMonitoredWithinTTL _ _ _ _).
      * assert (HF : Forall (fun act => isProcess act = false)
                       [GetSource rapidDNS_source;
                        SourceToAssetsWithinTTL (domain.Name f) "FQDN" s t])
          by (by repeat constructor).
        split; [exact (started_process_count _ _ _ HF) |].
        intros l s' Hin.
        change (ProcessFQDNsWithSource l s'
                ∈ ([GetSource rapidDNS_source;
                    SourceToAssetsWithinTTL (domain.Name f) "FQDN" s t]
                   ++ processCalls
                        (sourceToAssetsWithinTTL (et.Support (et.Session_ e))
                           (domain.Name f) "FQDN" s t) s)%list) in Hin.
        by destruct (started_process _ _ _ _ _ HF Hin) as (-> & _ & Hne).
      * rewrite app_comm_cons.
        rewrite (cons_middle (MarkAssetMonitored _ _)), app_assoc.
        assert (Hq : Forall (fun act => isProcess act = false)
                       ((GetSource rapidDNS_source
                         :: snd (rapidDNS_query e (domain.Name f) s))
                        ++ [MarkAssetMonitored (et.Asset e) s])%list).
        { apply Forall_app. split; [| by repeat constructor].
          constructor; [done |]. apply queryCall_kinds, rapidDNS_query_calls. }
        split; [by apply started_process_count |].
        intros l s' Hin. by apply started_process in Hin as (-> & _ & Hne).
Qed.

End handler_facts.

(** An event that carries an address fails in both handlers, with no call
  made. *)
Lemma failed_check_discovers_nothing_witness :
  fst (@scrape.bing_check example.runtime example_more.addressEvent)
  = Some "failed to extract the FQDN asset" /\
  Forall (fun act => scrape_facts.isDiscoveryCall act = false)
    (snd (@scrape.bing_check example.runtime example_more.addressEvent)).
Proof.
  split; [reflexivity |].
  apply (proj1 (@failed_check_discovers_nothing example.runtime
                  example_more.addressEvent "failed to extract the FQDN asset")).
  reflexivity.
Defined.

(** On [example_more.monitoredSession] the handler of [bing] reads the one
  name the store has and processes it. *)
Lemma monitored_asset_is_not_queried_witness :
  @scrape.bing_check example.runtime example_more.monitoredEvent
  = (None,
     [support.GetSource scrape.bing_source;
      support.SourceToAssetsWithinTTL "example.com" "FQDN" example.sourceAsset
        example.zeroTime;
      support.ProcessFQDNsWithSource [example.fqdnAsset "40" "www.example.com"]
        example.sourceAsset]).
Proof.
  refine (proj1 (proj1 (@monitored_asset_is_not_queried example.runtime
                          example_more.monitoredEvent
                          {| domain.Name := "example.com" |} example.sourceAsset
                          example.zeroTime _) _)).
  - reflexivity.
  - repeat split; vm_compute; reflexivity.
Defined.

(** On [example_more.scrapingSession] the handler of [rapidDNS] fetches the
  page, stores the name in scope, marks the asset and processes what the
  store returned. *)
Lemma unmonitored_asset_is_marked_once_witness :
  List.filter scrape_facts.isMark
    (snd (@scrape.rapidDNS_check example.runtime example_more.scrapingEvent))
  = [support.MarkAssetMonitored (example.fqdnAsset "2" "example.com")
       example.sourceAsset].
Proof.
  refine (proj2 (proj2 (@unmonitored_asset_is_marked_once example.runtime
                          example_more.scrapingEvent
                          {| domain.Name := "example.com" |} example.sourceAsset
                          example.zeroTime _) _)).
  - reflexivity.
  - repeat split; vm_compute; reflexivity.
Defined.

(** ** [NamesToAddrs]: the result, told from the answers of the store *)

Section gathering_facts.
Context `{GoRuntime}.

Import assetdb utils resolver_facts.

(** *** What each loop adds to the address map *)

Lemma holds_empty (n t : string) : ~ holds ∅ n t.
Proof. intros (set & Hlook & _). by rewrite lookup_empty in Hlook. Qed.

Lemma holds_ensure (m : gmap string (gset string)) (name n t : string) :
  holds (ensureEntry m name) n t <-> holds m n t.
Proof.
  unfold holds. split.
  - intros (set & Hlook & Hin). rewrite ensureEntry_lookup in Hlook.
    case_decide; subst; [| by exists set].
    injection Hlook as <-.
    destruct (m !! n) as [set|] eqn:E; simpl in Hin; [by exists set |].
    unfold stringset.New in Hin. set_solver.
  - intros (set & Hlook & Hin). exists set. rewrite ensureEntry_lookup.
    case_decide; subst; [by rewrite Hlook | done].
Qed.

Lemma holds_record (m : gmap string (gset string)) (name addr n t : string) :
  holds (insertAddr (ensureEntry m name) name addr) n t <->
  holds m n t \/ (n = name /\ t = ToLower addr).
Proof.
  unfold holds. split.
  - intros (set & Hlook & Hin). rewrite recorded_lookup in Hlook.
    case_decide; subst; [| left; by exists set].
    injection Hlook as <-. apply elem_of_union in Hin as [Hin | Hin].
    + right. split; [done | by apply elem_of_singleton in Hin].
    + left. destruct (m !! n) as [set|] eqn:E; simpl in Hin; [by exists set |].
      unfold stringset.New in Hin. set_solver.
  - intros [(set & Hlook & Hin) | [-> ->]].
    + destruct (decide (name = n)) as [-> | Hne].
      * eexists. rewrite recorded_lookup, decide_True by done.
        split; [done |]. rewrite Hlook. simpl. set_solver.
      * exists set. by rewrite recorded_lookup, decide_False by done.
    + eexists. rewrite recorded_lookup, decide_True by done.
      split; [done | set_solver].
Qed.

Lemma holds_indirect (rows : list Row) (R : gset string)
  (m : gmap string (gset string)) (n t : string) :
  holds (snd (fold_left indirectStep rows (R, m))) n t <->
  holds m n t \/
  (ToLower n ∈ R /\
   exists before r after,
     rows = (before ++ r :: after)%list /\
     assetdb.Name r = n /\
     (forall r', r' ∈ before -> ToLower (assetdb.Name r') <> ToLower n) /\
     t = ToLower (assetdb.Addr r)).
Proof.
  revert R m. induction rows as [|row rows IH]; intros R m.
  { simpl. split; [by left |].
    intros [? | (_ & before & r & after & Hnil & _)]; [done | by destruct before]. }
  cbn [fold_left]. unfold indirectStep at 2.
  unfold stringset.Has, stringset.Remove.
  case_bool_decide as Hhas; cbn [negb].
  - rewrite IH, holds_record. split.
    + intros [[Hm | [-> ->]] | (Hin & before & r & after & -> & Hr & Hbefore & ->)].
      * by left.
      * right. split; [done |]. exists [], row, rows. split_and!; try done.
        intros r' Hr'. by apply elem_of_nil in Hr'.
      * right. split; [set_solver |].
        exists (row :: before), r, after. split_and!; try done.
        intros r' [-> | Hr']%elem_of_cons; [set_solver | by apply Hbefore].
    + intros [Hm | (Hin & before & r & after & Hrows & Hr & Hbefore & ->)].
      * by left; left.
      * destruct before as [|b before]; simpl in Hrows; injection Hrows as -> ->.
        -- left. right. by rewrite Hr.
        -- right. split.
           ++ assert (ToLower (assetdb.Name b) <> ToLower n)
                by (apply Hbefore; left).
              set_solver.
           ++ exists before, r, after. split_and!; try done.
              intros r' Hr'. apply Hbefore. by right.
  - rewrite IH. split.
    + intros [Hm | (Hin & before & r & after & -> & Hr & Hbefore & ->)]; [by left |].
      right. split; [done |].
      exists (row :: before), r, after. split_and!; try done.
      intros r' [-> | Hr']%elem_of_cons; [| by apply Hbefore].
      intros Heq. by rewrite Heq in Hhas.
    + intros [Hm | (Hin & before & r & after & Hrows & Hr & Hbefore & ->)]; [by left |].
      destruct before as [|b before]; simpl in Hrows; injection Hrows as -> ->.
      * by rewrite Hr in Hhas.
      * right. split; [done |].
        exists before, r, after. split_and!; try done.
        intros r' Hr'. apply Hbefore. by right.
Qed.

Lemma holds_directStep (R : gset string) (m : gmap string (gset string))
  (rel : dbt.Relation) (n t : string) :
  holds (snd (directStep (R, m) rel)) n t <-> holds m n t \/ directFinding [rel] n t.
Proof.
  assert (Hone : directFinding [rel] n t <->
                 exists f a,
                   dbt.Asset_ (dbt.FromAsset rel) = oam.FQDN f /\ domain.Name f = n /\
                   dbt.Asset_ (dbt.ToAsset rel) = oam.IPAddress a /\
                   t = ToLower (AddrString (network.Address a))).
  { unfold directFinding. split.
    - intros (rel' & f & a & Hin & Hrest). apply list_elem_of_singleton in Hin as ->.
      by exists f, a.
    - intros (f & a & Hrest). exists rel, f, a. split; [by left | done]. }
  rewrite Hone. unfold directStep.
  destruct (dbt.Asset_ (dbt.FromAsset rel)) as [f| | | | | | | | | | | | |] eqn:Hfrom;
    cbn [snd];
    try (split; [by left | intros [? | (f' & a' & ? & _)]; [done | discriminate]]).
  destruct (dbt.Asset_ (dbt.ToAsset rel)) as [|  | a | | | | | | | | | | |] eqn:Hto;
    cbn [snd];
    try (rewrite holds_ensure; split;
         [by left | intros [? | (f' & a' & _ & _ & ? & _)]; [done | discriminate]]).
  rewrite holds_record. split.
  - intros [? | [-> ->]]; [by left |]. right. by exists f, a.
  - intros [? | (f' & a' & [= <-] & <- & [= <-] & ->)]; [by left | by right].
Qed.

Lemma directFinding_cons (rel : dbt.Relation) (rels : list dbt.Relation) (n t : string) :
  directFinding (rel :: rels) n t <-> directFinding [rel] n t \/ directFinding rels n t.
Proof.
  unfold directFinding. split.
  - intros (rel' & f & a & [-> | Hin]%elem_of_cons & Hrest).
    + left. exists rel, f, a. split; [by left | done].
    + right. by exists rel', f, a.
  - intros [(rel' & f & a & Hin & Hrest) | (rel' & f & a & Hin & Hrest)].
    + apply list_elem_of_singleton in Hin as ->. exists rel, f, a.
      split; [by left | done].
    + exists rel', f, a. split; [by right | done].
Qed.

Lemma holds_direct (rels : list dbt.Relation) (st : State) (n t : string) :
  holds (snd (fold_left directStep rels st)) n t <->
  holds (snd st) n t \/ directFinding rels n t.
Proof.
  revert st. induction rels as [|rel rels IH]; intros st.
  { simpl. split; [by left |].
    intros [? | (rel & f & a & Hin & _)]; [done | by apply elem_of_nil in Hin]. }
  cbn [fold_left]. rewrite IH, directFinding_cons. destruct st as [R m].
  rewrite holds_directStep. cbn [snd]. tauto.
Qed.

Lemma holds_chainStep (db : AssetDB) (since : time.Time) (st : State)
  (name n t : string) :
  holds (snd (fst (chainStep db since st name))) n t <->
  holds (snd st) n t \/
  (n = name /\
   exists r, r ∈ rowsOf (RawQuery db (cnameQuery name since)) /\
             t = ToLower (assetdb.Addr r)).
Proof.
  destruct st as [R m].
  destruct (chainStep_outcome db since R m name) as [Hrows Hnone].
  destruct (RawQuery db (cnameQuery name since)) as [rows | err] eqn:Hq;
    [destruct (decide (rows = [])) as [-> | Hne] |].
  - rewrite Hnone by done. cbn [snd rowsOf]. split; [by left |].
    intros [? | (_ & r & Hr & _)]; [done | by apply elem_of_nil in Hr].
  - rewrite (Hrows rows) by done. cbn [snd rowsOf]. unfold holds. split.
    + intros (set & Hlook & Hin). rewrite lookup_insert in Hlook.
      case_decide; subst; [| left; by exists set].
      injection Hlook as <-. apply elem_of_union in Hin as [Hin | Hin].
      * right. split; [done |]. apply elem_of_list_to_set in Hin.
        apply list_elem_of_fmap in Hin as (a & -> & Ha).
        apply list_elem_of_fmap in Ha as (r' & -> & Hr'). by exists r'.
      * left. destruct (m !! n) as [set|] eqn:E; simpl in Hin; [by exists set |].
        set_solver.
    + intros [(set & Hlook & Hin) | (-> & r' & Hr' & ->)].
      * destruct (decide (name = n)) as [-> | Hne2].
        -- eexists. rewrite lookup_insert_eq. split; [done |].
           rewrite Hlook. simpl. set_solver.
        -- exists set. by rewrite lookup_insert_ne.
      * eexists. rewrite lookup_insert_eq. split; [done |].
        apply elem_of_union_l, elem_of_list_to_set, list_elem_of_fmap.
        exists (assetdb.Addr r'). split; [done |].
        apply list_elem_of_fmap. by exists r'.
  - rewrite Hnone by done. cbn [snd rowsOf]. split; [by left |].
    intros [? | (_ & r & Hr & _)]; [done | by apply elem_of_nil in Hr].
Qed.

Lemma holds_chains (db : AssetDB) (since : time.Time) (cnames : list string)
  (st : State) (n t : string) :
  holds (snd (fst (effects.forRange (chainStep db since) cnames st))) n t <->
  holds (snd st) n t \/
  (n ∈ cnames /\
   exists r, r ∈ rowsOf (RawQuery db (cnameQuery n since)) /\
             t = ToLower (assetdb.Addr r)).
Proof.
  revert st. induction cnames as [|name cnames IH]; intros st.
  { simpl. split; [by left |].
    intros [? | (Hin & _)]; [done | by apply elem_of_nil in Hin]. }
  cbn [effects.forRange]. rewrite fst_bind, IH, holds_chainStep, elem_of_cons.
  split.
  - intros [[? | (-> & ?)] | (? & ?)].
    + by left.
    + right. split; [by left | done].
    + right. split; [by right | done].
  - intros [? | ([-> | ?] & ?)].
    + by left; left.
    + left. by right.
    + by right.
Qed.

Lemma elem_of_cnamesOf (assets : list dbt.Asset) (n : string) :
  n ∈ cnamesOf assets <->
  exists asset f,
    asset ∈ assets /\ dbt.Asset_ asset = oam.FQDN f /\ domain.Name f = n.
Proof.
  unfold cnamesOf. rewrite list_elem_of_omap. split.
  - intros (asset & Hin & Hf). destruct (dbt.Asset_ asset) as [f| | | | | | | | | | | | |] eqn:E;
      try discriminate.
    injection Hf as <-. by exists asset, f.
  - intros (asset & f & Hin & Hf & <-). exists asset. by rewrite Hf.
Qed.

(** *** The stages, told from the answers of the store *)

Lemma start_asked (names : list string) : fst (start names) = asked names.
Proof.
  unfold start, asked. cbn [fst]. rewrite InsertMany_set.
  unfold stringset.New. set_solver.
Qed.

Lemma afterIndirect_left (db : AssetDB) (since : time.Time) (names : list string) :
  fst (afterIndirect db since names) = leftByIndirect db since names.
Proof. by rewrite afterIndirect_remaining, start_asked. Qed.

Lemma afterIndirect_holds (db : AssetDB) (since : time.Time) (names : list string)
  (n t : string) :
  holds (snd (afterIndirect db since names)) n t <->
  indirectFinding db since names n t.
Proof.
  rewrite afterIndirect_eq.
  change (start names) with (fst (start names), (∅ : gmap string (gset string))) at 2.
  rewrite holds_indirect, !start_asked. unfold indirectFinding, indirectRows.
  split; [| by right]. intros [Hm | ?]; [by apply holds_empty in Hm | done].
Qed.

Lemma afterDirect_left (db : AssetDB) (since : time.Time) (names : list string)
  (rels : list dbt.Relation) :
  fst (afterDirect db since names rels) = leftByDirect db since names rels.
Proof. by rewrite afterDirect_remaining, afterIndirect_left. Qed.

Lemma afterDirect_holds (db : AssetDB) (since : time.Time) (names : list string)
  (rels : list dbt.Relation) (n t : string) :
  holds (snd (afterDirect db since names rels)) n t <->
  indirectFinding db since names n t \/ directFinding rels n t.
Proof. unfold afterDirect. by rewrite holds_direct, afterIndirect_holds. Qed.

Lemma afterChains_holds (db : AssetDB) (since : time.Time) (names : list string)
  (rels : list dbt.Relation) (assets : list dbt.Asset) (n t : string) :
  holds (snd (afterChains db since names rels assets)) n t <->
  indirectFinding db since names n t \/ directFinding rels n t \/
  chainFinding db since assets n t.
Proof.
  unfold afterChains. rewrite holds_chains, afterDirect_holds, elem_of_cnamesOf.
  unfold chainFinding. split.
  - intros [[? | ?] | ((asset & f & Hin & Hf & Hname) & r & Hr & ->)];
      [by left | right; by left |].
    right. right. by exists asset, f, r.
  - intros [? | [? | (asset & f & r & Hin & Hf & Hname & Hr & ->)]];
      [left; by left | left; by right |].
    right. split; [by exists asset, f | by exists r].
Qed.

(** The address map that reaches pair assembly holds what the stages of the
  run found in the answers of the store, and nothing else. *)
Lemma gathered_final (db : AssetDB) (since : time.Time) (names : list string)
  (m : gmap string (gset string)) :
  finalAddrMap db since names = Ok m ->
  forall n t, holds m n t <-> gathered db since names n t.
Proof.
  intros Hfinal n t. unfold finalAddrMap in Hfinal. cbv zeta in Hfinal.
  rewrite afterIndirect_left in Hfinal. unfold gathered, directAnswer, aliasAnswer.
  destruct (stringset.Len (leftByIndirect db since names) =? 0) eqn:HL1.
  { apply Len_zero in HL1. injection Hfinal as <-. rewrite afterIndirect_holds.
    split; [by left | intros [? | (Hne & _)]; done]. }
  apply Len_nonzero in HL1.
  destruct (RelationQuery db _) as [rels | err] eqn:Hrel; [| done].
  rewrite afterDirect_left in Hfinal.
  destruct (stringset.Len (leftByDirect db since names rels) =? 0) eqn:HL2.
  { apply Len_zero in HL2. injection Hfinal as <-. rewrite afterDirect_holds.
    split.
    - intros [? | ?]; [by left |]. right. split; [done |]. exists rels.
      split; [done | by left].
    - intros [? | (_ & rels' & [= <-] & [? | (Hne & _)])];
        [by left | by right | done]. }
  apply Len_nonzero in HL2.
  destruct (AssetQuery db _) as [assets | err] eqn:Hass; [| done].
  injection Hfinal as <-. rewrite afterChains_holds. split.
  - intros [? | [? | ?]]; [by left | |].
    + right. split; [done |]. exists rels. split; [done | by left].
    + right. split; [done |]. exists rels. split; [done |]. right.
      split; [done |]. by exists assets.
  - intros [? | (_ & rels' & [= <-] & [? | (_ & assets' & Hass' & ?)])].
    + by left.
    + right. by left.
    + rewrite Hass in Hass'. injection Hass' as <-. right. by right.
Qed.




(** *** Lists without two related elements *)

Lemma distinctBy_omap {A B} (R : B -> B -> Prop) (f : A -> option B) (l : list A) :
  (forall z w, R z w -> R w z) ->
  NoDup l ->
  distinctBy R (omap f l) <->
  (forall x y z w,
     x ∈ l -> y ∈ l -> f x = Some z -> f y = Some w -> R z w -> x = y).
Proof.
  intros Hsym Hnd. induction Hnd as [|a l Ha Hnd IH].
  { simpl. split; [| done]. intros _ x y z w Hx. by apply elem_of_nil in Hx. }
  cbn [omap list_omap]. destruct (f a) as [b|] eqn:Hfa.
  - cbn [distinctBy]. rewrite IH. split.
    + intros [Hhead Htail] x y z w [-> | Hx]%elem_of_cons [-> | Hy]%elem_of_cons
        Hfx Hfy Hrel.
      * done.
      * rewrite Hfa in Hfx. injection Hfx as <-.
        destruct (Hhead w); [| done]. apply list_elem_of_omap. by exists y.
      * rewrite Hfa in Hfy. injection Hfy as <-.
        destruct (Hhead z); [| by apply Hsym]. apply list_elem_of_omap. by exists x.
      * by apply (Htail x y z w).
    + intros Hcond. split.
      * intros w Hw Hrel. apply list_elem_of_omap in Hw as (y & Hy & Hfy).
        assert (a = y) by (apply (Hcond a y b w); try done; [left | by right]).
        by subst.
      * intros x y z w Hx Hy. apply Hcond; by right.
  - rewrite IH. split.
    + intros Htail x y z w [-> | Hx]%elem_of_cons [-> | Hy]%elem_of_cons Hfx Hfy Hrel;
        try congruence.
      by apply (Htail x y z w).
    + intros Hcond x y z w Hx Hy. apply Hcond; by right.
Qed.

Lemma distinctBy_eq {A} (l : list A) : distinctBy eq l <-> NoDup l.
Proof.
  induction l as [|a l IH]; simpl.
  - split; [constructor | done].
  - rewrite IH, NoDup_cons. split.
    + intros [Hhead Htail]. split; [| done]. intros Hin. by apply (Hhead a).
    + intros [Hnotin Htail]. split; [| done]. by intros b Hb <-.
Qed.

Lemma samePair_sym (p q : NameAddrPair) : samePair p q -> samePair q p.
Proof. unfold samePair. intros [Hname Haddr]. by split. Qed.

Lemma samePair_pairOf (n1 n2 : string) (ip1 ip2 : netip.Addr) :
  samePair (pairOf n1 ip1) (pairOf n2 ip2) <-> ToLower n1 = ToLower n2 /\ ip1 = ip2.
Proof.
  unfold samePair, pairOf, tagged. simpl. split.
  - intros [Hn [= -> _]]. done.
  - by intros [-> ->].
Qed.

Lemma parsedPair_Some (name text : string) (p : NameAddrPair) :
  parsedPair name text = Some p <->
  exists ip, ParseAddr text = Some ip /\ p = pairOf name ip.
Proof.
  unfold parsedPair. destruct (ParseAddr text) as [ip|]; simpl.
  - split; [intros [= <-]; by exists ip | by intros (ip' & [= <-] & ->)].
  - split; [done | by intros (ip' & ? & _)].
Qed.

(** The pairs of a successful run are those of a list of names and texts
  that has each finding once. *)
Lemma NamesToAddrs_texts (db : AssetDB) (since : time.Time) (names : list string)
  (pairs : list NameAddrPair) :
  fst (NamesToAddrs db since names) = Ok pairs ->
  exists texts : list (string * string),
    NoDup texts /\
    (forall name text, (name, text) ∈ texts <-> gathered db since names name text) /\
    pairs = omap (fun na => parsedPair (fst na) (snd na)) texts.
Proof.
  rewrite NamesToAddrs_result.
  destruct (finalAddrMap db since names) as [m | e] eqn:Hfinal; [| done].
  intros Hgen. apply generatePairs_Ok in Hgen as [-> _].
  exists (textsOf m). split_and!.
  - apply NoDup_textsOf.
  - intros name text. rewrite elem_of_textsOf. apply (gathered_final _ _ _ _ Hfinal).
  - apply collectPairs_texts.
Qed.


(** C5, amended.  A call that succeeds returns one pair for each finding of
  its stages whose address text parses, a finding being a name and an
  address text: however many rows and relations lead to the same name and
  the same text, the list has them once.  The list is free of repeated
  pairs exactly when no name has two different texts that parse to the same
  address; and it is free of pairs that agree up to the case of the
  hostname exactly when, in addition, no two different spellings of a
  hostname have texts that parse to the same address.  Both hold when the
  store keeps every name and every address under one spelling. *)
Theorem NamesToAddrs_pairs_unique (db : AssetDB) (since : time.Time)
  (names : list string) (pairs : list NameAddrPair) :
  fst (NamesToAddrs db since names) = Ok pairs ->
  (exists texts : list (string * string),
     NoDup texts /\
     (forall name text,
        (name, text) ∈ texts <-> gathered db since names name text) /\
     pairs = omap (fun na => parsedPair (fst na) (snd na)) texts) /\
  (NoDup pairs <->
   forall name t1 t2 ip,
     gathered db since names name t1 -> gathered db since names name t2 ->
     ParseAddr t1 = Some ip -> ParseAddr t2 = Some ip -> t1 = t2) /\
  (distinctBy samePair pairs <->
   forall n1 n2 t1 t2 ip,
     gathered db since names n1 t1 -> gathered db since names n2 t2 ->
     ToLower n1 = ToLower n2 ->
     ParseAddr t1 = Some ip -> ParseAddr t2 = Some ip ->
     n1 = n2 /\ t1 = t2).
Proof.
  intros Hrun.
  destruct (NamesToAddrs_texts _ _ _ _ Hrun) as (texts & Hnd & Htexts & ->).
  split; [by exists texts | split].
  - rewrite <- distinctBy_eq, distinctBy_omap by done. split.
    + intros Hcond name t1 t2 ip Hg1%Htexts Hg2%Htexts Hp1 Hp2.
      assert ((name, t1) = (name, t2)) as [= ->]; [| done].
      apply (Hcond _ _ (pairOf name ip) (pairOf name ip)); try done;
        cbn [fst snd]; apply parsedPair_Some; by exists ip.
    + intros Hcond [n1 t1] [n2 t2] z w Hx%Htexts Hy%Htexts Hz Hw Heq.
      cbn [fst snd] in Hz, Hw.
      apply parsedPair_Some in Hz as (ip1 & Hp1 & ->).
      apply parsedPair_Some in Hw as (ip2 & Hp2 & ->).
      apply pairOf_inj in Heq as [-> ->]. f_equal.
      by apply (Hcond n2 t1 t2 ip2).
  - rewrite distinctBy_omap by (done || apply samePair_sym). split.
    + intros Hcond n1 n2 t1 t2 ip Hg1%Htexts Hg2%Htexts Hlow Hp1 Hp2.
      assert ((n1, t1) = (n2, t2)) as [= -> ->]; [| done].
      apply (Hcond _ _ (pairOf n1 ip) (pairOf n2 ip)); try done;
        cbn [fst snd]; apply parsedPair_Some; by exists ip.
    + intros Hcond [n1 t1] [n2 t2] z w Hx%Htexts Hy%Htexts Hz Hw Hsame.
      cbn [fst snd] in Hz, Hw.
      apply parsedPair_Some in Hz as (ip1 & Hp1 & ->).
      apply parsedPair_Some in Hw as (ip2 & Hp2 & ->).
      apply samePair_pairOf in Hsame as [Hlow ->].
      by destruct (Hcond n1 n2 t1 t2 ip2) as [-> ->].
Qed.

End gathering_facts.




(** C5, as stated, fails, in two ways.  In [dirtyDb] the alias chain of
  [b.example.com] ends in an address that the store holds under the two
  spellings [::1] and [0:0:0:0:0:0:0:1]: the set of address texts keeps
  both, both parse to the same address, and the call returns the pair
  twice.  In [caseDb] the store holds the A record of a host under the
  names [A.example.com] and [a.example.com]: the address map is keyed by
  the name as the store spells it, and the call returns the pair once for
  each spelling. *)
Lemma NamesToAddrs_repeats_a_pair :
  let p := utils.pairOf "b.example.com" example.ip_loopback6 in
  let q1 := utils.pairOf "a.example.com" example.ip_93_184_216_34 in
  let q2 := utils.pairOf "A.example.com" example.ip_93_184_216_34 in
  (fst (@utils.NamesToAddrs example.runtime example.dirtyDb example.zeroTime
          ["b.example.com"])
   = utils.Ok [p; p] /\
   ~ NoDup [p; p]) /\
  (fst (@utils.NamesToAddrs example.runtime example_more.caseDb example.zeroTime
          ["a.example.com"])
   = utils.Ok [q1; q2] /\
   @resolver_facts.samePair example.runtime q1 q2 /\
   ~ resolver_facts.distinctBy (@resolver_facts.samePair example.runtime) [q1; q2]).
Proof.
  intros p q1 q2.
  assert (Hsame : @resolver_facts.samePair example.runtime q1 q2)
    by (split; reflexivity).
  split_and!.
  - vm_compute; reflexivity.
  - intros Hnd. apply NoDup_cons in Hnd as [Hnotin _]. apply Hnotin. left.
  - vm_compute; reflexivity.
  - exact Hsame.
  - intros [Hhead _]. apply (Hhead q2); [left | exact Hsame].
Qed.

(** In [diamondDb] two alias chains lead from [b.example.com] to the same
  address: the chain query has two rows with it, and the call returns the
  pair once. *)
Lemma NamesToAddrs_pairs_unique_witness :
  let p := utils.pairOf "b.example.com" example.ip_203_0_113_7 in
  assetdb.RawQuery example_more.diamondDb
    (@utils.cnameQuery example.runtime "b.example.com" example.zeroTime)
  = assetdb.Rows
      [ {| assetdb.Name := "d.example.com"; assetdb.Addr := "203.0.113.7" |};
        {| assetdb.Name := "e.example.com"; assetdb.Addr := "203.0.113.7" |} ] /\
  fst (@utils.NamesToAddrs example.runtime example_more.diamondDb example.zeroTime
         ["b.example.com"]) = utils.Ok [p] /\
  NoDup [p] /\
  resolver_facts.distinctBy (@resolver_facts.samePair example.runtime) [p].
Proof.
  intros p.
  assert (Hrun : fst (@utils.NamesToAddrs example.runtime example_more.diamondDb
                        example.zeroTime ["b.example.com"]) = utils.Ok [p])
    by (vm_compute; reflexivity).
  assert (Hmap : @utils.finalAddrMap example.runtime example_more.diamondDb
                   example.zeroTime ["b.example.com"]
                 = utils.Ok {[ "b.example.com" := {[ "203.0.113.7" ]} ]})
    by (vm_compute; reflexivity).
  assert (Hone : forall n t,
             @resolver_facts.gathered example.runtime example_more.diamondDb
               example.zeroTime ["b.example.com"] n t ->
             n = "b.example.com" /\ t = "203.0.113.7").
  { intros n t Hg. apply (gathered_final _ _ _ _ Hmap) in Hg as (set & Hlook & Hin).
    apply lookup_singleton_Some in Hlook as [<- <-].
    apply elem_of_singleton in Hin. split; [reflexivity | exact Hin]. }
  destruct (@NamesToAddrs_pairs_unique example.runtime example_more.diamondDb
              example.zeroTime ["b.example.com"] _ Hrun) as (_ & Hexact & Hcase).
  split_and!.
  - vm_compute; reflexivity.
  - exact Hrun.
  - apply Hexact. intros name t1 t2 ip [_ ->]%Hone [_ ->]%Hone _ _. reflexivity.
  - apply Hcase. intros n1 n2 t1 t2 ip [-> ->]%Hone [-> ->]%Hone _ _ _.
    split; reflexivity.
Defined.
